(** * The proxy route handler of [server/api/proxy/[...path].ts]

    A shallow embedding of the catch-all proxy handler: request
    classification, upstream URL construction, credential forwarding, body
    transport and response normalisation, followed by the properties of the
    handler that the specification states.

    Conventions.
    - A JavaScript string is a [string] of bytes: request headers are the
      Latin-1 text Node hands out, every other text is UTF-8.
    - A JavaScript object used as a dictionary is a [gmap string _]; the
      query object keeps its enumeration order and is an association list.
    - What the handler obtains from the runtime (the URL parser, the body
      reader, [fetch], [process.env.NODE_ENV]) is a field of [world].
    - Effects on the response object and the outbound call are threaded
      through a small state-and-exception monad [M]. *)

From Stdlib Require Import String Ascii ZArith List Bool Lia.
From stdpp Require Import gmap strings list fin_maps pretty.

#[local] Set Warnings "-register-all".
#[local] Open Scope string_scope.

(** ** Strings as the handler uses them *)

Module Str.

(** [s.startsWith(p)] *)
Definition startsWith (s p : string) : bool := String.prefix p s.

(** [s.includes(p)] *)
Fixpoint includes (s p : string) : bool :=
  String.prefix p s ||
  match s with
  | EmptyString => false
  | String _ r => includes r p
  end.

(** [s.substring(n)] *)
Fixpoint substring_from (n : nat) (s : string) : string :=
  match n, s with
  | O, _ => s
  | S _, EmptyString => EmptyString
  | S m, String _ r => substring_from m r
  end.

(** [s.split(c)] for a one-character separator: never the empty list. *)
Fixpoint split (c : ascii) (s : string) : list string :=
  match s with
  | EmptyString => [EmptyString]
  | String a r =>
      if Ascii.eqb a c then EmptyString :: split c r
      else match split c r with
           | h :: t => String a h :: t
           | [] => [String a EmptyString]
           end
  end.

(** The character [c] occurs in [s]. *)
Fixpoint has_char (c : ascii) (s : string) : bool :=
  match s with
  | EmptyString => false
  | String a r => Ascii.eqb a c || has_char c r
  end.

(** [l.join(sep)] *)
Definition join (sep : string) (l : list string) : string := String.concat sep l.

(** [s.replace(pat, rep)] with a string pattern: the first occurrence only.
    The replacement texts of the handler contain no [$]. *)
Fixpoint replace_first (pat rep s : string) : string :=
  if String.prefix pat s then rep +:+ substring_from (String.length pat) s
  else match s with
       | EmptyString => EmptyString
       | String c r => String c (replace_first pat rep r)
       end.

(** [s.replace(/^http/, "ws")] *)
Definition replace_http_ws (s : string) : string :=
  if startsWith s "http" then "ws" +:+ substring_from 4 s else s.

(** [s.toLowerCase()] on Latin-1 text: A-Z, and the letters 0xC0-0xDE
    other than the multiplication sign 0xD7, move up by 0x20. *)
Definition lower_ascii (c : ascii) : ascii :=
  let n := nat_of_ascii c in
  if (((65 <=? n) && (n <=? 90)) || ((192 <=? n) && (n <=? 222) && negb (n =? 215)))%nat
  then ascii_of_nat (n + 32) else c.

Fixpoint toLowerCase (s : string) : string :=
  match s with
  | EmptyString => EmptyString
  | String c r => String (lower_ascii c) (toLowerCase r)
  end.

Definition bytes (l : list nat) : string := string_of_list_ascii (map ascii_of_nat l).

(** White space per ECMAScript [String.prototype.trim], each code point in
    its UTF-8 encoding: TAB LF VT FF CR SP, U+00A0, U+1680, U+2000..U+200A,
    U+2028, U+2029, U+202F, U+205F, U+3000, U+FEFF. *)
Definition white_space : list string :=
  map bytes
    ([[9]; [10]; [11]; [12]; [13]; [32]; [194; 160]; [225; 154; 128]] ++
     map (fun n => [226; 128; n]) [128; 129; 130; 131; 132; 133; 134; 135; 136; 137; 138] ++
     [[226; 128; 168]; [226; 128; 169]; [226; 128; 175]; [226; 129; 159];
      [227; 128; 128]; [239; 187; 191]])%list.

Definition rev (s : string) : string := string_of_list_ascii (List.rev (list_ascii_of_string s)).

(** Strips one leading token of [toks], if there is one. *)
Definition strip_one (toks : list string) (s : string) : option string :=
  match List.find (fun t => String.prefix t s) toks with
  | Some t => Some (substring_from (String.length t) s)
  | None => None
  end.

Fixpoint strip_many (fuel : nat) (toks : list string) (s : string) : string :=
  match fuel with
  | O => s
  | S f => match strip_one toks s with
           | Some r => strip_many f toks r
           | None => s
           end
  end.

Definition trimStart (s : string) : string := strip_many (String.length s) white_space s.

Definition trimEnd (s : string) : string :=
  rev (strip_many (String.length s) (map rev white_space) (rev s)).

(** [s.trim()] *)
Definition trim (s : string) : string := trimEnd (trimStart s).

(** The white space of [trim] among the characters below U+0100: TAB LF VT
    FF CR SP and U+00A0.  A header value reaches the handler decoded as
    Latin-1, one character for each byte, so that these are the characters
    [trim] removes from it. *)
Definition latin1_space (c : ascii) : bool :=
  let n := nat_of_ascii c in
  (((9 <=? n) && (n <=? 13)) || (n =? 32) || (n =? 160))%nat.

Fixpoint trimStart_latin1 (s : string) : string :=
  match s with
  | EmptyString => EmptyString
  | String c r => if latin1_space c then trimStart_latin1 r else s
  end.

(** [s.trim()] on a header value. *)
Definition trim_latin1 (s : string) : string :=
  rev (trimStart_latin1 (rev (trimStart_latin1 s))).

(** JavaScript truthiness of a string. *)
Definition nonempty (s : string) : bool := negb (String.eqb s "").

End Str.

(** ** Percent-encoding *)

Module Uri.

Definition hex_digit (n : nat) : ascii :=
  ascii_of_nat (if (n <? 10)%nat then 48 + n else 55 + n).

Definition percent (c : ascii) : string :=
  let n := nat_of_ascii c in
  String "%" (String (hex_digit (n / 16)) (String (hex_digit (n mod 16)) EmptyString)).

Definition is_alnum (c : ascii) : bool :=
  let n := nat_of_ascii c in
  (((48 <=? n) && (n <=? 57)) || ((65 <=? n) && (n <=? 90)) || ((97 <=? n) && (n <=? 122)))%nat.

Definition one_of (set : string) (c : ascii) : bool :=
  existsb (Ascii.eqb c) (list_ascii_of_string set).

(** The characters [encodeURIComponent] leaves alone. *)
Definition uri_unreserved (c : ascii) : bool := is_alnum c || one_of "-_.!~*'()" c.

(** [encodeURIComponent(s)] on well-formed text. *)
Fixpoint encodeURIComponent (s : string) : string :=
  match s with
  | EmptyString => EmptyString
  | String c r =>
      (if uri_unreserved c then String c EmptyString else percent c)
      +:+ encodeURIComponent r
  end.

Definition hex_value (c : ascii) : option nat :=
  let n := nat_of_ascii c in
  if ((48 <=? n) && (n <=? 57))%nat then Some (n - 48)
  else if ((65 <=? n) && (n <=? 70))%nat then Some (n - 55)
  else if ((97 <=? n) && (n <=? 102))%nat then Some (n - 87)
  else None.

(** Percent-decoding of one component ([None]: a malformed escape). *)
Fixpoint percent_decode (s : string) : option string :=
  match s with
  | EmptyString => Some EmptyString
  | String "%" (String h (String l r)) =>
      match hex_value h, hex_value l, percent_decode r with
      | Some a, Some b, Some d => Some (String (ascii_of_nat (16 * a + b)) d)
      | _, _, _ => None
      end
  | String "%" _ => None
  | String c r =>
      match percent_decode r with
      | Some d => Some (String c d)
      | None => None
      end
  end.

(** The application/x-www-form-urlencoded byte serialiser behind
    [URLSearchParams.prototype.toString]. *)
Fixpoint form_encode (s : string) : string :=
  match s with
  | EmptyString => EmptyString
  | String c r =>
      (if is_alnum c || one_of "*-._" c then String c EmptyString
       else if Ascii.eqb c " " then "+"
       else percent c)
      +:+ form_encode r
  end.

(** [new URLSearchParams(entries).toString()] *)
Definition form_urlencoded (entries : list (string * string)) : string :=
  Str.join "&" (map (fun kv => form_encode kv.1 +:+ "=" +:+ form_encode kv.2) entries).

End Uri.

(** ** Values *)

(** JSON values: what [readBody], [response.json()] and the handler's own
    object literals are made of.  Numbers are the integers (status codes). *)
Inductive json :=
| JNull
| JBool (b : bool)
| JNum (n : Z)
| JStr (s : string)
| JArr (l : list json)
| JObj (m : gmap string json).

(** A query value as [getQuery] yields it: a string, or the list of the
    values of a repeated key. *)
Inductive qval :=
| QStr (s : string)
| QList (l : list string).

(** [String(v)], which is also what a template literal and
    [URLSearchParams] make of a query value. *)
Definition qval_to_string (v : qval) : string :=
  match v with
  | QStr s => s
  | QList l => Str.join "," l
  end.

(** JavaScript truthiness. *)
Definition qval_truthy (v : qval) : bool :=
  match v with
  | QStr s => Str.nonempty s
  | QList _ => true
  end.

Definition json_truthy (v : json) : bool :=
  match v with
  | JNull => false
  | JBool b => b
  | JNum n => negb (n =? 0)%Z
  | JStr s => Str.nonempty s
  | JArr _ | JObj _ => true
  end.

(** A string-valued property that may be [undefined]; [Some v] when the
    value is truthy. *)
Definition truthy (o : option string) : option string :=
  match o with
  | Some v => if Str.nonempty v then Some v else None
  | None => None
  end.

(** ** Configuration, request and runtime *)

(** The five base URLs, each [process.env.X || default]. *)
Record config := {
  API_BASE_URL : string;
  GROUP_API_BASE_URL : string;
  NOTIFICATION_API_BASE_URL : string;
  FILE_SERVICE_BASE_URL : string;
  PRESENCE_SERVICE_BASE_URL : string;
}.

Definition default_config : config := {|
  API_BASE_URL := "http://localhost:8081/api";
  GROUP_API_BASE_URL := "http://localhost:8082/api";
  NOTIFICATION_API_BASE_URL := "http://localhost:8083/api";
  FILE_SERVICE_BASE_URL := "http://localhost:8084";
  PRESENCE_SERVICE_BASE_URL := "http://localhost:8085/api";
|}.

Record request := {
  req_method : string;                 (* getMethod(event) *)
  req_path : string;                   (* pathArray.join("/") *)
  req_headers : gmap string string;    (* getRequestHeaders(event), lower-case names *)
  req_query : list (string * qval);    (* getQuery(event), in enumeration order *)
}.

(** A thrown [Error]. *)
Record exn := { e_message : string; e_stack : string }.

(** A [Response] of [fetch].  [r_headers] is [response.headers.entries()]
    (lower-case names); the three readers may throw. *)
Record response := {
  r_status : Z;
  r_statusText : string;
  r_headers : list (string * string);
  r_json : option json;            (* response.json(), None: it throws *)
  r_text : option string;          (* response.text(), None: it throws *)
  r_arrayBuffer : exn + string;    (* response.arrayBuffer() *)
}.

(** [fetch(url, {method, headers, credentials: "include", body})] *)
Record fetch_call := {
  f_url : string;
  f_method : string;
  f_headers : gmap string string;
  f_body : option string;
}.

(** The runtime around one request. *)
Record world := {
  NODE_ENV : option string;                           (* process.env.NODE_ENV *)
  new_URL : string -> exn + string;                   (* new URL(s): throws, or the href *)
  append_params : string -> list (string * string) -> string;
    (* the href after searchParams.append of each entry *)
  readBody : exn + option json;                       (* None: undefined or null *)
  JSON_stringify : json -> string;
  fetch : fetch_call -> exn + response;
  stack_of : string -> string;                        (* the stack of new Error(msg) *)
}.

(** [new Error(msg)] *)
Definition Error (w : world) (msg : string) : exn :=
  {| e_message := msg; e_stack := stack_of w msg |}.

(** The call the handler hands to the network. *)
Inductive outbound :=
| Fetched (c : fetch_call)                                   (* await fetch(url, options) *)
| SentProxy (target : string) (headers : gmap string string)      (* return sendProxy(event, target, {headers}) *)
| ProxiedRequest (target : string) (headers : gmap string string). (* return proxyRequest(event, target, {headers}) *)

(** What the handler returns. *)
Inductive retval :=
| RetPreflight            (* new Response(null, {status: 200}) *)
| RetDelegated            (* the promise of the h3 proxy call, returned as it is *)
| RetValue (v : json)     (* an object or a string, serialised by the runtime *)
| RetBytes (b : string).  (* new Uint8Array(buffer) *)

(** What the handler did to the outside: the outbound call, and the status
    code and headers it set on [event.node.res] ([None]: the status was never
    assigned and the runtime's default stands). *)
Record effects := {
  eff_call : option outbound;
  eff_status : option Z;
  eff_headers : gmap string string;
}.

(** ** The state-and-exception monad of the handler body *)

Definition M (A : Type) : Type := effects -> effects * (exn + A).

#[export] Instance M_ret : MRet M := fun A a s => (s, inr a).

#[export] Instance M_bind : MBind M := fun A B k m s =>
  match m s with
  | (s', inl e) => (s', inl e)
  | (s', inr a) => k a s'
  end.

Definition throw {A} (e : exn) : M A := fun s => (s, inl e).

(** [try { m } catch (e) { h e }] *)
Definition try_catch {A} (m : M A) (h : exn -> M A) : M A := fun s =>
  match m s with
  | (s', inl e) => h e s'
  | (s', inr a) => (s', inr a)
  end.

(** A runtime operation that may throw. *)
Definition lift {A} (r : exn + A) : M A := fun s => (s, r).

(** [setHeader(event, k, v)] and [event.node.res.setHeader(k, v)]: header
    names are case-insensitive, the response keeps them in lower case. *)
Definition setHeader (k v : string) : M unit := fun s =>
  ({| eff_call := eff_call s; eff_status := eff_status s;
      eff_headers := <[Str.toLowerCase k := v]> (eff_headers s) |}, inr tt).

Definition setStatus (n : Z) : M unit := fun s =>
  ({| eff_call := eff_call s; eff_status := Some n; eff_headers := eff_headers s |}, inr tt).

Definition call (o : outbound) : M unit := fun s =>
  ({| eff_call := Some o; eff_status := eff_status s; eff_headers := eff_headers s |}, inr tt).

(** ** Helpers of the source file *)

Inductive scan := Normal | Keep | Skip.

(** [url.replace(/([^:]\/)\/+/g, "$1")]: a left-to-right scan.  [Normal]
    looks for a character other than [:] followed by two slashes; [Keep] copies
    the slash of the group; [Skip] drops the slashes of [\/+]. *)
Fixpoint collapse_slashes (st : scan) (s : string) : string :=
  match s with
  | EmptyString => EmptyString
  | String c r =>
      let start :=
        if negb (Ascii.eqb c ":") && Str.startsWith r "//"
        then String c (collapse_slashes Keep r)
        else String c (collapse_slashes Normal r) in
      match st with
      | Keep => String c (collapse_slashes Skip r)
      | Skip => if Ascii.eqb c "/" then collapse_slashes Skip r else start
      | Normal => start
      end
  end.

Definition ensureValidUrl (url : string) : string :=
  let url :=
    if negb (Str.startsWith url "http://") && negb (Str.startsWith url "https://")
    then "http://" +:+ url else url in
  collapse_slashes Normal url.

(** [setCorsHeaders(event)] *)
Definition setCorsHeaders : M unit :=
  _ ← setHeader "Access-Control-Allow-Origin" "*";
  _ ← setHeader "Access-Control-Allow-Methods" "GET, POST, PUT, DELETE, OPTIONS, PATCH";
  _ ← setHeader "Access-Control-Allow-Headers"
        "Content-Type, Authorization, X-Requested-With, Accept";
  setHeader "Access-Control-Allow-Credentials" "true".

(** [validateToken(token)]: every path through it that has a token returns
    [true]; the handler only logs the result. *)
Definition validateToken (token : option string) : bool :=
  match truthy token with
  | Some _ => true
  | None => false
  end.

(** ** Request classification *)

(** [query[k]] *)
Fixpoint lookup_query (query : list (string * qval)) (k : string) : option qval :=
  match query with
  | [] => None
  | (k', v) :: rest => if String.eqb k' k then Some v else lookup_query rest k
  end.

(** [query[k]] when it is truthy. *)
Definition query_truthy (query : list (string * qval)) (k : string) : option qval :=
  match lookup_query query k with
  | Some v => if qval_truthy v then Some v else None
  | None => None
  end.

Definition defined {A} (o : option A) : bool :=
  match o with Some _ => true | None => false end.

(** [Object.keys(query).length > 0] *)
Definition has_keys (query : list (string * qval)) : bool :=
  match query with [] => false | _ :: _ => true end.

(** The path with a leading [api/proxy/] or [proxy/] removed. *)
Definition clean_path (joined : string) : string :=
  if Str.startsWith joined "api/proxy/" then Str.substring_from 10 joined
  else if Str.startsWith joined "proxy/" then Str.substring_from 6 joined
  else joined.

Definition pathString (req : request) : string := clean_path (req_path req).

Definition forcedMethod (req : request) : string :=
  if Str.includes (req_path req) "friends/add" then "POST" else req_method req.

Definition isAuthEndpoint (pathString : string) : bool :=
  String.eqb pathString "auth/login" || String.eqb pathString "login" ||
  String.eqb pathString "auth/register" || String.eqb pathString "register".

(** The backend a base URL was taken from. *)
Inductive service := General | Group | Notification | File | Presence.

(** The routing variables of the handler; [svc] names the constant the last
    assignment to [baseUrl] read. *)
Record route := {
  svc : service;
  baseUrl : string;
  isFileRequest : bool;
}.

(** The condition of the message-endpoint [if]. *)
Definition is_message_endpoint (pathString : string) : bool :=
  Str.startsWith pathString "message" ||
  Str.includes pathString "/message" ||
  Str.startsWith pathString "groups/messages" ||
  (Str.startsWith pathString "group/" && Str.includes pathString "/messages").

Definition has_protocol (url : string) : bool :=
  Str.startsWith url "http://" || Str.startsWith url "https://".

(** Service selection: the message [if], then the chain
    notifications / presence / group / files-or-media, which assigns
    [baseUrl] again when one of its branches is taken. *)
Definition classify (cfg : config) (pathString : string) (query : list (string * qval)) : route :=
  let r0 := {| svc := General; baseUrl := API_BASE_URL cfg; isFileRequest := false |} in
  let r1 :=
    if is_message_endpoint pathString
    then {| svc := Group; baseUrl := GROUP_API_BASE_URL cfg; isFileRequest := false |}
    else r0 in
  if Str.startsWith pathString "notifications" then
    {| svc := Notification; baseUrl := NOTIFICATION_API_BASE_URL cfg; isFileRequest := false |}
  else if Str.startsWith pathString "presence" then
    let base := PRESENCE_SERVICE_BASE_URL cfg in
    {| svc := Presence;
       baseUrl :=
         if Str.startsWith pathString "presence/users" && has_keys query
            && defined (query_truthy query "user_ids")
            && negb (has_protocol base)
         then "http://" +:+ base else base;
       isFileRequest := false |}
  else if (Str.startsWith pathString "groups" || Str.startsWith pathString "group")
          && negb (Str.includes pathString "message") then
    {| svc := Group; baseUrl := ensureValidUrl (GROUP_API_BASE_URL cfg); isFileRequest := false |}
  else if Str.startsWith pathString "files" || Str.startsWith pathString "media" then
    {| svc := File; baseUrl := FILE_SERVICE_BASE_URL cfg; isFileRequest := true |}
  else r1.

(** ** WebSocket detection *)

Definition header (req : request) (name : string) : option string :=
  truthy (req_headers req !! name).

Definition isWebSocketRequest (req : request) : bool :=
  match req_headers req !! "connection", req_headers req !! "upgrade" with
  | Some c, Some u =>
      Str.includes (Str.toLowerCase c) "upgrade" &&
      String.eqb (Str.toLowerCase u) "websocket"
  | _, _ => false
  end.

(** [wsTarget], [None] for the empty string. *)
Definition wsTarget (cfg : config) (pathString : string) : option string :=
  if Str.startsWith pathString "messages/ws"
  then Some (Str.replace_http_ws (GROUP_API_BASE_URL cfg) +:+ "/messages/ws")
  else if Str.startsWith pathString "presence/ws"
  then Some (Str.replace_http_ws (PRESENCE_SERVICE_BASE_URL cfg) +:+ "/presence/ws")
  else None.

(** The cookie header as the [reduce] reads it: for each [;]-separated piece,
    trimmed and split at [=], [acc[parts[0]] = parts[1]].  The header is
    Latin-1 text, and [trim] removes its white space, U+00A0 included. *)
Definition parse_cookies (cookieStr : string) : gmap string (option string) :=
  foldl (fun acc cookie =>
           let parts := Str.split "=" (Str.trim_latin1 cookie) in
           <[nth 0 parts "" := nth_error parts 1]> acc)
        ∅ (Str.split ";" cookieStr).

(** [cookies.auth_token] when it is truthy. *)
Definition cookie_auth_token (cookieStr : string) : option string :=
  match parse_cookies cookieStr !! "auth_token" with
  | Some v => truthy v
  | None => None
  end.

(** ** Upstream URL construction *)

(** [baseUrl.startsWith("http") ? baseUrl : `http://${baseUrl}`] *)
Definition baseWithProtocol (baseUrl : string) : string :=
  if Str.startsWith baseUrl "http" then baseUrl else "http://" +:+ baseUrl.

(** The same with the test on [http://] and [https://]. *)
Definition baseWithScheme (baseUrl : string) : string :=
  if has_protocol baseUrl then baseUrl else "http://" +:+ baseUrl.

Definition is_message_path (pathString : string) : bool :=
  Str.startsWith pathString "messages/" || Str.startsWith pathString "message/".

(** [idParts.map((id) => encodeURIComponent(id.trim())).join(",")] for
    [idParts = userIdsValue.split(",")].  On the well-formed text of the model
    [encodeURIComponent] does not throw. *)
Definition encodedIds (userIdsValue : string) : string :=
  Str.join "," (map (fun id => Uri.encodeURIComponent (Str.trim id))
                    (Str.split "," userIdsValue)).

(** The [user_ids] part of a [presence/users] URL.  A string with a comma is
    split, each id trimmed and encoded on its own, and joined with commas; a
    string without one goes through [URLSearchParams].  An array has no
    [split]: the [catch] block (or the [else] branch) serialises it through
    [URLSearchParams] as well. *)
Definition presence_users_url (url : string) (query : list (string * qval)) : string :=
  match query_truthy query "user_ids" with
  | Some (QStr userIdsValue) =>
      if Str.includes userIdsValue ","
      then url +:+ "?user_ids=" +:+ encodedIds userIdsValue
      else url +:+ "?" +:+ Uri.form_urlencoded [("user_ids", userIdsValue)]
  | Some (QList l) =>
      url +:+ "?" +:+ Uri.form_urlencoded [("user_ids", qval_to_string (QList l))]
  | None => url
  end.

(** The chain that builds [url] from the route and the path. *)
Definition build_url (w : world) (method pathString : string)
    (query : list (string * qval)) (rt : route) : string :=
  let baseUrl := baseUrl rt in
  let parts := Str.split "/" pathString in
  if String.eqb pathString "messages/history" || String.eqb pathString "message/history" then
    baseWithProtocol baseUrl +:+ "/messages/history"
  else if Str.startsWith pathString "presence/users" then
    presence_users_url (baseWithProtocol baseUrl +:+ "/presence/users") query
  else if Str.startsWith pathString "message/" && (length parts =? 2)%nat
          && String.eqb method "GET" then
    baseWithProtocol baseUrl +:+ "/messages/" +:+ nth 1 parts ""
  else if is_message_path pathString && (2 <=? length parts)%nat
          && String.eqb method "DELETE" then
    baseWithProtocol baseUrl +:+ "/messages/" +:+ nth 1 parts ""
  else if is_message_path pathString && (2 <=? length parts)%nat
          && (String.eqb method "PUT" || String.eqb method "PATCH") then
    baseWithProtocol baseUrl +:+ "/messages/" +:+ nth 1 parts ""
  else if (String.eqb pathString "messages" || String.eqb pathString "message")
          && String.eqb method "POST" then
    baseWithProtocol baseUrl +:+ "/messages"
  else if is_message_path pathString
          && (Str.includes pathString "/read" || Str.includes pathString "/search"
              || Str.includes pathString "/unread-count") then
    let normalizedPath :=
      if Str.startsWith pathString "message/"
      then Str.replace_first "message/" "messages/" pathString
      else pathString in
    baseWithProtocol baseUrl +:+ "/" +:+ normalizedPath
  else if Str.startsWith pathString "presence/" then
    baseWithProtocol baseUrl +:+ "/" +:+ pathString
  else if isFileRequest rt then
    if Str.startsWith pathString "files/" then
      baseUrl +:+ "/api/files/" +:+ Str.substring_from 6 pathString
    else if Str.startsWith pathString "media/" then
      baseUrl +:+ "/api/media/" +:+ Str.substring_from 6 pathString
    else if String.eqb pathString "files" then baseUrl +:+ "/api/files"
    else if String.eqb pathString "media" then baseUrl +:+ "/api/media"
    else baseUrl +:+ "/api/" +:+ pathString
  else if Str.startsWith pathString "presence" then
    baseUrl +:+ "/" +:+ pathString
  else if Str.startsWith pathString "notifications" then
    baseUrl +:+ "/" +:+ pathString
  else if Str.startsWith pathString "groups" || Str.startsWith pathString "group" then
    let url := baseWithScheme baseUrl +:+ "/" +:+ pathString in
    match new_URL w url with
    | inr _ => url
    | inl _ => ensureValidUrl url
    end
  else
    baseWithScheme baseUrl +:+ "/" +:+ pathString.

(** The query string is appended unless the URL already has one. *)
Definition add_query (url : string) (query : list (string * qval)) : string :=
  if Str.includes url "?" then url
  else
    let queryString :=
      Uri.form_urlencoded (map (fun kv => (kv.1, qval_to_string kv.2)) query) in
    if Str.nonempty queryString then url +:+ "?" +:+ queryString else url.

(** The extra validation of [messages/history] URLs: an URL the parser
    refuses gets a protocol and its duplicate slashes collapsed. *)
Definition repair_history (w : world) (pathString url : string) : string :=
  if Str.includes pathString "messages/history" then
    match new_URL w url with
    | inr _ => url
    | inl _ => ensureValidUrl url
    end
  else url.

(** The URL the request is forwarded to. *)
Definition resolve_url (w : world) (method pathString : string)
    (query : list (string * qval)) (rt : route) : string :=
  repair_history w pathString (add_query (build_url w method pathString query rt) query).

(** ** Credentials *)

(** [a.startsWith("Bearer ") ? a : `Bearer ${a}`] *)
Definition bearer (authorization : string) : string :=
  if Str.startsWith authorization "Bearer " then authorization
  else "Bearer " +:+ authorization.

(** The [Authorization] entry of [headers], if the handler sets one. *)
Definition authorization_header (req : request) (isAuthEndpoint : bool) : option string :=
  match header req "authorization" with
  | Some a => Some (bearer a)
  | None =>
      match header req "cookie" with
      | Some cookieStr =>
          if negb isAuthEndpoint then
            match cookie_auth_token cookieStr with
            | Some t => Some ("Bearer " +:+ t)
            | None => None
            end
          else None
      | None => None
      end
  end.

Definition with_authorization (auth : option string) (h : gmap string string) : gmap string string :=
  match auth with
  | Some a => <["Authorization" := a]> h
  | None => h
  end.

(** The [headers] object of the [fetch] call. *)
Definition fetch_headers (req : request) (isAuthEndpoint : bool) : gmap string string :=
  with_authorization (authorization_header req isAuthEndpoint)
    (<["Accept" := "application/json"]> (<["Content-Type" := "application/json"]> ∅)).

(** The [Authorization] entry of [proxyHeaders] in the upload branch:
    [headers.Authorization], else the request header, else the cookie. *)
Definition upload_authorization (req : request) (headersAuthorization : option string)
  : option string :=
  match truthy headersAuthorization with
  | Some a => Some a
  | None =>
      match header req "authorization" with
      | Some a => Some (bearer a)
      | None =>
          match header req "cookie" with
          | Some cookieStr =>
              match cookie_auth_token cookieStr with
              | Some t => Some ("Bearer " +:+ t)
              | None => None
              end
          | None => None
          end
      end
  end.

(** A request header that the upload branch copies. *)
Definition copied_header (key : string) : bool :=
  let lowerKey := Str.toLowerCase key in
  negb (String.eqb lowerKey "content-type") &&
  negb (String.eqb lowerKey "content-length") &&
  negb (String.eqb lowerKey "authorization").

(** [proxyHeaders] *)
Definition proxyHeaders (req : request) (headersAuthorization : option string)
  : gmap string string :=
  filter (fun kv => copied_header kv.1 = true) (req_headers req)
  ∪ with_authorization (upload_authorization req headersAuthorization) ∅.

(** ** Body transport *)

(** [["POST", "PUT", "PATCH", "DELETE"].includes(method)] *)
Definition has_body (method : string) : bool :=
  existsb (String.eqb method) ["POST"; "PUT"; "PATCH"; "DELETE"].

(** [requestHeaders["content-type"]?.includes("multipart/form-data")] *)
Definition is_upload (req : request) : bool :=
  match req_headers req !! "content-type" with
  | Some ct => Str.includes ct "multipart/form-data"
  | None => false
  end.

(** The upload branch: the URL is parsed and the request handed to
    [sendProxy] with [proxyHeaders]; the body is not read.  [sendProxy] is
    an async function, so the handler returns its promise, and only the URL
    parser can throw inside the [try]. *)
Definition upload (w : world) (req : request) (url : string)
    (headersAuthorization : option string) : M retval :=
  try_catch
    (targetUrl ← lift (new_URL w url);
     _ ← call (SentProxy targetUrl (proxyHeaders req headersAuthorization));
     mret RetDelegated)
    (fun _ => throw (Error w "Failed to proxy file upload")).

(** The logging of an auth request's body calls [includes] and [endsWith] on
    [body.email]: a truthy email that is not a string throws a [TypeError],
    unless it is an array that contains ["@gmail.coma"]. *)
Definition email_log_throws (body : json) : bool :=
  match body with
  | JObj m =>
      match m !! "email" with
      | Some email =>
          json_truthy email &&
          match email with
          | JStr _ => false
          | JArr l =>
              negb (existsb (fun v => match v with
                                      | JStr s => String.eqb s "@gmail.coma"
                                      | _ => false
                                      end) l)
          | _ => true
          end
      | None => false
      end
  | _ => false
  end.

(** The JSON branch: [options.body], if the request has a body. *)
Definition read_json_body (w : world) (isAuthEndpoint : bool) : M (option string) :=
  try_catch
    (body ← lift (readBody w);
     match body with
     | Some b =>
         if isAuthEndpoint && email_log_throws b
         then throw (Error w "body.email.includes is not a function")
         else mret (Some (JSON_stringify w b))
     | None => mret None
     end)
    (fun _ => throw (Error w "Failed to process request body")).

(** ** Response normalisation *)

(** [response.headers.get(name)] *)
Definition headers_get (hs : list (string * string)) (name : string) : option string :=
  match List.find (fun kv => String.eqb (Str.toLowerCase kv.1) name) hs with
  | Some kv => Some kv.2
  | None => None
  end.

(** [response.ok] *)
Definition r_ok (r : response) : bool := ((200 <=? r_status r) && (r_status r <=? 299))%Z.

(** [contentType && contentType.includes("application/json")] *)
Definition is_json (contentType : option string) : bool :=
  match truthy contentType with
  | Some ct => Str.includes ct "application/json"
  | None => false
  end.

(** The body read by content type, [None] when the reader throws. *)
Definition read_response (r : response) : option json :=
  if is_json (headers_get (r_headers r) "content-type") then r_json r
  else JStr <$> r_text r.

(** The own enumerable properties of an array. *)
Definition array_entries (l : list json) : gmap string json :=
  list_to_map (imap (fun i v => (pretty i, v)) l).

(** The object returned for a response that is not [ok]. *)
Definition error_response (r : response) : json :=
  let errorBody := default (JStr "Error parsing response") (read_response r) in
  let status_fields (m : gmap string json) :=
    <["statusText" := JStr (r_statusText r)]> (<["status" := JNum (r_status r)]> m) in
  match errorBody with
  | JStr message =>
      JObj (status_fields (<["message" := JStr message]> (<["error" := JBool true]> ∅)))
  | JObj m => JObj (status_fields m)
  | JArr l => JObj (status_fields (array_entries l))
  | JNull | JBool _ | JNum _ => JObj (status_fields ∅)
  end.

Definition isFileDownload (rt : route) (method pathString : string) (r : response) : bool :=
  isFileRequest rt && Str.includes pathString "/files/" && String.eqb method "GET" &&
  match truthy (headers_get (r_headers r) "content-type") with
  | Some ct => negb (Str.includes ct "application/json")
  | None => false
  end.

Fixpoint copy_headers (hs : list (string * string)) : M unit :=
  match hs with
  | [] => mret tt
  | (key, value) :: rest => _ ← setHeader key value; copy_headers rest
  end.

(** Everything after [fetch] has answered. *)
Definition respond (rt : route) (method pathString : string) (r : response) : M retval :=
  if negb (r_ok r) then
    _ ← setStatus (r_status r);
    mret (RetValue (error_response r))
  else if isFileDownload rt method pathString r then
    _ ← copy_headers (r_headers r);
    buffer ← lift (r_arrayBuffer r);
    mret (RetBytes buffer)
  else
    mret (RetValue (default (JObj {["error" := JStr "Failed to parse response"]})
                            (read_response r))).

(** ** The handler *)

(** The token of a WebSocket upgrade: the query's, else the cookie's. *)
Definition websocket_token (req : request) : option string :=
  match query_truthy (req_query req) "token" with
  | Some token => Some (qval_to_string token)
  | None =>
      match header req "cookie" with
      | Some cookieStr => cookie_auth_token cookieStr
      | None => None
      end
  end.

Definition with_header (name : string) (value : option string) (h : gmap string string)
  : gmap string string :=
  match value with
  | Some v => <[name := v]> h
  | None => h
  end.

(** The headers given to [proxyRequest]. *)
Definition websocket_headers (req : request) : gmap string string :=
  with_header "Sec-WebSocket-Extensions" (header req "sec-websocket-extensions")
    (with_header "Sec-WebSocket-Version" (header req "sec-websocket-version")
       (with_header "Sec-WebSocket-Key" (header req "sec-websocket-key")
          (with_header "Origin" (header req "origin")
             (with_header "Authorization"
                ((fun token => "Bearer " +:+ token) <$> websocket_token req)
                (<["Connection" := "Upgrade"]> (<["Upgrade" := "websocket"]> ∅)))))).

(** The WebSocket branch.  [proxyRequest] is an async function: the handler
    returns its promise, and the [try] around the call has nothing to catch. *)
Definition upgrade (w : world) (req : request) (wsTarget : string) : M retval :=
  href ← lift (new_URL w wsTarget);
  let target :=
    if has_keys (req_query req)
    then append_params w href (map (fun kv => (kv.1, qval_to_string kv.2)) (req_query req))
    else href in
  _ ← call (ProxiedRequest target (websocket_headers req));
  mret RetDelegated.

(** The [presence/ws] branch: the client is told where to connect. *)
Definition presence_ws (w : world) (cfg : config) (req : request) : M retval :=
  match query_truthy (req_query req) "token" with
  | None => throw (Error w "No token provided for WebSocket connection")
  | Some token =>
      let wsBaseUrl :=
        Str.replace_first "/api" "" (Str.replace_http_ws (PRESENCE_SERVICE_BASE_URL cfg)) in
      let wsUrl := wsBaseUrl +:+ "/presence/ws?token=" +:+ qval_to_string token in
      mret (RetValue (JObj {["wsUrl" := JStr wsUrl]}))
  end.

(** [const response = await fetch(url, options)] and what follows it. *)
Definition send (w : world) (rt : route) (method pathString : string)
    (options : fetch_call) : M retval :=
  _ ← call (Fetched options);
  response ← lift (fetch w options);
  respond rt method pathString response.

(** The forwarding of an ordinary request.  [validateToken] only logs and is
    left out. *)
Definition forward (w : world) (cfg : config) (req : request) : M retval :=
  let method := req_method req in
  let pathString := pathString req in
  let isAuthEndpoint := isAuthEndpoint pathString in
  let rt := classify cfg pathString (req_query req) in
  let url := resolve_url w method pathString (req_query req) rt in
  if has_body method && is_upload req then
    upload w req url (authorization_header req isAuthEndpoint)
  else
    body ← (if has_body method then read_json_body w isAuthEndpoint else mret None);
    _ ← try_catch (lift (new_URL w url))
          (fun _ => throw (Error w ("Cannot create a valid URL: " +:+ url)));
    send w rt method pathString
      {| f_url := url; f_method := forcedMethod req;
         f_headers := fetch_headers req isAuthEndpoint; f_body := body |}.

(** After the CORS headers: the preflight answer, the WebSocket branches,
    or the forwarding. *)
Definition dispatch (w : world) (cfg : config) (req : request) : M retval :=
  if String.eqb (req_method req) "OPTIONS" then
    _ ← setHeader "Access-Control-Max-Age" "86400";
    mret RetPreflight
  else
    match (if isWebSocketRequest req then wsTarget cfg (pathString req) else None) with
    | Some target => upgrade w req target
    | None =>
        if Str.includes (pathString req) "presence/ws" then presence_ws w cfg req
        else forward w cfg req
    end.

(** The body of the outer [try]. *)
Definition handler_body (w : world) (cfg : config) (req : request) : M retval :=
  _ ← setCorsHeaders;
  dispatch w cfg req.

(** The object of the outer [catch]; a [stack] that is [undefined] is no
    property of the serialised object. *)
Definition proxy_error (w : world) (e : exn) : json :=
  let fields : gmap string json :=
    <["message" := JStr (e_message e)]> (<["error" := JStr "Proxy Error"]> ∅) in
  JObj (if bool_decide (NODE_ENV w = Some "development")
        then <["stack" := JStr (e_stack e)]> fields else fields).

Definition no_effects : effects :=
  {| eff_call := None; eff_status := None; eff_headers := ∅ |}.

(** The outer [catch]: a thrown error becomes the returned object; nothing
    else is done to the response. *)
Definition outer_catch (w : world) (r : effects * (exn + retval)) : effects * retval :=
  match r with
  | (s, inr v) => (s, v)
  | (s, inl e) => (s, RetValue (proxy_error w e))
  end.

(** [defineEventHandler(async (event) => { try { ... } catch (error) { ... } })] *)
Definition handler (w : world) (cfg : config) (req : request) : effects * retval :=
  outer_catch w (handler_body w cfg req no_effects).

(** The response object once [setCorsHeaders] has run. *)
Definition cors_headers : gmap string string :=
  <["access-control-allow-credentials" := "true"]>
    (<["access-control-allow-headers" := "Content-Type, Authorization, X-Requested-With, Accept"]>
       (<["access-control-allow-methods" := "GET, POST, PUT, DELETE, OPTIONS, PATCH"]>
          (<["access-control-allow-origin" := "*"]> ∅))).

Definition cors_effects : effects :=
  {| eff_call := None; eff_status := None; eff_headers := cors_headers |}.

(** The effects of a request that made the call [o] and touched nothing
    else. *)
Definition called (o : outbound) : effects :=
  {| eff_call := Some o; eff_status := None; eff_headers := cors_headers |}.

(** The route, the URL, the [Authorization] value and the [fetch] options
    of a request, as [forward] computes them. *)
Definition request_route (cfg : config) (req : request) : route :=
  classify cfg (pathString req) (req_query req).

Definition request_url (w : world) (cfg : config) (req : request) : string :=
  resolve_url w (req_method req) (pathString req) (req_query req) (request_route cfg req).

Definition request_authorization (req : request) : option string :=
  authorization_header req (isAuthEndpoint (pathString req)).

Definition request_options (w : world) (cfg : config) (req : request) (body : option string)
  : fetch_call :=
  {| f_url := request_url w cfg req; f_method := forcedMethod req;
     f_headers := fetch_headers req (isAuthEndpoint (pathString req)); f_body := body |}.

(** The target of a WebSocket upgrade, once [wsTarget] has parsed as [href]. *)
Definition upgrade_target (w : world) (req : request) (href : string) : string :=
  if has_keys (req_query req)
  then append_params w href (map (fun kv => (kv.1, qval_to_string kv.2)) (req_query req))
  else href.

(** The object [{ wsUrl }] of the [presence/ws] branch. *)
Definition wsUrl_object (cfg : config) (token : qval) : json :=
  JObj {["wsUrl" :=
         JStr (Str.replace_first "/api" "" (Str.replace_http_ws (PRESENCE_SERVICE_BASE_URL cfg))
               +:+ "/presence/ws?token=" +:+ qval_to_string token)]}.

(** [options.body]: the request body as JSON text, when the method has one
    and the request is no upload.  A failure of [readBody], or of the logging
    of an auth request's email, is rethrown with a message of its own. *)
Definition request_body (w : world) (req : request) : exn + option string :=
  if has_body (req_method req) then
    match readBody w with
    | inl _ => inl (Error w "Failed to process request body")
    | inr (Some b) =>
        if isAuthEndpoint (pathString req) && email_log_throws b
        then inl (Error w "Failed to process request body")
        else inr (Some (JSON_stringify w b))
    | inr None => inr None
    end
  else inr None.

(** The response headers after [copy_headers]. *)
Definition copied_headers (hs : list (string * string)) (m : gmap string string)
  : gmap string string :=
  foldl (fun m kv => <[Str.toLowerCase kv.1 := kv.2]> m) m hs.

(** The response object of the preflight answer. *)
Definition preflight_effects : effects :=
  {| eff_call := None; eff_status := None;
     eff_headers := <["access-control-max-age" := "86400"]> cors_headers |}.

(** The response object after an upstream answer that is not [ok]. *)
Definition error_effects (c : fetch_call) (r : response) : effects :=
  {| eff_call := Some (Fetched c); eff_status := Some (r_status r);
     eff_headers := cors_headers |}.

(** The response object of a file download. *)
Definition download_effects (c : fetch_call) (r : response) : effects :=
  {| eff_call := Some (Fetched c); eff_status := None;
     eff_headers := copied_headers (r_headers r) cors_headers |}.

(** The value returned for an upstream answer that is [ok] and no download. *)
Definition success_value (r : response) : json :=
  default (JObj {["error" := JStr "Failed to parse response"]}) (read_response r).

(** ** A concrete runtime for the examples *)

(** A URL parser that accepts what starts with an [http(s)] or [ws(s)]
    scheme and serialises it unchanged; on the URLs of the examples below
    this is what [new URL] does. *)
Definition parse_absolute (s : string) : exn + string :=
  if has_protocol s || Str.startsWith s "ws://" || Str.startsWith s "wss://"
  then inr s
  else inl {| e_message := "Invalid URL"; e_stack := "TypeError: Invalid URL" |}.

(** A runtime without a request body, whose backend answers [r] to every
    call. *)
Definition sample_world (env : option string) (r : response) : world := {|
  NODE_ENV := env;
  new_URL := parse_absolute;
  append_params := fun href params => href +:+ "?" +:+ Uri.form_urlencoded params;
  readBody := inr None;
  JSON_stringify := fun _ => "{}";
  fetch := fun _ => inr r;
  stack_of := fun msg => "Error: " +:+ msg;
|}.

(** A backend answer with the given status line and content type, whose
    body is the bytes [body]; [text] is what [response.text()] decodes them
    to and [parsed], when given, what [response.json()] parses. *)
Definition backend_response (status : Z) (statusText contentType body text : string)
    (parsed : option json) : response := {|
  r_status := status;
  r_statusText := statusText;
  r_headers := [("content-length", pretty (String.length body)); ("content-type", contentType)];
  r_json := parsed;
  r_text := Some text;
  r_arrayBuffer := inr body;
|}.

Definition ok_response : response :=
  backend_response 200 "OK" "application/json" "{}" "{}" (Some (JObj ∅)).

Definition get_request (path : string) (headers : gmap string string) (query : list (string * qval))
  : request :=
  {| req_method := "GET"; req_path := path; req_headers := headers; req_query := query |}.

(** The runtime of the examples: no [NODE_ENV], the backend answers [200]. *)
Definition W : world := sample_world None ok_response.

(** The general API configured with a trailing slash. *)
Definition slash_config : config := {|
  API_BASE_URL := "http://localhost:8081/api/";
  GROUP_API_BASE_URL := GROUP_API_BASE_URL default_config;
  NOTIFICATION_API_BASE_URL := NOTIFICATION_API_BASE_URL default_config;
  FILE_SERVICE_BASE_URL := FILE_SERVICE_BASE_URL default_config;
  PRESENCE_SERVICE_BASE_URL := PRESENCE_SERVICE_BASE_URL default_config;
|}.

(** The presence service on a host whose name starts with [api]. *)
Definition api_host_config : config := {|
  API_BASE_URL := API_BASE_URL default_config;
  GROUP_API_BASE_URL := GROUP_API_BASE_URL default_config;
  NOTIFICATION_API_BASE_URL := NOTIFICATION_API_BASE_URL default_config;
  FILE_SERVICE_BASE_URL := FILE_SERVICE_BASE_URL default_config;
  PRESENCE_SERVICE_BASE_URL := "http://api.example.com/api";
|}.

(** A multipart POST to [files]. *)
Definition upload_request : request := {|
  req_method := "POST";
  req_path := "files";
  req_headers :=
    <["content-type" := "multipart/form-data; boundary=XYZ"]> (<["content-length" := "1024"]> ∅);
  req_query := [];
|}.

(** A multipart POST to [auth/login] that carries an [auth_token] cookie and
    no [Authorization] header. *)
Definition login_upload : request := {|
  req_method := "POST";
  req_path := "auth/login";
  req_headers :=
    <["cookie" := "theme=dark; auth_token=abc"]>
      (<["content-type" := "multipart/form-data; boundary=XYZ"]> ∅);
  req_query := [];
|}.

(** The same login request with a JSON body. *)
Definition login_json : request := {|
  req_method := "POST";
  req_path := "auth/login";
  req_headers :=
    <["cookie" := "theme=dark; auth_token=abc"]> (<["content-type" := "application/json"]> ∅);
  req_query := [];
|}.

Definition quote : string := String (ascii_of_nat 34) EmptyString.

(** The text [{"message":"not found"}]. *)
Definition not_found_text : string :=
  "{" +:+ quote +:+ "message" +:+ quote +:+ ":" +:+ quote +:+ "not found" +:+ quote +:+ "}".

(** The upstream answer [404 Not Found] with that JSON body. *)
Definition not_found_response : response :=
  backend_response 404 "Not Found" "application/json" not_found_text not_found_text
    (Some (JObj {["message" := JStr "not found"]})).

(** The eight bytes of the PNG signature, and their decoding as UTF-8 text:
    the first byte, 0x89, is no UTF-8 and becomes U+FFFD. *)
Definition png_bytes : string := Str.bytes [137; 80; 78; 71; 13; 10; 26; 10].
Definition png_as_text : string := Str.bytes [239; 191; 189; 80; 78; 71; 13; 10; 26; 10].

(** An upstream answer [200 OK] that carries a PNG image. *)
Definition image_response : response :=
  backend_response 200 "OK" "image/png" png_bytes png_as_text None.

(** A WebSocket upgrade of [messages/ws] with an [Authorization] header and a
    [token] query parameter. *)
Definition upgrade_request : request := {|
  req_method := "GET";
  req_path := "messages/ws";
  req_headers :=
    <["authorization" := "Bearer xyz"]>
      (<["upgrade" := "websocket"]> (<["connection" := "Upgrade"]> ∅));
  req_query := [("token", QStr "t")];
|}.

(** The runtime [w] with another result of [readBody]. *)
Definition with_readBody (w : world) (b : exn + option json) : world := {|
  NODE_ENV := NODE_ENV w;
  new_URL := new_URL w;
  append_params := append_params w;
  readBody := b;
  JSON_stringify := JSON_stringify w;
  fetch := fetch w;
  stack_of := stack_of w;
|}.

(** ** Predicates of the specification *)

(** The URL has a [//] after its scheme separator. *)
Definition double_slash_after_scheme (url : string) : bool :=
  let rest :=
    if Str.startsWith url "http://" then Str.substring_from 7 url
    else if Str.startsWith url "https://" then Str.substring_from 8 url
    else url in
  Str.includes rest "//".

(** A status code was set, and it is an error status. *)
Definition failure_status (status : option Z) : bool :=
  match status with
  | Some n => (400 <=? n)%Z
  | None => false
  end.

(** The prefixes whose branch of the service chain assigns [baseUrl] after
    the message [if]. *)
Definition later_service (pathString : string) : option service :=
  if Str.startsWith pathString "notifications" then Some Notification
  else if Str.startsWith pathString "presence" then Some Presence
  else if Str.startsWith pathString "files" || Str.startsWith pathString "media" then Some File
  else None.

(** ** The runs of the handler *)

Section Runs.

Variables (w : world) (cfg : config) (req : request).

(** The requests that get past the WebSocket upgrade. *)
Definition past_upgrade : Prop :=
  req_method req <> "OPTIONS" /\
  (isWebSocketRequest req = false \/ wsTarget cfg (pathString req) = None).

(** The requests that are forwarded. *)
Definition forwarded : Prop :=
  past_upgrade /\ Str.includes (pathString req) "presence/ws" = false.

(** The requests that are forwarded with [fetch]: no upload, a body that
    could be read, a URL that parses. *)
Definition fetched (body : option string) : Prop :=
  forwarded /\
  has_body (req_method req) && is_upload req = false /\
  request_body w req = inr body /\
  exists href, new_URL w (request_url w cfg req) = inr href.

(** Every way the body of the outer [try] can end: the response object it
    leaves, and the value it returns ([inr]) or the error it throws ([inl]). *)
Inductive completes : effects * (exn + retval) -> Prop :=
| Preflight :
    req_method req = "OPTIONS" ->
    completes (preflight_effects, inr RetPreflight)
| Upgrade target href :
    req_method req <> "OPTIONS" ->
    isWebSocketRequest req = true ->
    wsTarget cfg (pathString req) = Some target ->
    new_URL w target = inr href ->
    completes (called (ProxiedRequest (upgrade_target w req href) (websocket_headers req)),
               inr RetDelegated)
| UpgradeInvalid target e :
    req_method req <> "OPTIONS" ->
    isWebSocketRequest req = true ->
    wsTarget cfg (pathString req) = Some target ->
    new_URL w target = inl e ->
    completes (cors_effects, inl e)
| DirectUrl token :
    past_upgrade ->
    Str.includes (pathString req) "presence/ws" = true ->
    query_truthy (req_query req) "token" = Some token ->
    completes (cors_effects, inr (RetValue (wsUrl_object cfg token)))
| NoToken :
    past_upgrade ->
    Str.includes (pathString req) "presence/ws" = true ->
    query_truthy (req_query req) "token" = None ->
    completes (cors_effects, inl (Error w "No token provided for WebSocket connection"))
| Upload target :
    forwarded ->
    has_body (req_method req) && is_upload req = true ->
    new_URL w (request_url w cfg req) = inr target ->
    completes (called (SentProxy target (proxyHeaders req (request_authorization req))),
               inr RetDelegated)
| UploadInvalid e :
    forwarded ->
    has_body (req_method req) && is_upload req = true ->
    new_URL w (request_url w cfg req) = inl e ->
    completes (cors_effects, inl (Error w "Failed to proxy file upload"))
| BodyFailed e :
    forwarded ->
    has_body (req_method req) && is_upload req = false ->
    request_body w req = inl e ->
    completes (cors_effects, inl e)
| UrlInvalid body e :
    forwarded ->
    has_body (req_method req) && is_upload req = false ->
    request_body w req = inr body ->
    new_URL w (request_url w cfg req) = inl e ->
    completes (cors_effects,
               inl (Error w ("Cannot create a valid URL: " +:+ request_url w cfg req)))
| FetchFailed body e :
    fetched body ->
    fetch w (request_options w cfg req body) = inl e ->
    completes (called (Fetched (request_options w cfg req body)), inl e)
| ErrorAnswer body r :
    fetched body ->
    fetch w (request_options w cfg req body) = inr r ->
    r_ok r = false ->
    completes (error_effects (request_options w cfg req body) r,
               inr (RetValue (error_response r)))
| Download body r buffer :
    fetched body ->
    fetch w (request_options w cfg req body) = inr r ->
    r_ok r = true ->
    isFileDownload (request_route cfg req) (req_method req) (pathString req) r = true ->
    r_arrayBuffer r = inr buffer ->
    completes (download_effects (request_options w cfg req body) r, inr (RetBytes buffer))
| DownloadFailed body r e :
    fetched body ->
    fetch w (request_options w cfg req body) = inr r ->
    r_ok r = true ->
    isFileDownload (request_route cfg req) (req_method req) (pathString req) r = true ->
    r_arrayBuffer r = inl e ->
    completes (download_effects (request_options w cfg req body) r, inl e)
| Success body r :
    fetched body ->
    fetch w (request_options w cfg req body) = inr r ->
    r_ok r = true ->
    isFileDownload (request_route cfg req) (req_method req) (pathString req) r = false ->
    completes (called (Fetched (request_options w cfg req body)),
               inr (RetValue (success_value r))).

End Runs.

(** ** Further definitions *)

(** Some character other than [:] is followed by two slashes: the text still
    has a match of [/([^:]\/)\/+/]. *)
Fixpoint slash_run (s : string) : bool :=
  match s with
  | EmptyString => false
  | String c r => (negb (Ascii.eqb c ":") && Str.startsWith r "//") || slash_run r
  end.

(** [validateToken(token)] step by step.  [parse_payload p] is
    [JSON.parse(Buffer.from(p, "base64").toString())], [None] when it throws;
    [expired exp] is [Date.now() >= exp * 1000].  Reading [exp] off a payload
    that parsed to [null] throws, which the inner [catch] turns into [true]. *)
Definition validateToken_steps (parse_payload : string -> option json)
    (expired : json -> bool) (token : option string) : bool :=
  match truthy token with
  | None => false
  | Some t =>
      let parts := Str.split "." t in
      match truthy (nth_error parts 0), truthy (nth_error parts 1), truthy (nth_error parts 2) with
      | Some _, Some payload, Some _ =>
          match parse_payload payload with
          | None => true
          | Some JNull => true
          | Some decodedPayload =>
              let exp :=
                match decodedPayload with
                | JObj m => m !! "exp"
                | _ => None
                end in
              match exp with
              | Some e => if json_truthy e && expired e then true else true
              | None => true
              end
          end
      | _, _, _ => true
      end
  end.

(** The request [req] received under another path. *)
Definition with_path (req : request) (path : string) : request :=
  {| req_method := req_method req; req_path := path;
     req_headers := req_headers req; req_query := req_query req |}.

(** The names of the headers that [setCorsHeaders] sets. *)
Definition cors_names : list string :=
  ["access-control-allow-origin"; "access-control-allow-methods";
   "access-control-allow-headers"; "access-control-allow-credentials"].

(** An upstream answer [200 OK] that announces JSON and carries HTML. *)
Definition broken_json_response : response :=
  backend_response 200 "OK" "application/json" "<html>" "<html>" None.

(** An upstream answer [200 OK] with an image whose body cannot be read. *)
Definition truncated_image_response : response := {|
  r_status := 200;
  r_statusText := "OK";
  r_headers := [("content-type", "image/png")];
  r_json := None;
  r_text := None;
  r_arrayBuffer := inl {| e_message := "terminated"; e_stack := "TypeError: terminated" |};
|}.

(** An upstream answer [502] whose body cannot be read. *)
Definition unreadable_error_response : response := {|
  r_status := 502;
  r_statusText := "Bad Gateway";
  r_headers := [("content-type", "application/json")];
  r_json := None;
  r_text := None;
  r_arrayBuffer := inl {| e_message := "terminated"; e_stack := "TypeError: terminated" |};
|}.

(** A multipart PUT of an avatar that carries a token and a header of the
    client's own. *)
Definition traced_upload : request := {|
  req_method := "PUT";
  req_path := "users/profile/avatar";
  req_headers :=
    <["x-request-id" := "7"]>
      (<["authorization" := "abc.def.ghi"]>
         (<["content-type" := "multipart/form-data; boundary=XYZ"]> ∅));
  req_query := [];
|}.

(** The headers handed to an outbound call. *)
Definition outbound_headers (o : outbound) : gmap string string :=
  match o with
  | Fetched c => f_headers c
  | SentProxy _ h | ProxiedRequest _ h => h
  end.

(** * Properties *)

(** ** Strings *)

Section StringFacts.

Implicit Types s p t : string.

Lemma prefix_includes s p : Str.startsWith s p = true -> Str.includes s p = true.
Proof.
  unfold Str.startsWith. destruct s; simpl; intros ->; reflexivity.
Qed.

Lemma includes_cons s c p : Str.includes s p = true -> Str.includes (String c s) p = true.
Proof. simpl. intros ->. apply orb_true_r. Qed.

(** A text that occurs in [s] still occurs without its first character. *)
Lemma includes_tail s c p : Str.includes s (String c p) = true -> Str.includes s p = true.
Proof.
  induction s as [|a s IH]; simpl.
  - discriminate.
  - intros H. apply orb_true_iff in H as [H|H].
    + destruct (ascii_dec c a); [|discriminate].
      apply orb_true_iff. right. apply prefix_includes. exact H.
    + apply orb_true_iff. right. apply IH.
      destruct s; simpl in *; exact H.
Qed.

Lemma append_assoc s t p : (s +:+ t) +:+ p = s +:+ t +:+ p.
Proof.
  induction s as [|a s IH]; [reflexivity|].
  change (String a ((s +:+ t) +:+ p) = String a (s +:+ t +:+ p)).
  f_equal. exact IH.
Qed.

Lemma includes_app_r s t p : Str.includes t p = true -> Str.includes (s +:+ t) p = true.
Proof.
  induction s as [|a s IH]; simpl; intros H; [exact H|].
  rewrite (IH H). apply orb_true_r.
Qed.

Lemma prefix_cons a p b s :
  String.prefix (String a p) (String b s) = if ascii_dec a b then String.prefix p s else false.
Proof. reflexivity. Qed.

(** A text starts with [p] exactly when it is [p] followed by something. *)
Lemma startsWith_spec s p : Str.startsWith s p = true <-> exists r, s = p +:+ r.
Proof.
  unfold Str.startsWith. revert s. induction p as [|a p IH]; intros s.
  - split; [intros _; exists s; reflexivity|intros _; destruct s; reflexivity].
  - destruct s as [|b s].
    + split; [discriminate|]. intros [r Hr]. discriminate Hr.
    + rewrite prefix_cons. destruct (ascii_dec a b) as [->|Hab].
      * rewrite IH. split; intros [r Hr]; exists r.
        -- simpl. rewrite Hr. reflexivity.
        -- simpl in Hr. injection Hr as Hr. exact Hr.
      * split; [discriminate|]. intros [r Hr]. simpl in Hr. injection Hr as Ha _.
        congruence.
Qed.

Lemma substring_from_length n s :
  String.length (Str.substring_from n s) = String.length s - n.
Proof.
  revert s. induction n as [|n IH]; intros s.
  - simpl. lia.
  - destruct s as [|a s]; [reflexivity|]. simpl. apply IH.
Qed.

(** Stripping a token that is not empty shortens the text. *)
Lemma strip_one_shorter toks s r :
  List.Forall (fun t => t <> "") toks ->
  Str.strip_one toks s = Some r ->
  String.length r < String.length s.
Proof.
  intros Hne. unfold Str.strip_one.
  destruct (List.find (fun t => String.prefix t s) toks) as [t|] eqn:Hf; [|discriminate].
  intros [= <-]. apply List.find_some in Hf as [Hin Hp].
  rewrite List.Forall_forall in Hne. specialize (Hne t Hin).
  rewrite substring_from_length.
  destruct t as [|a t]; [contradiction|]. destruct s as [|b s]; [discriminate Hp|].
  simpl. lia.
Qed.

(** The fuel of [strip_many] is enough once it is the length of the text:
    nothing is left to strip. *)
Lemma strip_many_done n toks s :
  List.Forall (fun t => t <> "") toks ->
  String.length s <= n ->
  Str.strip_one toks (Str.strip_many n toks s) = None.
Proof.
  intros Hne. revert s. induction n as [|n IH]; intros s Hn.
  - destruct s; [|simpl in Hn; lia]. simpl. unfold Str.strip_one.
    destruct (List.find (fun t => String.prefix t "") toks) as [t|] eqn:Hf; [|reflexivity].
    apply List.find_some in Hf as [Hin Hp].
    rewrite List.Forall_forall in Hne. specialize (Hne t Hin).
    destruct t; [contradiction|discriminate Hp].
  - simpl. destruct (Str.strip_one toks s) as [r|] eqn:Hr; [|exact Hr].
    apply IH. pose proof (strip_one_shorter toks s r Hne Hr). lia.
Qed.

Lemma white_space_nonempty : List.Forall (fun t => t <> "") Str.white_space.
Proof. repeat (constructor; [discriminate|]). constructor. Qed.

(** [trimStart] leaves no white space in front. *)
Lemma trimStart_done s : Str.strip_one Str.white_space (Str.trimStart s) = None.
Proof. apply strip_many_done; [apply white_space_nonempty|]. lia. Qed.

Lemma rev_length s : String.length (Str.rev s) = String.length s.
Proof.
  unfold Str.rev.
  assert (forall l, String.length (string_of_list_ascii l) = length l) as Hl.
  { intros l. induction l as [|a l IH]; [reflexivity|]. simpl. f_equal. exact IH. }
  rewrite Hl, List.length_rev. clear Hl.
  induction s as [|a s IH]; [reflexivity|]. simpl. f_equal. exact IH.
Qed.

Lemma rev_involutive s : Str.rev (Str.rev s) = s.
Proof.
  unfold Str.rev.
  rewrite list_ascii_of_string_of_list_ascii, List.rev_involutive.
  apply string_of_list_ascii_of_string.
Qed.

(** [trimEnd] leaves no white space at the end. *)
Lemma trimEnd_done s :
  Str.strip_one (map Str.rev Str.white_space) (Str.rev (Str.trimEnd s)) = None.
Proof.
  unfold Str.trimEnd. rewrite rev_involutive. apply strip_many_done.
  - repeat (constructor; [discriminate|]). constructor.
  - rewrite rev_length. lia.
Qed.

End StringFacts.

(** ** Service selection *)

Section Classification.

Variables (cfg : config) (query : list (string * qval)).

(** A path with the [message] prefix meets no later branch of the chain. *)
Lemma message_prefix_alone p :
  Str.startsWith p "message" = true ->
  later_service p = None /\ Str.startsWith p "groups" = false /\ Str.startsWith p "group" = false.
Proof.
  intros H. apply startsWith_spec in H as [r ->]. repeat split; reflexivity.
Qed.

Lemma message_condition p :
  Str.startsWith p "message" || Str.includes p "/message" = true ->
  is_message_endpoint p = true /\ Str.includes p "message" = true.
Proof.
  intros H. split.
  - unfold is_message_endpoint.
    destruct (Str.startsWith p "message"); [reflexivity|].
    simpl in H. rewrite H. reflexivity.
  - apply orb_true_iff in H as [H|H].
    + apply prefix_includes, H.
    + eapply includes_tail, H.
Qed.

(** What the chain selects for a path of the message rule: the service of a
    later prefix when there is one, the Group service otherwise. *)
Lemma classify_message_path p :
  Str.startsWith p "message" || Str.includes p "/message" = true ->
  svc (classify cfg p query) = default Group (later_service p).
Proof.
  intros H. destruct (message_condition p H) as [Hm Hi].
  unfold classify, later_service. rewrite Hm, Hi.
  destruct (Str.startsWith p "notifications"); [reflexivity|].
  destruct (Str.startsWith p "presence"); [reflexivity|].
  rewrite andb_false_r.
  destruct (Str.startsWith p "files" || Str.startsWith p "media"); reflexivity.
Qed.

End Classification.

(** C1 (as amended). A path with the [message]/[messages] prefix, or one that
    contains [/message] and does not start with [notifications], [presence],
    [files] or [media], is given the Group service; the message rule wins
    over the group rule only: a path that contains [/message] and starts with
    one of those four prefixes is given the service of that prefix. *)
Theorem message_rule_priority (cfg : config) (p : string) (query : list (string * qval)) :
  Str.startsWith p "message" || Str.includes p "/message" = true ->
  svc (classify cfg p query) = default Group (later_service p) /\
  (later_service p = None -> baseUrl (classify cfg p query) = GROUP_API_BASE_URL cfg) /\
  (Str.startsWith p "message" = true -> later_service p = None).
Proof.
  intros H. split; [apply classify_message_path, H|]. split.
  - destruct (message_condition p H) as [Hm Hi].
    unfold classify, later_service. rewrite Hm, Hi.
    destruct (Str.startsWith p "notifications"); [discriminate|].
    destruct (Str.startsWith p "presence"); [discriminate|].
    rewrite andb_false_r.
    destruct (Str.startsWith p "files" || Str.startsWith p "media"); [discriminate|].
    reflexivity.
  - intros Hp. apply message_prefix_alone, Hp.
Qed.

Lemma message_rule_priority_witness :
  svc (classify default_config "group/123/messages" []) = Group /\
  svc (classify default_config "message/42" []) = Group /\
  baseUrl (classify default_config "messages/history" []) = "http://localhost:8082/api".
Proof.
  split; [|split].
  - exact (proj1 (message_rule_priority default_config "group/123/messages" [] eq_refl)).
  - exact (proj1 (message_rule_priority default_config "message/42" [] eq_refl)).
  - exact (proj1 (proj2 (message_rule_priority default_config "messages/history" [] eq_refl))
             eq_refl).
Defined.

(** C1 (counterexample). [notifications/messages] contains [/message], and
    the chain after the message [if] gives it the Notification service. *)
Lemma notifications_override_message_rule :
  Str.includes "notifications/messages" "/message" = true /\
  svc (classify default_config "notifications/messages" []) = Notification /\
  svc (classify default_config "notifications/messages" []) <> Group /\
  baseUrl (classify default_config "notifications/messages" []) = "http://localhost:8083/api".
Proof.
  split; [reflexivity|]. split; [reflexivity|]. split; [|reflexivity].
  intros H. vm_compute in H. discriminate H.
Qed.


(** ** The handler and its runs *)

Section Completion.

Variables (w : world) (cfg : config) (req : request).

Lemma handler_body_dispatch :
  handler_body w cfg req no_effects = dispatch w cfg req cors_effects.
Proof. reflexivity. Qed.

Lemma read_json_body_run s :
  (if has_body (req_method req)
   then read_json_body w (isAuthEndpoint (pathString req))
   else mret None) s = (s, request_body w req).
Proof.
  unfold request_body, read_json_body, try_catch, mbind, M_bind, lift, throw, mret, M_ret.
  destruct (has_body (req_method req)); [|reflexivity].
  destruct (readBody w) as [e|[b|]]; try reflexivity.
  destruct (isAuthEndpoint (pathString req) && email_log_throws b); reflexivity.
Qed.

Lemma request_body_error e :
  request_body w req = inl e -> e = Error w "Failed to process request body".
Proof.
  unfold request_body. destruct (has_body (req_method req)); [|discriminate].
  destruct (readBody w) as [e'|[b|]]; [congruence| |discriminate].
  destruct (isAuthEndpoint (pathString req) && email_log_throws b); congruence.
Qed.

Lemma copy_headers_run hs s :
  copy_headers hs s =
    ({| eff_call := eff_call s; eff_status := eff_status s;
        eff_headers := copied_headers hs (eff_headers s) |}, inr tt).
Proof.
  revert s. induction hs as [|[k v] hs IH]; intros s.
  - destruct s; reflexivity.
  - simpl. unfold mbind, M_bind, setHeader. rewrite IH. reflexivity.
Qed.

(** The run of [send] on a request that is forwarded with [fetch]. *)
Lemma send_completes body :
  fetched w cfg req body ->
  completes w cfg req
    (send w (request_route cfg req) (req_method req) (pathString req)
          (request_options w cfg req body) cors_effects).
Proof.
  intros Hf. unfold send, mbind, M_bind, call, lift. simpl.
  destruct (fetch w (request_options w cfg req body)) as [e|r] eqn:Hr.
  - eapply FetchFailed; eassumption.
  - unfold respond. destruct (r_ok r) eqn:Hok; simpl.
    + destruct (isFileDownload _ _ _ r) eqn:Hd.
      * unfold mbind, M_bind, lift. rewrite copy_headers_run. simpl.
        destruct (r_arrayBuffer r) as [e|buffer] eqn:Hb.
        -- eapply DownloadFailed; eassumption.
        -- eapply Download; eassumption.
      * eapply Success; eassumption.
    + eapply ErrorAnswer; eassumption.
Qed.

Lemma forward_completes :
  forwarded cfg req -> completes w cfg req (forward w cfg req cors_effects).
Proof.
  intros Hf. unfold forward.
  fold (request_route cfg req). fold (request_url w cfg req).
  destruct (has_body (req_method req) && is_upload req) eqn:Hu.
  - unfold upload, try_catch, mbind, M_bind, lift, call, throw. simpl.
    fold (request_authorization req).
    destruct (new_URL w (request_url w cfg req)) as [e|target] eqn:Hurl.
    + eapply UploadInvalid; eassumption.
    + eapply Upload; eassumption.
  - unfold mbind at 1. unfold M_bind at 1. rewrite read_json_body_run.
    destruct (request_body w req) as [e|body] eqn:Hb.
    + eapply BodyFailed; eassumption.
    + unfold mbind at 1. unfold M_bind at 1. unfold try_catch, lift, throw.
      destruct (new_URL w (request_url w cfg req)) as [e|href] eqn:Hurl.
      * eapply UrlInvalid; eassumption.
      * apply send_completes.
        split; [exact Hf|]. split; [exact Hu|]. split; [exact Hb|].
        exists href. exact Hurl.
Qed.

(** The body of the outer [try] ends in one of the ways listed by
    [completes]. *)
Lemma handler_body_completes : completes w cfg req (handler_body w cfg req no_effects).
Proof.
  rewrite handler_body_dispatch. unfold dispatch.
  destruct (String.eqb_spec (req_method req) "OPTIONS") as [Hm|Hm].
  - apply Preflight, Hm.
  - assert (past_upgrade cfg req ->
            completes w cfg req
              ((if Str.includes (pathString req) "presence/ws"
                then presence_ws w cfg req else forward w cfg req) cors_effects)) as Hpast.
    { intros Hp. destruct (Str.includes (pathString req) "presence/ws") eqn:Hi.
      - unfold presence_ws.
        destruct (query_truthy (req_query req) "token") as [token|] eqn:Ht.
        + eapply DirectUrl; eassumption.
        + eapply NoToken; eassumption.
      - apply forward_completes. split; assumption. }
    destruct (isWebSocketRequest req) eqn:Hws.
    + destruct (wsTarget cfg (pathString req)) as [target|] eqn:Ht.
      * unfold upgrade, mbind, M_bind, lift, call. simpl.
        destruct (new_URL w target) as [e|href] eqn:Hurl.
        -- eapply UpgradeInvalid; eassumption.
        -- eapply Upgrade; eassumption.
      * apply Hpast. split; [assumption|right; exact Ht].
    + apply Hpast. split; [assumption|left; exact Hws].
Qed.

End Completion.

(** ** The outer catch *)

Lemma proxy_error_fields (w : world) (e : exn) :
  exists m : gmap string json,
    proxy_error w e = JObj m /\
    m !! "error" = Some (JStr "Proxy Error") /\
    m !! "message" = Some (JStr (e_message e)) /\
    m !! "stack" =
      if bool_decide (NODE_ENV w = Some "development") then Some (JStr (e_stack e)) else None.
Proof.
  unfold proxy_error. destruct (bool_decide (NODE_ENV w = Some "development"));
    eexists; (split; [reflexivity|]); repeat split; reflexivity.
Qed.

(** No run that throws has assigned a status code. *)
Lemma thrown_without_status (w : world) (cfg : config) (req : request) s e :
  completes w cfg req (s, inl e) -> eff_status s = None.
Proof. intros H. inversion H; subst; reflexivity. Qed.

(** C6 (as amended). Every error thrown in the body of the outer [try] (by
    the URL parser, the body reader, [fetch], the buffer reader, or the
    handler itself) is converted by the one outer [catch] into the body
    [{error: "Proxy Error", message, stack}], with [stack] present exactly
    when [NODE_ENV] is [development]; the handler assigns no status code on
    that path, so the response keeps the status the runtime gives a returned
    object. *)
Theorem thrown_errors_become_proxy_error (w : world) (cfg : config) (req : request) s e :
  handler_body w cfg req no_effects = (s, inl e) ->
  handler w cfg req = (s, RetValue (proxy_error w e)) /\
  eff_status s = None /\
  exists m : gmap string json,
    proxy_error w e = JObj m /\
    m !! "error" = Some (JStr "Proxy Error") /\
    m !! "message" = Some (JStr (e_message e)) /\
    m !! "stack" =
      if bool_decide (NODE_ENV w = Some "development") then Some (JStr (e_stack e)) else None.
Proof.
  intros H. split; [|split].
  - unfold handler. rewrite H. reflexivity.
  - apply (thrown_without_status w cfg req s e). rewrite <- H. apply handler_body_completes.
  - apply proxy_error_fields.
Qed.

Lemma thrown_errors_become_proxy_error_witness :
  handler W default_config (get_request "presence/ws" ∅ []) =
    (cors_effects,
     RetValue (proxy_error W (Error W "No token provided for WebSocket connection"))) /\
  eff_status cors_effects = None /\
  exists m : gmap string json,
    proxy_error W (Error W "No token provided for WebSocket connection") = JObj m /\
    m !! "error" = Some (JStr "Proxy Error") /\
    m !! "message" = Some (JStr "No token provided for WebSocket connection") /\
    m !! "stack" = None.
Proof.
  exact (thrown_errors_become_proxy_error W default_config (get_request "presence/ws" ∅ [])
           cors_effects (Error W "No token provided for WebSocket connection") eq_refl).
Defined.

(** C6 (counterexample). A [presence/ws] request without a token throws;
    the answer is the proxy-error object, and no failure status is set. *)
Lemma proxy_error_without_failure_status :
  (handler W default_config (get_request "presence/ws" ∅ [])).2 =
    RetValue (proxy_error W (Error W "No token provided for WebSocket connection")) /\
  eff_status (handler W default_config (get_request "presence/ws" ∅ [])).1 = None /\
  failure_status (eff_status (handler W default_config (get_request "presence/ws" ∅ [])).1)
    = false.
Proof. repeat split; reflexivity. Qed.

(** ** The outbound URL *)

(** C2 (as amended). Whatever the method, path and query: an outbound call
    goes to a URL that the URL parser accepted ([fetch] to the resolved URL,
    [sendProxy] to its parsed form, [proxyRequest] to the parsed WebSocket
    target), and otherwise no call is made and the answer is the preflight
    response, the [wsUrl] object or the proxy-error object.  Duplicate
    slashes of an accepted URL are left as they are. *)
Theorem outbound_url_is_parsed (w : world) (cfg : config) (req : request) :
  match eff_call (handler w cfg req).1 with
  | Some (Fetched c) =>
      f_url c = request_url w cfg req /\ exists href, new_URL w (f_url c) = inr href
  | Some (SentProxy target _) => new_URL w (request_url w cfg req) = inr target
  | Some (ProxiedRequest target _) =>
      exists t href,
        wsTarget cfg (pathString req) = Some t /\ new_URL w t = inr href /\
        target = upgrade_target w req href
  | None =>
      (handler w cfg req).2 = RetPreflight \/
      (exists token, (handler w cfg req).2 = RetValue (wsUrl_object cfg token)) \/
      (exists e, (handler w cfg req).2 = RetValue (proxy_error w e))
  end.
Proof.
  unfold handler.
  destruct (handler_body_completes w cfg req); simpl;
    try match goal with H : fetched _ _ _ _ |- _ => destruct H as (_ & _ & _ & Hurl) end;
    eauto 7.
Qed.

(** C2 (counterexample). With the base URL [http://localhost:8081/api/], a
    GET of [users] is fetched from [http://localhost:8081/api//users]: the
    parser accepts it, and it has a [//] after the scheme separator. *)
Lemma trailing_slash_base_keeps_double_slash :
  exists c,
    eff_call (handler W slash_config (get_request "users" ∅ [])).1 = Some (Fetched c) /\
    f_url c = "http://localhost:8081/api//users" /\
    new_URL W (f_url c) = inr "http://localhost:8081/api//users" /\
    double_slash_after_scheme (f_url c) = true.
Proof. eexists. repeat split; reflexivity. Qed.

(** ** Uploads *)

Lemma proxyHeaders_lookup (req : request) (auth : option string) (k : string) :
  copied_header k = false -> k <> "Authorization" -> proxyHeaders req auth !! k = None.
Proof.
  intros Hk Hne. unfold proxyHeaders. apply lookup_union_None. split.
  - apply map_lookup_filter_None. right. intros v _. simpl. rewrite Hk. discriminate.
  - unfold with_authorization. destruct (upload_authorization req auth).
    + rewrite lookup_insert_ne by congruence. apply lookup_empty.
    + apply lookup_empty.
Qed.

(** C3 (the code at the failing input). A multipart POST to [files] with
    [Content-Type: multipart/form-data; boundary=XYZ] is handed to
    [sendProxy] with the target URL and an empty headers object.  The
    [Content-Type] with its boundary is not passed on, and the call is given
    neither the method nor the body of the request, which the handler never
    reads: its options hold [headers] alone. *)
Theorem upload_drops_content_type :
  req_method upload_request = "POST" /\
  req_headers upload_request !! "content-type" = Some "multipart/form-data; boundary=XYZ" /\
  handler W default_config upload_request
  = (called (SentProxy "http://localhost:8084/api/files" ∅), RetDelegated) /\
  (forall b, handler (with_readBody W b) default_config upload_request
             = handler W default_config upload_request).
Proof.
  split; [reflexivity|]. split; [reflexivity|]. split; [reflexivity|].
  intros b. reflexivity.
Qed.

(** ** Auth endpoints *)

(** On the [fetch] path an auth endpoint without an [Authorization] header
    gets none from the cookie. *)
Lemma auth_endpoint_fetch_ignores_cookie (req : request) :
  isAuthEndpoint (pathString req) = true ->
  header req "authorization" = None ->
  fetch_headers req (isAuthEndpoint (pathString req)) !! "Authorization" = None.
Proof.
  intros Ha Hh. unfold fetch_headers, authorization_header. rewrite Ha, Hh. simpl.
  destruct (header req "cookie"); reflexivity.
Qed.

(** In the upload branch the cookie decides, auth endpoint or not. *)
Lemma upload_takes_cookie_token (req : request) (cookieStr token : string) :
  header req "authorization" = None ->
  header req "cookie" = Some cookieStr ->
  cookie_auth_token cookieStr = Some token ->
  proxyHeaders req (authorization_header req true) !! "Authorization"
  = Some ("Bearer " +:+ token).
Proof.
  intros Ha Hc Ht. unfold proxyHeaders. rewrite lookup_union_r.
  - unfold authorization_header, upload_authorization. rewrite Ha, Hc. simpl.
    rewrite Ht. apply lookup_insert_eq.
  - apply map_lookup_filter_None. right. intros v _. simpl. discriminate.
Qed.

(** C4 (the code at the failing input). A multipart POST to [auth/login]
    with the cookie [auth_token=abc] and no [Authorization] header is handed
    to [sendProxy] with [Authorization: Bearer abc]: the cookie fallback of the
    upload branch does not test [isAuthEndpoint].  The same request with a
    JSON body is fetched without an [Authorization] header. *)
Theorem login_upload_forwards_cookie_token :
  isAuthEndpoint (pathString login_upload) = true /\
  req_headers login_upload !! "authorization" = None /\
  (exists h,
     eff_call (handler W default_config login_upload).1 =
       Some (SentProxy "http://localhost:8081/api/auth/login" h) /\
     h !! "Authorization" = Some "Bearer abc") /\
  (exists c,
     eff_call (handler W default_config login_json).1 = Some (Fetched c) /\
     f_headers c !! "Authorization" = None).
Proof.
  split; [reflexivity|]. split; [reflexivity|]. split.
  - eexists. split; reflexivity.
  - eexists. split; reflexivity.
Qed.

(** ** Forwarding with fetch *)

Section Forwarding.

Variables (w : world) (cfg : config) (req : request).

Lemma dispatch_past_upgrade :
  past_upgrade cfg req ->
  dispatch w cfg req =
    if Str.includes (pathString req) "presence/ws" then presence_ws w cfg req
    else forward w cfg req.
Proof.
  intros [Hm Hws]. unfold dispatch. apply String.eqb_neq in Hm. rewrite Hm.
  destruct Hws as [-> | Hws]; [reflexivity|].
  rewrite Hws. destruct (isWebSocketRequest req); reflexivity.
Qed.

(** A request that is forwarded with [fetch] is answered by [send]. *)
Lemma handler_sends body :
  fetched w cfg req body ->
  handler w cfg req =
    outer_catch w (send w (request_route cfg req) (req_method req) (pathString req)
                        (request_options w cfg req body) cors_effects).
Proof.
  intros ([Hp Hi] & Hu & Hb & href & Hurl).
  unfold handler. rewrite handler_body_dispatch, (dispatch_past_upgrade Hp), Hi.
  unfold forward. rewrite Hu.
  fold (request_route cfg req). fold (request_url w cfg req).
  unfold mbind at 1. unfold M_bind at 1. rewrite read_json_body_run, Hb.
  unfold mbind at 1. unfold M_bind at 1. unfold try_catch, lift. rewrite Hurl.
  reflexivity.
Qed.

(** The handler calls [fetch] with the options of the request only. *)
Lemma fetched_call c :
  eff_call (handler w cfg req).1 = Some (Fetched c) ->
  exists body, fetched w cfg req body /\ c = request_options w cfg req body.
Proof.
  unfold handler.
  destruct (handler_body_completes w cfg req); simpl; intros Hc;
    try discriminate Hc; injection Hc as <-; eauto.
Qed.

(** The answer to an upstream response that is not [ok]. *)
Lemma handler_error_answer body r :
  fetched w cfg req body ->
  fetch w (request_options w cfg req body) = inr r ->
  r_ok r = false ->
  handler w cfg req =
    (error_effects (request_options w cfg req body) r, RetValue (error_response r)).
Proof.
  intros Hf Hr Hok. rewrite (handler_sends body Hf).
  unfold send, mbind, M_bind, call, lift. simpl. rewrite Hr.
  unfold respond. rewrite Hok. reflexivity.
Qed.

(** The answer to an upstream response that is [ok]. *)
Lemma handler_ok_answer body r :
  fetched w cfg req body ->
  fetch w (request_options w cfg req body) = inr r ->
  r_ok r = true ->
  handler w cfg req =
    if isFileDownload (request_route cfg req) (req_method req) (pathString req) r then
      (download_effects (request_options w cfg req body) r,
       match r_arrayBuffer r with
       | inr buffer => RetBytes buffer
       | inl e => RetValue (proxy_error w e)
       end)
    else (called (Fetched (request_options w cfg req body)), RetValue (success_value r)).
Proof.
  intros Hf Hr Hok. rewrite (handler_sends body Hf).
  unfold send, mbind, M_bind, call, lift. simpl. rewrite Hr.
  unfold respond. rewrite Hok. simpl.
  destruct (isFileDownload _ _ _ r); [|reflexivity].
  unfold mbind, M_bind, lift. rewrite copy_headers_run. simpl.
  destruct (r_arrayBuffer r); reflexivity.
Qed.

End Forwarding.

(** ** Upstream errors *)

(** C5 (as amended). For a request forwarded with [fetch] whose upstream
    answer is not 2xx the handler sets the upstream status code on the
    response; when the [Content-Type] includes [application/json] and the
    body parses to an object, it returns that object with [status] and
    [statusText] added; when the body is read as text, it returns
    [{error: true, message: text, status, statusText}]. *)
Theorem upstream_error_is_normalised (w : world) (cfg : config) (req : request)
    (c : fetch_call) (r : response) :
  eff_call (handler w cfg req).1 = Some (Fetched c) ->
  fetch w c = inr r ->
  r_ok r = false ->
  eff_status (handler w cfg req).1 = Some (r_status r) /\
  (forall m : gmap string json,
     is_json (headers_get (r_headers r) "content-type") = true ->
     r_json r = Some (JObj m) ->
     (handler w cfg req).2 =
       RetValue (JObj (<["statusText" := JStr (r_statusText r)]>
                         (<["status" := JNum (r_status r)]> m)))) /\
  (forall text : string,
     is_json (headers_get (r_headers r) "content-type") = false ->
     r_text r = Some text ->
     (handler w cfg req).2 =
       RetValue (JObj (<["statusText" := JStr (r_statusText r)]>
                         (<["status" := JNum (r_status r)]>
                            (<["message" := JStr text]> (<["error" := JBool true]> ∅)))))).
Proof.
  intros Hc Hr Hok. destruct (fetched_call w cfg req c Hc) as (body & Hf & ->).
  rewrite (handler_error_answer w cfg req body r Hf Hr Hok). simpl.
  split; [reflexivity|]. split.
  - intros m Hj Hm. unfold error_response, read_response. rewrite Hj, Hm. reflexivity.
  - intros text Hj Ht. unfold error_response, read_response. rewrite Hj, Ht. reflexivity.
Qed.

Lemma upstream_error_is_normalised_witness :
  eff_status (handler (sample_world None not_found_response) default_config
                (get_request "users/42" ∅ [])).1 = Some 404%Z /\
  (handler (sample_world None not_found_response) default_config
     (get_request "users/42" ∅ [])).2 =
    RetValue (JObj (<["statusText" := JStr "Not Found"]>
                      (<["status" := JNum 404]> {["message" := JStr "not found"]}))).
Proof.
  pose proof (upstream_error_is_normalised (sample_world None not_found_response)
                default_config (get_request "users/42" ∅ [])
                (request_options (sample_world None not_found_response) default_config
                   (get_request "users/42" ∅ []) None)
                not_found_response eq_refl eq_refl eq_refl) as (Hs & Hj & _).
  split; [exact Hs|]. exact (Hj _ eq_refl eq_refl).
Defined.

(** C5 (counterexample). A multipart POST to [files] in front of a backend
    that answers [404 Not Found] is handed to [sendProxy]: the handler
    returns the promise of that call, assigns no status code and builds no
    error object. *)
Lemma upload_error_is_not_normalised :
  r_ok not_found_response = false /\
  handler (sample_world None not_found_response) default_config upload_request
  = (called (SentProxy "http://localhost:8084/api/files" ∅), RetDelegated) /\
  eff_status (handler (sample_world None not_found_response) default_config
                upload_request).1 = None.
Proof. repeat split; reflexivity. Qed.

(** ** File downloads *)

Lemma copied_headers_other hs (m : gmap string string) k :
  k ∉ map (fun kv : string * string => Str.toLowerCase kv.1) hs ->
  copied_headers hs m !! k = m !! k.
Proof.
  revert m. induction hs as [|[k0 v0] hs IH]; intros m Hk; [reflexivity|].
  simpl in Hk. apply not_elem_of_cons in Hk as [Hne Hk].
  unfold copied_headers. simpl. fold (copied_headers hs (<[Str.toLowerCase k0 := v0]> m)).
  rewrite (IH _ Hk). apply lookup_insert_ne. congruence.
Qed.

(** Every copied header is on the response, when no name comes twice. *)
Lemma copied_headers_lookup hs (m : gmap string string) k v :
  NoDup (map (fun kv : string * string => Str.toLowerCase kv.1) hs) ->
  (k, v) ∈ hs ->
  copied_headers hs m !! Str.toLowerCase k = Some v.
Proof.
  revert m. induction hs as [|[k0 v0] hs IH]; intros m Hnd Hin.
  - apply elem_of_nil in Hin. contradiction.
  - simpl in Hnd. apply NoDup_cons in Hnd as [Hk0 Hnd].
    unfold copied_headers. simpl. fold (copied_headers hs (<[Str.toLowerCase k0 := v0]> m)).
    apply elem_of_cons in Hin as [Heq | Hin].
    + injection Heq as -> ->. rewrite (copied_headers_other _ _ _ Hk0).
      apply lookup_insert_eq.
    + apply IH; assumption.
Qed.

(** A request without a body is forwarded with [fetch] once its URL parses. *)
Lemma get_is_fetched (w : world) (cfg : config) (req : request) href :
  req_method req = "GET" ->
  forwarded cfg req ->
  new_URL w (request_url w cfg req) = inr href ->
  fetched w cfg req None.
Proof.
  intros Hm Hf Hurl. unfold fetched, request_body. rewrite Hm. simpl. eauto.
Qed.

(** A path without [/files/] is never answered with raw bytes. *)
Lemma no_raw_bytes_without_files_segment (w : world) (cfg : config) (req : request) b :
  Str.includes (pathString req) "/files/" = false ->
  (handler w cfg req).2 <> RetBytes b.
Proof.
  intros Hp. unfold handler.
  destruct (handler_body_completes w cfg req); simpl; try discriminate.
  unfold isFileDownload in *. rewrite Hp, andb_false_r in *. discriminate.
Qed.

(** C7 (the code at the failing input). A GET of [files/pic.png] is routed
    to the File service, sent to [/api/files/pic.png] and answered upstream
    with an [image/png] body.  The path has no [/files/] in it (it starts with
    [files/]), so the handler does not take the download branch: it returns
    the body decoded as text, which differs from its bytes, and copies no
    upstream header.  [media/pic.png] and the bare [files] are answered the
    same way. *)
Theorem file_download_is_decoded_as_text :
  svc (request_route default_config (get_request "files/pic.png" ∅ [])) = File /\
  Str.includes (pathString (get_request "files/pic.png" ∅ [])) "/files/" = false /\
  request_url (sample_world None image_response) default_config
    (get_request "files/pic.png" ∅ []) = "http://localhost:8084/api/files/pic.png" /\
  headers_get (r_headers image_response) "content-type" = Some "image/png" /\
  r_arrayBuffer image_response = inr png_bytes /\
  png_as_text <> png_bytes /\
  (handler (sample_world None image_response) default_config
     (get_request "files/pic.png" ∅ [])).2 = RetValue (JStr png_as_text) /\
  eff_headers (handler (sample_world None image_response) default_config
                 (get_request "files/pic.png" ∅ [])).1 !! "content-type" = None /\
  (handler (sample_world None image_response) default_config
     (get_request "media/pic.png" ∅ [])).2 = RetValue (JStr png_as_text) /\
  (handler (sample_world None image_response) default_config
     (get_request "files" ∅ [])).2 = RetValue (JStr png_as_text).
Proof.
  split; [reflexivity|]. split; [reflexivity|]. split; [reflexivity|].
  split; [reflexivity|]. split; [reflexivity|]. split; [discriminate|].
  repeat split; reflexivity.
Qed.

(** ** Credentials *)

Section CredentialFacts.

Variable req : request.

Lemma fetch_headers_authorization isAuth :
  fetch_headers req isAuth !! "Authorization" = authorization_header req isAuth.
Proof.
  unfold fetch_headers, with_authorization.
  destruct (authorization_header req isAuth); [apply lookup_insert_eq|reflexivity].
Qed.

Lemma proxyHeaders_authorization auth :
  proxyHeaders req auth !! "Authorization" = upload_authorization req auth.
Proof.
  unfold proxyHeaders. rewrite lookup_union_r.
  - unfold with_authorization.
    destruct (upload_authorization req auth); [apply lookup_insert_eq|reflexivity].
  - apply map_lookup_filter_None. right. intros v _. simpl. discriminate.
Qed.

Lemma websocket_headers_authorization :
  websocket_headers req !! "Authorization"
  = (fun token => "Bearer " +:+ token) <$> websocket_token req.
Proof.
  unfold websocket_headers, with_header.
  repeat match goal with
         | |- context [match header req ?k with _ => _ end] => destruct (header req k)
         end;
    repeat (rewrite lookup_insert_ne by discriminate);
    (destruct (websocket_token req); [apply lookup_insert_eq|reflexivity]).
Qed.

Lemma bearer_nonempty a : a <> "" -> Str.nonempty (bearer a) = true.
Proof.
  intros Ha. unfold bearer. destruct (Str.startsWith a "Bearer "); [|reflexivity].
  unfold Str.nonempty. apply String.eqb_neq in Ha. rewrite Ha. reflexivity.
Qed.

(** An inbound [Authorization] header decides the credentials. *)
Lemma authorization_header_inbound a isAuth :
  req_headers req !! "authorization" = Some a -> a <> "" ->
  authorization_header req isAuth = Some (bearer a) /\
  upload_authorization req (authorization_header req isAuth) = Some (bearer a).
Proof.
  intros Hh Ha.
  assert (authorization_header req isAuth = Some (bearer a)) as ->.
  { unfold authorization_header, header, truthy, Str.nonempty. rewrite Hh.
    apply String.eqb_neq in Ha. rewrite Ha. reflexivity. }
  split; [reflexivity|].
  unfold upload_authorization, truthy. rewrite (bearer_nonempty a Ha). reflexivity.
Qed.

End CredentialFacts.

(** C9 (as amended). For a request with a non-empty inbound [Authorization]
    header that is forwarded with [fetch] or handed to [sendProxy], the
    outbound [Authorization] is the inbound value, with [Bearer ] put in front
    when the value does not start with it.  A WebSocket upgrade is different:
    the [Authorization] given to [proxyRequest] is [Bearer ] and the token of
    the query or of the cookie, whatever the inbound header is. *)
Theorem authorization_is_normalised (w : world) (cfg : config) (req : request) (a : string) :
  req_headers req !! "authorization" = Some a ->
  a <> "" ->
  match eff_call (handler w cfg req).1 with
  | Some (Fetched c) =>
      f_headers c !! "Authorization"
      = Some (if Str.startsWith a "Bearer " then a else "Bearer " +:+ a)
  | Some (SentProxy _ h) =>
      h !! "Authorization"
      = Some (if Str.startsWith a "Bearer " then a else "Bearer " +:+ a)
  | Some (ProxiedRequest _ h) =>
      h !! "Authorization" = (fun token => "Bearer " +:+ token) <$> websocket_token req
  | None => True
  end.
Proof.
  intros Hh Ha. fold (bearer a).
  destruct (authorization_header_inbound req a (isAuthEndpoint (pathString req)) Hh Ha)
    as [Hauth Hup].
  unfold handler.
  destruct (handler_body_completes w cfg req); simpl;
    try exact I;
    try (rewrite fetch_headers_authorization; exact Hauth);
    try (rewrite proxyHeaders_authorization; exact Hup).
  apply websocket_headers_authorization.
Qed.

Lemma authorization_is_normalised_witness :
  (exists c,
     eff_call (handler W default_config
                 (get_request "users" (<["authorization" := "abc.def.ghi"]> ∅) [])).1
       = Some (Fetched c) /\
     f_headers c !! "Authorization" = Some "Bearer abc.def.ghi") /\
  (exists c,
     eff_call (handler W default_config
                 (get_request "users" (<["authorization" := "Bearer xyz"]> ∅) [])).1
       = Some (Fetched c) /\
     f_headers c !! "Authorization" = Some "Bearer xyz").
Proof.
  split.
  - eexists. split; [reflexivity|].
    refine (authorization_is_normalised W default_config
              (get_request "users" (<["authorization" := "abc.def.ghi"]> ∅) [])
              "abc.def.ghi" eq_refl _).
    discriminate.
  - eexists. split; [reflexivity|].
    refine (authorization_is_normalised W default_config
              (get_request "users" (<["authorization" := "Bearer xyz"]> ∅) [])
              "Bearer xyz" eq_refl _).
    discriminate.
Defined.

(** C9 (counterexample). A WebSocket upgrade of [messages/ws] with the header
    [Authorization: Bearer xyz] and the query [token=t] is handed to
    [proxyRequest] with [Authorization: Bearer t]. *)
Lemma upgrade_replaces_authorization :
  isWebSocketRequest upgrade_request = true /\
  req_headers upgrade_request !! "authorization" = Some "Bearer xyz" /\
  exists target h,
    eff_call (handler W default_config upgrade_request).1 = Some (ProxiedRequest target h) /\
    h !! "Authorization" = Some "Bearer t" /\
    h !! "Authorization" <> Some "Bearer xyz".
Proof.
  split; [reflexivity|]. split; [reflexivity|].
  eexists. eexists. split; [reflexivity|]. split; [reflexivity|].
  intros H. vm_compute in H. discriminate H.
Qed.

(** ** The presence WebSocket URL *)

(** Removing the first [/api] of a text that has none before its final
    [/api] removes that suffix. *)
Lemma replace_first_api_suffix (x : string) :
  Str.includes (x +:+ "/ap") "/api" = false ->
  Str.replace_first "/api" "" (x +:+ "/api") = x.
Proof.
  induction x as [|c x IH]; [reflexivity|].
  intros H.
  change (String.prefix "/api" (String c (x +:+ "/ap"))
          || Str.includes (x +:+ "/ap") "/api" = false) in H.
  apply orb_false_iff in H as [Hp Hi].
  assert (String.prefix "/api" (String c (x +:+ "/api"))
          = String.prefix "/api" (String c (x +:+ "/ap"))) as Hp'.
  { rewrite !prefix_cons. destruct (ascii_dec "/" c); [|reflexivity].
    destruct x as [|c1 x]; [reflexivity|].
    change (String.prefix "api" (String c1 (x +:+ "/api"))
            = String.prefix "api" (String c1 (x +:+ "/ap"))).
    rewrite !prefix_cons. destruct (ascii_dec "a" c1); [|reflexivity].
    destruct x as [|c2 x]; [reflexivity|].
    change (String.prefix "pi" (String c2 (x +:+ "/api"))
            = String.prefix "pi" (String c2 (x +:+ "/ap"))).
    rewrite !prefix_cons. destruct (ascii_dec "p" c2); [|reflexivity].
    destruct x as [|c3 x]; [reflexivity|].
    change (String.prefix "i" (String c3 (x +:+ "/api"))
            = String.prefix "i" (String c3 (x +:+ "/ap"))).
    rewrite !prefix_cons. destruct (ascii_dec "i" c3); [|reflexivity].
    destruct (x +:+ "/api"), (x +:+ "/ap"); reflexivity. }
  change (Str.replace_first "/api" "" (String c x +:+ "/api"))
    with (if String.prefix "/api" (String c (x +:+ "/api"))
          then "" +:+ Str.substring_from 4 (String c (x +:+ "/api"))
          else String c (Str.replace_first "/api" "" (x +:+ "/api"))).
  rewrite Hp', Hp, (IH Hi). reflexivity.
Qed.

(** C10 (as amended). A request other than the OPTIONS preflight that is no
    WebSocket upgrade by the header test and whose path contains
    [presence/ws] makes no outbound call.  With no [token] query parameter,
    or an empty one, the answer is the proxy-error object.  With a [token]
    that is truthy (a non-empty string, or a list) and a presence base URL
    that starts with [http], ends in [/api] and has no [/api] before that
    suffix, the handler returns [{wsUrl}]: the base URL with [http] turned
    into [ws] and the [/api] suffix removed, followed by
    [/presence/ws?token=] and the token. *)
Theorem presence_ws_returns_direct_url (w : world) (cfg : config) (req : request) :
  req_method req <> "OPTIONS" ->
  isWebSocketRequest req = false ->
  Str.includes (pathString req) "presence/ws" = true ->
  eff_call (handler w cfg req).1 = None /\
  (query_truthy (req_query req) "token" = None ->
   (handler w cfg req).2
   = RetValue (proxy_error w (Error w "No token provided for WebSocket connection"))) /\
  (forall rest token,
     PRESENCE_SERVICE_BASE_URL cfg = "http" +:+ rest +:+ "/api" ->
     Str.includes ("ws" +:+ rest +:+ "/ap") "/api" = false ->
     query_truthy (req_query req) "token" = Some token ->
     (handler w cfg req).2
     = RetValue (JObj {["wsUrl" :=
         JStr ("ws" +:+ rest +:+ "/presence/ws?token=" +:+ qval_to_string token)]})).
Proof.
  intros Hm Hws Hp.
  assert (handler w cfg req =
          outer_catch w (presence_ws w cfg req cors_effects)) as ->.
  { unfold handler. rewrite handler_body_dispatch, dispatch_past_upgrade, Hp; [reflexivity|].
    split; [exact Hm|left; exact Hws]. }
  unfold presence_ws. split; [|split].
  - destruct (query_truthy (req_query req) "token"); reflexivity.
  - intros ->. reflexivity.
  - intros rest token Hbase Hfirst ->. rewrite Hbase. unfold Str.replace_http_ws.
    assert (Str.startsWith ("http" +:+ rest +:+ "/api") "http" = true) as ->
      by (apply startsWith_spec; eexists; reflexivity).
    change (Str.substring_from 4 ("http" +:+ rest +:+ "/api")) with (rest +:+ "/api").
    change ("ws" +:+ rest +:+ "/api") with (("ws" +:+ rest) +:+ "/api").
    rewrite (replace_first_api_suffix ("ws" +:+ rest) Hfirst). reflexivity.
Qed.

Lemma presence_ws_returns_direct_url_witness :
  (handler W default_config (get_request "presence/ws" ∅ [("token", QStr "abc")])).2 =
    RetValue (JObj {["wsUrl" := JStr "ws://localhost:8085/presence/ws?token=abc"]}) /\
  eff_call (handler W default_config (get_request "presence/ws" ∅ [("token", QStr "abc")])).1
    = None /\
  (handler W default_config (get_request "presence/ws" ∅ [])).2 =
    RetValue (proxy_error W (Error W "No token provided for WebSocket connection")).
Proof.
  destruct (presence_ws_returns_direct_url W default_config
              (get_request "presence/ws" ∅ [("token", QStr "abc")]))
    as (Hc & _ & Hv); [discriminate|reflexivity|reflexivity|].
  destruct (presence_ws_returns_direct_url W default_config (get_request "presence/ws" ∅ []))
    as (_ & Hn & _); [discriminate|reflexivity|reflexivity|].
  split; [exact (Hv "://localhost:8085" (QStr "abc") eq_refl eq_refl eq_refl)|].
  split; [exact Hc|exact (Hn eq_refl)].
Defined.

(** C10 (counterexample). A [token] parameter that is present and empty is
    refused like a missing one, and an OPTIONS request is answered as a
    preflight whatever its path and token.  With the presence base URL
    [http://api.example.com/api] the [/api] that is removed is the one in
    front of the host name, not the suffix. *)
Lemma empty_token_and_preflight_get_no_url :
  lookup_query [("token", QStr "")] "token" = Some (QStr "") /\
  (handler W default_config (get_request "presence/ws" ∅ [("token", QStr "")])).2 =
    RetValue (proxy_error W (Error W "No token provided for WebSocket connection")) /\
  (handler W default_config
     {| req_method := "OPTIONS"; req_path := "presence/ws"; req_headers := ∅;
        req_query := [("token", QStr "abc")] |}).2 = RetPreflight /\
  (handler W api_host_config (get_request "presence/ws" ∅ [("token", QStr "abc")])).2 =
    RetValue (JObj {["wsUrl" := JStr "ws:/.example.com/api/presence/ws?token=abc"]}).
Proof. repeat split; reflexivity. Qed.

(** ** The user ids of a presence query *)

Section Splitting.

Variable c : ascii.

Lemma split_without_separator s : Str.has_char c s = false -> Str.split c s = [s].
Proof.
  induction s as [|a s IH]; [reflexivity|].
  simpl. intros H. apply orb_false_iff in H as [Ha Hs].
  rewrite Ha, (IH Hs). reflexivity.
Qed.

Lemma split_at_separator x r :
  Str.has_char c x = false -> Str.split c (x +:+ String c r) = x :: Str.split c r.
Proof.
  induction x as [|a x IH]; simpl.
  - intros _. rewrite Ascii.eqb_refl. reflexivity.
  - intros H. apply orb_false_iff in H as [Ha Hx].
    rewrite Ha, (IH Hx). reflexivity.
Qed.

(** Splitting a join gives the pieces back when no piece has the
    separator. *)
Lemma split_join l :
  l <> [] ->
  Forall (fun x => Str.has_char c x = false) l ->
  Str.split c (Str.join (String c EmptyString) l) = l.
Proof.
  intros Hne Hall. induction Hall as [|x l Hx Hall IH]; [contradiction|].
  destruct l as [|y l].
  - simpl. apply split_without_separator, Hx.
  - change (Str.join (String c EmptyString) (x :: y :: l))
      with (x +:+ String c (Str.join (String c EmptyString) (y :: l))).
    rewrite (split_at_separator _ _ Hx), IH; [reflexivity|discriminate].
Qed.

End Splitting.

Lemma has_char_app c s t :
  Str.has_char c (s +:+ t) = Str.has_char c s || Str.has_char c t.
Proof.
  induction s as [|a s IH]; [reflexivity|].
  simpl. rewrite IH. apply orb_assoc.
Qed.

(** An encoded component has no comma. *)
Lemma encodeURIComponent_no_comma s :
  Str.has_char "," (Uri.encodeURIComponent s) = false.
Proof.
  induction s as [|a s IH]; [reflexivity|].
  simpl. rewrite has_char_app, IH, orb_false_r.
  destruct a as [[] [] [] [] [] [] [] []]; reflexivity.
Qed.

(** Decoding undoes the encoding of one character. *)
Lemma percent_decode_char a r :
  Uri.percent_decode
    ((if Uri.uri_unreserved a then String a EmptyString else Uri.percent a) +:+ r)
  = match Uri.percent_decode r with
    | Some d => Some (String a d)
    | None => None
    end.
Proof.
  destruct a as [[] [] [] [] [] [] [] []];
    cbv -[Uri.percent_decode]; cbn [Uri.percent_decode];
    destruct (Uri.percent_decode r); reflexivity.
Qed.

(** Percent-decoding an encoded component gives the component back. *)
Lemma percent_decode_encode s : Uri.percent_decode (Uri.encodeURIComponent s) = Some s.
Proof.
  induction s as [|a s IH]; [reflexivity|].
  change (Uri.encodeURIComponent (String a s))
    with ((if Uri.uri_unreserved a then String a EmptyString else Uri.percent a)
          +:+ Uri.encodeURIComponent s).
  rewrite percent_decode_char, IH. reflexivity.
Qed.

Lemma split_nonempty c s : Str.split c s <> [].
Proof.
  destruct s as [|a s]; simpl; [discriminate|].
  destruct (Ascii.eqb a c); [discriminate|]. destruct (Str.split c s); discriminate.
Qed.

(** The encoded ids split at the commas and decode to the trimmed ids. *)
Lemma encodedIds_round_trip v :
  map Uri.percent_decode (Str.split "," (encodedIds v))
  = map (fun id => Some (Str.trim id)) (Str.split "," v).
Proof.
  unfold encodedIds. rewrite split_join.
  - rewrite map_map. apply map_ext. intros id. apply percent_decode_encode.
  - pose proof (split_nonempty "," v). destruct (Str.split "," v); [contradiction|discriminate].
  - induction (Str.split "," v) as [|id ids IH]; constructor;
      [apply encodeURIComponent_no_comma|exact IH].
Qed.

Lemma includes_char c s : Str.includes s (String c EmptyString) = Str.has_char c s.
Proof.
  induction s as [|a s IH]; [reflexivity|].
  change (Str.includes (String a s) (String c EmptyString))
    with (String.prefix (String c EmptyString) (String a s)
          || Str.includes s (String c EmptyString)).
  rewrite IH, prefix_cons. simpl.
  destruct (ascii_dec c a) as [->|Hne].
  - rewrite Ascii.eqb_refl. destruct s; reflexivity.
  - assert (Ascii.eqb a c = false) as -> by (apply Ascii.eqb_neq; congruence).
    reflexivity.
Qed.

(** A text with the separator splits into two pieces at least. *)
Lemma split_two c s :
  Str.has_char c s = true -> exists x y l, Str.split c s = x :: y :: l.
Proof.
  induction s as [|a s IH]; [discriminate|].
  simpl. destruct (Ascii.eqb a c).
  - intros _. pose proof (split_nonempty c s).
    destruct (Str.split c s) as [|y l]; [contradiction|]. eauto.
  - simpl. intros H. destruct (IH H) as (x & y & l & ->). eauto.
Qed.

(** The commas of the encoded ids are literal; encoding the whole value
    would leave none. *)
Lemma encodedIds_keeps_commas v :
  Str.includes v "," = true ->
  Str.has_char "," (encodedIds v) = true /\ Str.has_char "," (Uri.form_encode v) = false.
Proof.
  intros H. rewrite includes_char in H. split.
  - unfold encodedIds. destruct (split_two _ _ H) as (x & y & l & ->).
    change (Str.has_char "," (Uri.encodeURIComponent (Str.trim x) +:+
              String "," (Str.join ","
                 (map (fun id => Uri.encodeURIComponent (Str.trim id)) (y :: l)))) = true).
    rewrite has_char_app. apply orb_true_r.
  - clear H. induction v as [|a v IH]; [reflexivity|].
    simpl. rewrite has_char_app, IH, orb_false_r.
    destruct a as [[] [] [] [] [] [] [] []]; reflexivity.
Qed.

(** C8. The URL of [presence/users] with a [user_ids] value that contains a
    comma ends in [?user_ids=] and the ids, each trimmed and percent-encoded
    on its own, joined with literal commas; splitting that value at the
    commas and percent-decoding each piece gives the ids back in order.  For
    [user_ids=1,2,3] the pieces are ["1"], ["2"], ["3"]. *)
Theorem presence_user_ids_round_trip (w : world) (cfg : config) (method : string)
    (query : list (string * qval)) (v : string) :
  query_truthy query "user_ids" = Some (QStr v) ->
  Str.includes v "," = true ->
  resolve_url w method "presence/users" query (classify cfg "presence/users" query)
  = baseWithProtocol (baseUrl (classify cfg "presence/users" query))
    +:+ "/presence/users?user_ids="
    +:+ Str.join "," (map (fun id => Uri.encodeURIComponent (Str.trim id)) (Str.split "," v)) /\
  map Uri.percent_decode
    (Str.split ","
       (Str.join "," (map (fun id => Uri.encodeURIComponent (Str.trim id)) (Str.split "," v))))
  = map (fun id => Some (Str.trim id)) (Str.split "," v) /\
  Str.has_char ","
    (Str.join "," (map (fun id => Uri.encodeURIComponent (Str.trim id)) (Str.split "," v)))
  = true /\
  Str.has_char "," (Uri.form_encode v) = false.
Proof.
  intros Hq Hc. fold (encodedIds v). split; [|split].
  - unfold resolve_url.
    assert (build_url w method "presence/users" query (classify cfg "presence/users" query)
            = baseWithProtocol (baseUrl (classify cfg "presence/users" query))
              +:+ "/presence/users?user_ids=" +:+ encodedIds v) as ->.
    { unfold build_url.
      change (String.eqb "presence/users" "messages/history"
              || String.eqb "presence/users" "message/history") with false.
      change (Str.startsWith "presence/users" "presence/users") with true.
      unfold presence_users_url. rewrite Hq, Hc. rewrite append_assoc. reflexivity. }
    unfold add_query.
    rewrite (includes_app_r _ ("/presence/users?user_ids=" +:+ encodedIds v) "?")
      by reflexivity.
    reflexivity.
  - apply encodedIds_round_trip.
  - apply encodedIds_keeps_commas, Hc.
Qed.

Lemma presence_user_ids_round_trip_witness :
  resolve_url W "GET" "presence/users" [("user_ids", QStr "1,2,3")]
    (classify default_config "presence/users" [("user_ids", QStr "1,2,3")])
  = "http://localhost:8085/api/presence/users?user_ids=1,2,3" /\
  map Uri.percent_decode (Str.split "," "1,2,3") = [Some "1"; Some "2"; Some "3"].
Proof.
  destruct (presence_user_ids_round_trip W default_config "GET"
              [("user_ids", QStr "1,2,3")] "1,2,3" eq_refl eq_refl) as (Hu & Hd & _).
  split; [exact Hu|exact Hd].
Defined.

(** * Further properties of the handler *)

(** ** ensureValidUrl *)

Section Collapsing.

Lemma collapse_normal_cons c r :
  collapse_slashes Normal (String c r) =
    if negb (Ascii.eqb c ":") && Str.startsWith r "//"
    then String c (collapse_slashes Keep r)
    else String c (collapse_slashes Normal r).
Proof. reflexivity. Qed.

Lemma collapse_skip_cons c r :
  collapse_slashes Skip (String c r) =
    if Ascii.eqb c "/" then collapse_slashes Skip r
    else collapse_slashes Normal (String c r).
Proof. reflexivity. Qed.

Lemma collapse_keep_cons c r :
  collapse_slashes Keep (String c r) = String c (collapse_slashes Skip r).
Proof. reflexivity. Qed.

Lemma startsWith_cons s c p :
  Str.startsWith (String c s) (String "/" p) = Ascii.eqb c "/" && Str.startsWith s p.
Proof.
  unfold Str.startsWith. rewrite prefix_cons.
  destruct (ascii_dec "/" c) as [<-|Hne]; [reflexivity|].
  assert (Ascii.eqb c "/" = false) as -> by (apply Ascii.eqb_neq; congruence).
  reflexivity.
Qed.

Lemma startsWith_nil s : Str.startsWith s "" = true.
Proof. destruct s; reflexivity. Qed.

(** After the dropped slashes comes no slash. *)
Lemma collapse_skip_head s : Str.startsWith (collapse_slashes Skip s) "/" = false.
Proof.
  induction s as [|c r IH]; [reflexivity|].
  rewrite collapse_skip_cons. destruct (Ascii.eqb c "/") eqn:Hc; [exact IH|].
  rewrite collapse_normal_cons.
  destruct (negb (Ascii.eqb c ":") && Str.startsWith r "//");
    rewrite startsWith_cons, Hc; reflexivity.
Qed.

(** The scan keeps the first character. *)
Lemma collapse_normal_head s :
  Str.startsWith (collapse_slashes Normal s) "/" = Str.startsWith s "/".
Proof.
  destruct s as [|c r]; [reflexivity|].
  rewrite collapse_normal_cons.
  destruct (negb (Ascii.eqb c ":") && Str.startsWith r "//");
    rewrite !startsWith_cons, !startsWith_nil; reflexivity.
Qed.

(** The scan puts two slashes in front only where there were two. *)
Lemma collapse_normal_head2 s :
  Str.startsWith (collapse_slashes Normal s) "//" = true -> Str.startsWith s "//" = true.
Proof.
  destruct s as [|c r]; [discriminate|].
  rewrite collapse_normal_cons.
  destruct (negb (Ascii.eqb c ":") && Str.startsWith r "//") eqn:Hm.
  - apply andb_true_iff in Hm as [_ Hr].
    rewrite !startsWith_cons. intros H. apply andb_true_iff in H as [Hc _].
    destruct r as [|c1 r]; [discriminate Hr|].
    rewrite startsWith_cons in Hr. apply andb_true_iff in Hr as [Hc1 _].
    rewrite startsWith_cons, startsWith_nil, Hc, Hc1. reflexivity.
  - rewrite !startsWith_cons. intros H. apply andb_true_iff in H as [Hc H].
    rewrite collapse_normal_head in H. rewrite Hc, H. reflexivity.
Qed.

(** What the scan returns has no match left, in the state [Normal] and in
    the state [Skip]. *)
Lemma collapse_no_slash_run s :
  slash_run (collapse_slashes Normal s) = false /\
  slash_run (collapse_slashes Skip s) = false.
Proof.
  induction s as [|c r [IHn IHs]]; [split; reflexivity|].
  assert (slash_run (collapse_slashes Normal (String c r)) = false) as Hn.
  { rewrite collapse_normal_cons.
    destruct (negb (Ascii.eqb c ":") && Str.startsWith r "//") eqn:Hm.
    - apply andb_true_iff in Hm as [_ Hr].
      destruct r as [|c1 r1]; [discriminate Hr|].
      rewrite startsWith_cons in Hr. apply andb_true_iff in Hr as [Hc1 Hr].
      destruct r1 as [|c2 r2]; [discriminate Hr|].
      rewrite startsWith_cons in Hr. apply andb_true_iff in Hr as [Hc2 _].
      apply Ascii.eqb_eq in Hc1, Hc2. subst c1 c2.
      rewrite collapse_keep_cons, collapse_skip_cons. simpl (Ascii.eqb "/" "/").
      cbv iota.
      rewrite !collapse_skip_cons in IHs. simpl (Ascii.eqb "/" "/") in IHs.
      cbv iota in IHs.
      change (slash_run (String c (String "/" (collapse_slashes Skip r2))))
        with ((negb (Ascii.eqb c ":")
               && Str.startsWith (String "/" (collapse_slashes Skip r2)) "//")
              || ((negb (Ascii.eqb "/" ":")
                   && Str.startsWith (collapse_slashes Skip r2) "//")
                  || slash_run (collapse_slashes Skip r2))).
      rewrite IHs, startsWith_cons, collapse_skip_head, andb_false_r.
      assert (Str.startsWith (collapse_slashes Skip r2) "//" = false) as ->.
      { pose proof (collapse_skip_head r2) as Hh.
        destruct (collapse_slashes Skip r2) as [|d o]; [reflexivity|].
        rewrite startsWith_cons in *. apply andb_false_iff in Hh as [->|Hh]; [reflexivity|].
        rewrite startsWith_nil in Hh. discriminate Hh. }
      rewrite !andb_false_r. reflexivity.
    - change (slash_run (String c (collapse_slashes Normal r)))
        with ((negb (Ascii.eqb c ":") && Str.startsWith (collapse_slashes Normal r) "//")
              || slash_run (collapse_slashes Normal r)).
      rewrite IHn, orb_false_r.
      destruct (Str.startsWith (collapse_slashes Normal r) "//") eqn:Hh;
        [|apply andb_false_r].
      apply collapse_normal_head2 in Hh. rewrite Hh in Hm. exact Hm. }
  split; [exact Hn|].
  rewrite collapse_skip_cons. destruct (Ascii.eqb c "/"); [exact IHs|exact Hn].
Qed.

(** A text without a match is left as it is. *)
Lemma collapse_fixed s : slash_run s = false -> collapse_slashes Normal s = s.
Proof.
  induction s as [|c r IH]; [reflexivity|].
  intros H.
  change ((negb (Ascii.eqb c ":") && Str.startsWith r "//") || slash_run r = false) in H.
  apply orb_false_iff in H as [Hm Hr].
  rewrite collapse_normal_cons, Hm, (IH Hr). reflexivity.
Qed.

(** The scan keeps a leading [http://] or [https://]. *)
Lemma collapse_keeps_protocol s :
  has_protocol s = true -> has_protocol (collapse_slashes Normal s) = true.
Proof.
  assert (forall rest, Str.startsWith (collapse_slashes Normal (":/" +:+ String "/" rest)) "://"
                       = true) as Hcolon.
  { intros rest.
    change (collapse_slashes Normal (":/" +:+ String "/" rest))
      with (String ":" (collapse_slashes Normal (String "/" (String "/" rest)))).
    rewrite collapse_normal_cons.
    destruct (negb (Ascii.eqb "/" ":") && Str.startsWith (String "/" rest) "//").
    - rewrite collapse_keep_cons. apply startsWith_spec. eexists. reflexivity.
    - rewrite collapse_normal_cons.
      destruct (negb (Ascii.eqb "/" ":") && Str.startsWith rest "//");
        apply startsWith_spec; eexists; reflexivity. }
  unfold has_protocol. intros H. apply orb_true_iff in H as [H|H];
    apply startsWith_spec in H as [rest ->]; apply orb_true_iff; [left|right].
  - change (collapse_slashes Normal ("http://" +:+ rest))
      with ("http" +:+ collapse_slashes Normal (":/" +:+ String "/" rest)).
    specialize (Hcolon rest). apply startsWith_spec in Hcolon as [o ->].
    apply startsWith_spec. exists o. reflexivity.
  - change (collapse_slashes Normal ("https://" +:+ rest))
      with ("https" +:+ collapse_slashes Normal (":/" +:+ String "/" rest)).
    specialize (Hcolon rest). apply startsWith_spec in Hcolon as [o ->].
    apply startsWith_spec. exists o. reflexivity.
Qed.

(** The first step of [ensureValidUrl] gives the text a protocol. *)
Lemma protocol_added url :
  has_protocol (if negb (Str.startsWith url "http://") && negb (Str.startsWith url "https://")
                then "http://" +:+ url else url) = true.
Proof.
  rewrite <- negb_orb. fold (has_protocol url).
  destruct (has_protocol url) eqn:H; [exact H|].
  apply orb_true_iff. left. apply startsWith_spec. exists url. reflexivity.
Qed.

End Collapsing.

(** X1. Whatever it is given, [ensureValidUrl] returns a text that starts
    with [http://] or [https://] and in which two slashes in a row come only
    right after a colon. *)
Theorem ensureValidUrl_well_formed (url : string) :
  has_protocol (ensureValidUrl url) = true /\ slash_run (ensureValidUrl url) = false.
Proof.
  unfold ensureValidUrl. split; [|apply collapse_no_slash_run].
  apply collapse_keeps_protocol, protocol_added.
Qed.

(** X2. [ensureValidUrl] changes nothing in a text it has returned: applying
    it twice is applying it once. *)
Theorem ensureValidUrl_idempotent (url : string) :
  ensureValidUrl (ensureValidUrl url) = ensureValidUrl url.
Proof.
  assert (forall u, has_protocol u = true -> slash_run u = false -> ensureValidUrl u = u) as Hfix.
  { intros u Hp Hs. unfold ensureValidUrl. rewrite <- negb_orb. fold (has_protocol u).
    rewrite Hp. apply collapse_fixed, Hs. }
  apply Hfix.
  - unfold ensureValidUrl. apply collapse_keeps_protocol, protocol_added.
  - unfold ensureValidUrl. apply collapse_no_slash_run.
Qed.

(** ** Preflight and CORS headers *)

(** X3. An OPTIONS request is answered with the empty [200] response
    whatever its path, headers and query: no outbound call is made, no status
    is assigned, and the response carries the four CORS headers and
    [Access-Control-Max-Age: 86400]. *)
Theorem preflight_short_circuits (w : world) (cfg : config) (req : request) :
  req_method req = "OPTIONS" ->
  (handler w cfg req).2 = RetPreflight /\
  eff_call (handler w cfg req).1 = None /\
  eff_status (handler w cfg req).1 = None /\
  eff_headers (handler w cfg req).1 =
    <["access-control-max-age" := "86400"]>
      (<["access-control-allow-credentials" := "true"]>
         (<["access-control-allow-headers" :=
              "Content-Type, Authorization, X-Requested-With, Accept"]>
            (<["access-control-allow-methods" := "GET, POST, PUT, DELETE, OPTIONS, PATCH"]>
               (<["access-control-allow-origin" := "*"]> ∅)))).
Proof.
  intros Hm. unfold handler. rewrite handler_body_dispatch. unfold dispatch.
  rewrite Hm. repeat split; reflexivity.
Qed.

Lemma preflight_short_circuits_witness :
  (handler W default_config
     {| req_method := "OPTIONS"; req_path := "files/upload";
        req_headers := <["authorization" := "Bearer xyz"]> ∅;
        req_query := [("token", QStr "abc")] |}).2 = RetPreflight.
Proof.
  exact (proj1 (preflight_short_circuits W default_config
                  {| req_method := "OPTIONS"; req_path := "files/upload";
                     req_headers := <["authorization" := "Bearer xyz"]> ∅;
                     req_query := [("token", QStr "abc")] |} eq_refl)).
Defined.

Lemma copied_headers_is_Some hs (m : gmap string string) k :
  is_Some (m !! k) -> is_Some (copied_headers hs m !! k).
Proof.
  revert m. induction hs as [|[k0 v0] hs IH]; intros m Hk; [exact Hk|].
  unfold copied_headers. simpl. fold (copied_headers hs (<[Str.toLowerCase k0 := v0]> m)).
  apply IH. destruct (decide (Str.toLowerCase k0 = k)) as [->|Hne].
  - rewrite lookup_insert_eq. eauto.
  - rewrite lookup_insert_ne by exact Hne. exact Hk.
Qed.

Lemma cors_names_present :
  Forall (fun name => is_Some (cors_headers !! name)) cors_names.
Proof. repeat constructor; eexists; reflexivity. Qed.

Lemma cors_names_after_preflight :
  Forall (fun name => eff_headers preflight_effects !! name = cors_headers !! name)
         cors_names.
Proof. repeat constructor. Qed.

(** The response object of a run that did not copy upstream headers. *)
Lemma cors_headers_kept (s : effects) :
  eff_headers s = cors_headers \/ s = preflight_effects ->
  Forall (fun name => is_Some (eff_headers s !! name) /\
                      eff_headers s !! name = cors_headers !! name) cors_names.
Proof.
  unfold cors_names. intros [H | ->]; [rewrite H|];
    repeat (constructor; [split; [eexists; reflexivity|reflexivity]|]);
    constructor.
Qed.

(** X4. Every answer the handler gives itself (the preflight answer, an
    upstream answer passed on, the proxy-error object; not the answer of an
    upload or an upgrade, which h3's proxy call writes) carries the four CORS
    headers.  Each of them has the value that [setCorsHeaders] gave it,
    unless the answer is a file download whose upstream answer has a header
    of the same name, which is then copied over it. *)
Theorem cors_headers_on_every_answer (w : world) (cfg : config) (req : request) :
  (handler w cfg req).2 <> RetDelegated ->
  Forall (fun name =>
            is_Some (eff_headers (handler w cfg req).1 !! name) /\
            (eff_headers (handler w cfg req).1 !! name = cors_headers !! name \/
             exists body r,
               fetch w (request_options w cfg req body) = inr r /\
               r_ok r = true /\
               isFileDownload (request_route cfg req) (req_method req) (pathString req) r
               = true /\
               eff_headers (handler w cfg req).1 = copied_headers (r_headers r) cors_headers /\
               name ∈ map (fun kv : string * string => Str.toLowerCase kv.1) (r_headers r)))
         cors_names.
Proof.
  assert (forall body r,
            fetch w (request_options w cfg req body) = inr r ->
            r_ok r = true ->
            isFileDownload (request_route cfg req) (req_method req) (pathString req) r = true ->
            Forall (fun name =>
              is_Some (copied_headers (r_headers r) cors_headers !! name) /\
              (copied_headers (r_headers r) cors_headers !! name = cors_headers !! name \/
               exists body' r',
                 fetch w (request_options w cfg req body') = inr r' /\
                 r_ok r' = true /\
                 isFileDownload (request_route cfg req) (req_method req) (pathString req) r'
                 = true /\
                 copied_headers (r_headers r) cors_headers
                 = copied_headers (r_headers r') cors_headers /\
                 name ∈ map (fun kv : string * string => Str.toLowerCase kv.1) (r_headers r')))
              cors_names) as Hd.
  { intros body r Hr Hok Hdl. eapply Forall_impl; [exact cors_names_present|].
    intros name Hn. split; [apply copied_headers_is_Some, Hn|].
    destruct (decide (name ∈ map (fun kv : string * string => Str.toLowerCase kv.1)
                                 (r_headers r))) as [Hin|Hnin].
    - right. exists body, r. auto.
    - left. apply copied_headers_other, Hnin. }
  unfold handler.
  destruct (handler_body_completes w cfg req)
    as [ | | | | | | | | | | |body r buffer Hf Hr Hok Hdl|body r e Hf Hr Hok Hdl| ].
  all: cbn [outer_catch fst snd]; intros Hne.
  12, 13: exact (Hd body r Hr Hok Hdl).
  2, 6: (exfalso; apply Hne; reflexivity).
  1: (eapply Forall_impl; [exact (cors_headers_kept preflight_effects (or_intror eq_refl))|];
      intros name [Hk1 Hk2]; split; [exact Hk1|left; exact Hk2]).
  all: match goal with
       | |- context [eff_headers ?s] =>
           eapply Forall_impl; [exact (cors_headers_kept s (or_introl eq_refl))|]
       end; intros name [Hk1 Hk2]; (split; [exact Hk1|left; exact Hk2]).
Qed.

Lemma cors_headers_on_every_answer_witness :
  headers_get (r_headers image_response) "access-control-allow-origin" = None /\
  Forall (fun name =>
            is_Some (eff_headers (handler (sample_world None image_response) default_config
                                    (get_request "files/files/pic.png" ∅ [])).1 !! name))
         cors_names.
Proof.
  split; [reflexivity|].
  assert ((handler (sample_world None image_response) default_config
             (get_request "files/files/pic.png" ∅ [])).2 <> RetDelegated) as Hne
    by (intros H; vm_compute in H; discriminate H).
  eapply Forall_impl;
    [exact (cors_headers_on_every_answer (sample_world None image_response)
              default_config (get_request "files/files/pic.png" ∅ []) Hne)|].
  intros name [Hs _]. exact Hs.
Defined.

(** ** The status code *)

(** X5. The handler assigns a status code in one situation only: [fetch]
    answered with a status outside 200..299.  The code assigned is then the
    upstream one and the value returned is the normalised error object. *)
Theorem status_set_only_for_upstream_errors (w : world) (cfg : config) (req : request)
    (n : Z) :
  eff_status (handler w cfg req).1 = Some n ->
  exists body r,
    fetch w (request_options w cfg req body) = inr r /\
    r_ok r = false /\
    n = r_status r /\
    (handler w cfg req).2 = RetValue (error_response r).
Proof.
  unfold handler.
  destruct (handler_body_completes w cfg req); simpl; intros Hs;
    try discriminate Hs.
  injection Hs as <-. exists body, r. repeat split; assumption || reflexivity.
Qed.

Lemma status_set_only_for_upstream_errors_witness :
  exists body r,
    fetch (sample_world None not_found_response)
      (request_options (sample_world None not_found_response) default_config
         (get_request "users/42" ∅ []) body) = inr r /\
    r_ok r = false /\
    404%Z = r_status r /\
    (handler (sample_world None not_found_response) default_config
       (get_request "users/42" ∅ [])).2 = RetValue (error_response r).
Proof.
  exact (status_set_only_for_upstream_errors (sample_world None not_found_response)
           default_config (get_request "users/42" ∅ []) 404 eq_refl).
Defined.

(** ** Upstream answers *)

Lemma error_response_fields (r : response) :
  exists m : gmap string json,
    error_response r = JObj m /\
    m !! "status" = Some (JNum (r_status r)) /\
    m !! "statusText" = Some (JStr (r_statusText r)).
Proof.
  unfold error_response.
  destruct (default (JStr "Error parsing response") (read_response r));
    eexists; (split; [reflexivity|]); split;
    (try rewrite lookup_insert_ne by discriminate); apply lookup_insert_eq.
Qed.

(** X6. Whatever the body of an upstream answer outside 200..299 is (an
    object, an array, a string, [null], unreadable), the value returned is an
    object whose [status] and [statusText] are the upstream ones: fields of
    these names in the upstream body are overwritten.  A body that cannot be
    read is reported as the message "Error parsing response". *)
Theorem upstream_error_always_has_status (w : world) (cfg : config) (req : request)
    (c : fetch_call) (r : response) :
  eff_call (handler w cfg req).1 = Some (Fetched c) ->
  fetch w c = inr r ->
  r_ok r = false ->
  (exists m : gmap string json,
     (handler w cfg req).2 = RetValue (JObj m) /\
     m !! "status" = Some (JNum (r_status r)) /\
     m !! "statusText" = Some (JStr (r_statusText r))) /\
  (read_response r = None ->
   (handler w cfg req).2 =
     RetValue (JObj (<["statusText" := JStr (r_statusText r)]>
                       (<["status" := JNum (r_status r)]>
                          (<["message" := JStr "Error parsing response"]>
                             (<["error" := JBool true]> ∅)))))).
Proof.
  intros Hc Hr Hok. destruct (fetched_call w cfg req c Hc) as (body & Hf & ->).
  rewrite (handler_error_answer w cfg req body r Hf Hr Hok). simpl. split.
  - destruct (error_response_fields r) as (m & -> & Hs & Ht). eauto.
  - intros Hn. unfold error_response. rewrite Hn. reflexivity.
Qed.

Lemma upstream_error_always_has_status_witness :
  (handler (sample_world None unreadable_error_response) default_config
     (get_request "users" ∅ [])).2 =
    RetValue (JObj (<["statusText" := JStr "Bad Gateway"]>
                      (<["status" := JNum 502]>
                         (<["message" := JStr "Error parsing response"]>
                            (<["error" := JBool true]> ∅))))).
Proof.
  exact (proj2 (upstream_error_always_has_status
                  (sample_world None unreadable_error_response) default_config
                  (get_request "users" ∅ [])
                  (request_options (sample_world None unreadable_error_response)
                     default_config (get_request "users" ∅ []) None)
                  unreadable_error_response eq_refl eq_refl eq_refl) eq_refl).
Defined.

(** X7. A 2xx answer that is no download and whose body cannot be read (JSON
    announced and not parsable, or a text that cannot be decoded) is answered
    with [{error: "Failed to parse response"}]; no status code is assigned,
    so the caller sees a success status. *)
Theorem unreadable_success_is_reported_in_the_body (w : world) (cfg : config)
    (req : request) (c : fetch_call) (r : response) :
  eff_call (handler w cfg req).1 = Some (Fetched c) ->
  fetch w c = inr r ->
  r_ok r = true ->
  isFileDownload (request_route cfg req) (req_method req) (pathString req) r = false ->
  read_response r = None ->
  (handler w cfg req).2 = RetValue (JObj {["error" := JStr "Failed to parse response"]}) /\
  eff_status (handler w cfg req).1 = None.
Proof.
  intros Hc Hr Hok Hd Hn. destruct (fetched_call w cfg req c Hc) as (body & Hf & ->).
  rewrite (handler_ok_answer w cfg req body r Hf Hr Hok), Hd. simpl.
  unfold success_value. rewrite Hn. split; reflexivity.
Qed.

Lemma unreadable_success_is_reported_in_the_body_witness :
  (handler (sample_world None broken_json_response) default_config
     (get_request "users" ∅ [])).2
  = RetValue (JObj {["error" := JStr "Failed to parse response"]}) /\
  eff_status (handler (sample_world None broken_json_response) default_config
                (get_request "users" ∅ [])).1 = None.
Proof.
  exact (unreadable_success_is_reported_in_the_body
           (sample_world None broken_json_response) default_config
           (get_request "users" ∅ [])
           (request_options (sample_world None broken_json_response) default_config
              (get_request "users" ∅ []) None)
           broken_json_response eq_refl eq_refl eq_refl eq_refl eq_refl).
Defined.

Lemma copied_headers_elem hs (m : gmap string string) k v :
  (k, v) ∈ hs -> is_Some (copied_headers hs m !! Str.toLowerCase k).
Proof.
  revert m. induction hs as [|[k0 v0] hs IH]; intros m Hin.
  - apply elem_of_nil in Hin. contradiction.
  - unfold copied_headers. simpl. fold (copied_headers hs (<[Str.toLowerCase k0 := v0]> m)).
    apply elem_of_cons in Hin as [Heq | Hin].
    + injection Heq as -> ->. apply copied_headers_is_Some.
      rewrite lookup_insert_eq. eauto.
    + apply IH, Hin.
Qed.

(** X8. When the body of a file download cannot be read, the answer is the
    proxy-error object, and the upstream headers, copied before the body is
    read, stay on the response: the error object goes out with the upstream
    headers, a [Content-Type] among them. *)
Theorem failed_download_keeps_upstream_headers (w : world) (cfg : config) (req : request)
    (c : fetch_call) (r : response) (e : exn) :
  eff_call (handler w cfg req).1 = Some (Fetched c) ->
  fetch w c = inr r ->
  r_ok r = true ->
  isFileDownload (request_route cfg req) (req_method req) (pathString req) r = true ->
  r_arrayBuffer r = inl e ->
  (handler w cfg req).2 = RetValue (proxy_error w e) /\
  eff_status (handler w cfg req).1 = None /\
  eff_headers (handler w cfg req).1 = copied_headers (r_headers r) cors_headers /\
  is_Some (eff_headers (handler w cfg req).1 !! "content-type").
Proof.
  intros Hc Hr Hok Hd He. destruct (fetched_call w cfg req c Hc) as (body & Hf & ->).
  rewrite (handler_ok_answer w cfg req body r Hf Hr Hok), Hd, He. simpl.
  split; [reflexivity|]. split; [reflexivity|]. split; [reflexivity|].
  unfold isFileDownload, headers_get in Hd.
  destruct (List.find _ (r_headers r)) as [[k v]|] eqn:Hfind;
    [|rewrite !andb_false_r in Hd; discriminate Hd].
  apply List.find_some in Hfind as [Hin Hk]. simpl in Hk.
  apply String.eqb_eq in Hk. rewrite <- Hk.
  apply (copied_headers_elem _ _ k v), list_elem_of_In, Hin.
Qed.

Lemma failed_download_keeps_upstream_headers_witness :
  (handler (sample_world None truncated_image_response) default_config
     (get_request "files/files/pic.png" ∅ [])).2
  = RetValue (JObj (<["message" := JStr "terminated"]>
                      (<["error" := JStr "Proxy Error"]> ∅))) /\
  eff_headers (handler (sample_world None truncated_image_response) default_config
                 (get_request "files/files/pic.png" ∅ [])).1 !! "content-type"
  = Some "image/png".
Proof.
  split; [|reflexivity].
  exact (proj1 (failed_download_keeps_upstream_headers
                  (sample_world None truncated_image_response) default_config
                  (get_request "files/files/pic.png" ∅ [])
                  (request_options (sample_world None truncated_image_response)
                     default_config (get_request "files/files/pic.png" ∅ []) None)
                  truncated_image_response _ eq_refl eq_refl eq_refl eq_refl eq_refl)).
Defined.

(** ** The fetch call *)

(** X9. A request whose path contains [friends/add] is fetched as a POST
    whatever its method; the body is still read by the inbound method, so
    that such a GET is sent upstream as a POST without a body. *)
Theorem friends_add_is_sent_as_post (w : world) (cfg : config) (req : request)
    (c : fetch_call) :
  eff_call (handler w cfg req).1 = Some (Fetched c) ->
  Str.includes (req_path req) "friends/add" = true ->
  f_method c = "POST" /\
  (has_body (req_method req) = false -> f_body c = None).
Proof.
  intros Hc Hp. destruct (fetched_call w cfg req c Hc) as (body & Hf & ->).
  simpl. unfold forcedMethod. rewrite Hp. split; [reflexivity|].
  intros Hb. destruct Hf as (_ & _ & Hbody & _).
  unfold request_body in Hbody. rewrite Hb in Hbody. congruence.
Qed.

Lemma friends_add_is_sent_as_post_witness :
  req_method (get_request "friends/add" ∅ []) = "GET" /\
  f_method (request_options W default_config (get_request "friends/add" ∅ []) None) = "POST" /\
  f_body (request_options W default_config (get_request "friends/add" ∅ []) None) = None.
Proof.
  split; [reflexivity|].
  assert (eff_call (handler W default_config (get_request "friends/add" ∅ [])).1
          = Some (Fetched (request_options W default_config
                             (get_request "friends/add" ∅ []) None))) as Hc
    by (vm_compute; reflexivity).
  destruct (friends_add_is_sent_as_post W default_config (get_request "friends/add" ∅ [])
              _ Hc eq_refl) as [Hm Hb].
  split; [exact Hm|exact (Hb eq_refl)].
Defined.

(** X10. The headers of a [fetch] call are [Content-Type: application/json],
    [Accept: application/json] and at most an [Authorization]: no other
    inbound header, the cookie included, reaches the backend.  For an auth
    endpoint without an inbound [Authorization] there is no [Authorization]
    either, whatever the cookie holds. *)
Theorem fetch_sends_fixed_headers (w : world) (cfg : config) (req : request)
    (c : fetch_call) :
  eff_call (handler w cfg req).1 = Some (Fetched c) ->
  f_headers c !! "Content-Type" = Some "application/json" /\
  f_headers c !! "Accept" = Some "application/json" /\
  (forall k, is_Some (f_headers c !! k) ->
             k = "Content-Type" \/ k = "Accept" \/ k = "Authorization") /\
  (isAuthEndpoint (pathString req) = true ->
   header req "authorization" = None ->
   f_headers c = <["Accept" := "application/json"]>
                   (<["Content-Type" := "application/json"]> ∅)).
Proof.
  intros Hc. destruct (fetched_call w cfg req c Hc) as (body & _ & ->).
  simpl. unfold fetch_headers, with_authorization. repeat split.
  - destruct (authorization_header _ _); reflexivity.
  - destruct (authorization_header _ _); reflexivity.
  - intros k Hk.
    destruct (decide (k = "Content-Type")) as [|H1]; [tauto|].
    destruct (decide (k = "Accept")) as [|H2]; [tauto|].
    destruct (decide (k = "Authorization")) as [|H3]; [tauto|].
    exfalso. destruct (authorization_header _ _);
      rewrite ?lookup_insert_ne, lookup_empty in Hk by congruence;
      destruct Hk as [? Hk]; discriminate Hk.
  - intros Ha Hh. unfold authorization_header. rewrite Ha, Hh. simpl.
    destruct (header req "cookie"); reflexivity.
Qed.

Lemma fetch_sends_fixed_headers_witness :
  req_headers login_json !! "cookie" = Some "theme=dark; auth_token=abc" /\
  f_headers (request_options W default_config login_json None)
  = <["Accept" := "application/json"]> (<["Content-Type" := "application/json"]> ∅).
Proof.
  split; [reflexivity|].
  assert (eff_call (handler W default_config login_json).1
          = Some (Fetched (request_options W default_config login_json None))) as Hc
    by (vm_compute; reflexivity).
  exact (proj2 (proj2 (proj2 (fetch_sends_fixed_headers W default_config login_json _ Hc)))
           eq_refl eq_refl).
Defined.

(** ** The request body *)

Lemma auth_endpoint_is_forwarded (cfg : config) (req : request) :
  isAuthEndpoint (pathString req) = true ->
  req_method req <> "OPTIONS" ->
  forwarded cfg req.
Proof.
  intros Ha Hm. unfold isAuthEndpoint in Ha.
  assert (pathString req = "auth/login" \/ pathString req = "login" \/
          pathString req = "auth/register" \/ pathString req = "register") as Hp.
  { repeat (apply orb_true_iff in Ha as [Ha | Ha]);
      apply String.eqb_eq in Ha; tauto. }
  unfold forwarded, past_upgrade.
  destruct Hp as [-> | [-> | [-> | ->]]];
    (split; [split; [exact Hm|right; reflexivity]|reflexivity]).
Qed.

(** X11. A login or register request with a JSON body whose [email] is
    truthy and no string (a number, [true], an object, an array without
    ["@gmail.coma"]) is not forwarded: the logging of the body calls
    [includes] on the email and throws, and the answer is the proxy error
    "Failed to process request body" without any outbound call. *)
Theorem auth_body_with_odd_email_is_not_forwarded (w : world) (cfg : config)
    (req : request) (b : json) :
  isAuthEndpoint (pathString req) = true ->
  has_body (req_method req) = true ->
  is_upload req = false ->
  readBody w = inr (Some b) ->
  email_log_throws b = true ->
  handler w cfg req
  = (cors_effects, RetValue (proxy_error w (Error w "Failed to process request body"))).
Proof.
  intros Ha Hb Hu Hr He.
  assert (req_method req <> "OPTIONS") as Hm.
  { intros Hm. rewrite Hm in Hb. discriminate Hb. }
  pose proof (auth_endpoint_is_forwarded cfg req Ha Hm) as [[_ Hws] Hi].
  assert (request_body w req = inl (Error w "Failed to process request body")) as Hbody.
  { unfold request_body. rewrite Hb, Hr, Ha, He. reflexivity. }
  unfold handler.
  destruct (handler_body_completes w cfg req);
    try contradiction; try congruence;
    try (rewrite Hb, Hu in *; discriminate);
    try (match goal with H : fetched _ _ _ _ |- _ => destruct H as (_ & _ & H & _) end;
         congruence).
  - destruct Hws; congruence.
  - destruct Hws; congruence.
  - assert (e = Error w "Failed to process request body") as -> by congruence.
    reflexivity.
Qed.

Lemma auth_body_with_odd_email_is_not_forwarded_witness :
  handler (with_readBody W (inr (Some (JObj {["email" := JNum 5]})))) default_config login_json
  = (cors_effects,
     RetValue (JObj (<["message" := JStr "Failed to process request body"]>
                       (<["error" := JStr "Proxy Error"]> ∅)))).
Proof.
  exact (auth_body_with_odd_email_is_not_forwarded
           (with_readBody W (inr (Some (JObj {["email" := JNum 5]})))) default_config
           login_json (JObj {["email" := JNum 5]}) eq_refl eq_refl eq_refl eq_refl eq_refl).
Defined.

(** ** WebSocket upgrades *)

Lemma with_header_lookup name value (h : gmap string string) k :
  is_Some (with_header name value h !! k) -> k = name \/ is_Some (h !! k).
Proof.
  unfold with_header. destruct value as [v|]; [|tauto].
  destruct (decide (k = name)) as [->|Hne]; [tauto|].
  rewrite lookup_insert_ne by congruence. tauto.
Qed.

(** X12. The only call to [proxyRequest] is made for a WebSocket upgrade of
    a path that starts with [messages/ws] or [presence/ws].  Its headers are
    [Upgrade: websocket], [Connection: Upgrade] and at most [Authorization],
    [Origin] and the three [Sec-WebSocket-*] headers: nothing else of the
    inbound request, the cookie included, is passed on. *)
Theorem upgrade_passes_fixed_headers (w : world) (cfg : config) (req : request)
    (target : string) (h : gmap string string) :
  eff_call (handler w cfg req).1 = Some (ProxiedRequest target h) ->
  isWebSocketRequest req = true /\
  (Str.startsWith (pathString req) "messages/ws" = true \/
   Str.startsWith (pathString req) "presence/ws" = true) /\
  (handler w cfg req).2 = RetDelegated /\
  h !! "Upgrade" = Some "websocket" /\
  h !! "Connection" = Some "Upgrade" /\
  (forall k, is_Some (h !! k) ->
             k ∈ ["Upgrade"; "Connection"; "Authorization"; "Origin"; "Sec-WebSocket-Key";
                  "Sec-WebSocket-Version"; "Sec-WebSocket-Extensions"]).
Proof.
  unfold handler.
  destruct (handler_body_completes w cfg req)
    as [ |tg href Hm Hws Ht Hu| | | | | | | | | | | | ];
    simpl; intros Hc; try discriminate Hc.
  injection Hc as _ <-. split; [exact Hws|]. split.
  { unfold wsTarget in Ht.
    destruct (Str.startsWith (pathString req) "messages/ws"); [tauto|].
    destruct (Str.startsWith (pathString req) "presence/ws"); [tauto|discriminate Ht]. }
  split; [reflexivity|]. unfold websocket_headers. repeat split.
  - unfold with_header.
    destruct (header req "sec-websocket-extensions"), (header req "sec-websocket-version"),
      (header req "sec-websocket-key"), (header req "origin"), (websocket_token req);
      reflexivity.
  - unfold with_header.
    destruct (header req "sec-websocket-extensions"), (header req "sec-websocket-version"),
      (header req "sec-websocket-key"), (header req "origin"), (websocket_token req);
      reflexivity.
  - intros k Hk.
    repeat (apply with_header_lookup in Hk as [-> | Hk];
            [apply (bool_decide_unpack _); reflexivity|]).
    destruct (decide (k = "Connection")) as [->|H1];
      [apply (bool_decide_unpack _); reflexivity|].
    destruct (decide (k = "Upgrade")) as [->|H2];
      [apply (bool_decide_unpack _); reflexivity|].
    rewrite !lookup_insert_ne, lookup_empty in Hk by congruence.
    destruct Hk as [? Hk]. discriminate Hk.
Qed.

Lemma upgrade_passes_fixed_headers_witness :
  req_headers upgrade_request !! "authorization" = Some "Bearer xyz" /\
  websocket_headers upgrade_request !! "Upgrade" = Some "websocket" /\
  websocket_headers upgrade_request !! "Connection" = Some "Upgrade".
Proof.
  split; [reflexivity|].
  assert (eff_call (handler W default_config upgrade_request).1
          = Some (ProxiedRequest "ws://localhost:8082/api/messages/ws?token=t"
                    (websocket_headers upgrade_request))) as Hc
    by (vm_compute; reflexivity).
  destruct (upgrade_passes_fixed_headers W default_config upgrade_request _ _ Hc)
    as (_ & _ & _ & Hu & Hk & _).
  split; [exact Hu|exact Hk].
Defined.

(** ** Raw bytes *)

Lemma file_route_prefix (cfg : config) (p : string) (query : list (string * qval)) :
  isFileRequest (classify cfg p query) = true ->
  Str.startsWith p "files" || Str.startsWith p "media" = true.
Proof.
  unfold classify.
  destruct (Str.startsWith p "notifications"); [discriminate|].
  destruct (Str.startsWith p "presence"); [discriminate|].
  destruct ((Str.startsWith p "groups" || Str.startsWith p "group")
            && negb (Str.includes p "message")); [discriminate|].
  destruct (Str.startsWith p "files" || Str.startsWith p "media"); [reflexivity|].
  destruct (is_message_endpoint p); discriminate.
Qed.

(** X13. The handler returns raw bytes in one situation only: a GET whose
    path starts with [files] or [media] and contains [/files/], answered
    upstream with a 2xx status and a non-empty [Content-Type] that does not
    include [application/json]; the bytes are those of the upstream body.
    Neither [files/<name>] nor a JSON answer is ever returned as bytes. *)
Theorem raw_bytes_only_for_file_downloads (w : world) (cfg : config) (req : request)
    (b : string) :
  (handler w cfg req).2 = RetBytes b ->
  req_method req = "GET" /\
  Str.startsWith (pathString req) "files" || Str.startsWith (pathString req) "media" = true /\
  Str.includes (pathString req) "/files/" = true /\
  exists r ct,
    fetch w (request_options w cfg req None) = inr r /\
    r_ok r = true /\
    r_arrayBuffer r = inr b /\
    headers_get (r_headers r) "content-type" = Some ct /\
    ct <> "" /\
    Str.includes ct "application/json" = false.
Proof.
  unfold handler.
  destruct (handler_body_completes w cfg req)
    as [ | | | | | | | | | | |body r buffer Hf Hr Hok Hd Hb| | ];
    simpl; intros Hv; try discriminate Hv.
  injection Hv as <-. unfold isFileDownload in Hd.
  apply andb_true_iff in Hd as [Hd Hct]. apply andb_true_iff in Hd as [Hd Hm].
  apply andb_true_iff in Hd as [Hfile Hp]. apply String.eqb_eq in Hm.
  assert (body = None) as ->.
  { destruct Hf as (_ & _ & Hbody & _). unfold request_body in Hbody.
    rewrite Hm in Hbody. simpl in Hbody. congruence. }
  split; [exact Hm|]. split; [exact (file_route_prefix _ _ _ Hfile)|]. split; [exact Hp|].
  destruct (headers_get (r_headers r) "content-type") as [ct|] eqn:Hg; [|discriminate Hct].
  exists r, ct. unfold truthy, Str.nonempty in Hct.
  destruct (String.eqb ct "") eqn:He; [discriminate Hct|].
  apply String.eqb_neq in He. apply negb_true_iff in Hct. auto 10.
Qed.

Lemma raw_bytes_only_for_file_downloads_witness :
  req_method (get_request "files/files/pic.png" ∅ []) = "GET" /\
  Str.includes (pathString (get_request "files/files/pic.png" ∅ [])) "/files/" = true.
Proof.
  assert ((handler (sample_world None image_response) default_config
             (get_request "files/files/pic.png" ∅ [])).2 = RetBytes png_bytes) as Hv
    by (vm_compute; reflexivity).
  destruct (raw_bytes_only_for_file_downloads (sample_world None image_response)
              default_config (get_request "files/files/pic.png" ∅ []) png_bytes Hv)
    as (Hm & _ & Hp & _).
  split; [exact Hm|exact Hp].
Defined.

(** ** validateToken *)

(** X14. [validateToken] answers [false] for a missing or empty token only.
    A token without three parts, a payload that cannot be decoded or parsed,
    and a token whose [exp] is in the past all give [true]: whatever the
    decoder and the clock say, a token that is present is accepted. *)
Theorem validateToken_accepts_any_token (parse_payload : string -> option json)
    (expired : json -> bool) (token : option string) :
  validateToken_steps parse_payload expired token = validateToken token /\
  (validateToken_steps parse_payload expired token = true <->
   exists t, token = Some t /\ t <> "").
Proof.
  assert (validateToken_steps parse_payload expired token = validateToken token) as Heq.
  { unfold validateToken_steps, validateToken.
    destruct (truthy token) as [t|]; [|reflexivity].
    destruct (truthy (nth_error (Str.split "." t) 0)); [|reflexivity].
    destruct (truthy (nth_error (Str.split "." t) 1)) as [payload|]; [|reflexivity].
    destruct (truthy (nth_error (Str.split "." t) 2)); [|reflexivity].
    destruct (parse_payload payload) as [[| | | | |m]|]; try reflexivity.
    destruct (m !! "exp") as [e|]; [|reflexivity].
    destruct (json_truthy e && expired e); reflexivity. }
  split; [exact Heq|]. rewrite Heq. unfold validateToken, truthy, Str.nonempty.
  destruct token as [t|].
  - destruct (String.eqb t "") eqn:He; simpl.
    + apply String.eqb_eq in He. split; [discriminate|]. intros (t' & [= <-] & Hne).
      contradiction.
    + apply String.eqb_neq in He. split; [eauto|reflexivity].
  - split; [discriminate|]. intros (t' & [=] & _).
Qed.

(** ** The path prefix *)

(** The handler reads the path through [pathString] and [forcedMethod]
    only. *)
Lemma handler_path (w : world) (cfg : config) (req : request) (p q : string) :
  clean_path p = clean_path q ->
  Str.includes p "friends/add" = Str.includes q "friends/add" ->
  handler w cfg (with_path req p) = handler w cfg (with_path req q).
Proof.
  intros Hc Hf.
  unfold handler, handler_body, dispatch, forward, upload, upgrade, presence_ws,
    isWebSocketRequest, websocket_headers, websocket_token, header, proxyHeaders,
    upload_authorization, authorization_header, fetch_headers, is_upload,
    pathString, forcedMethod, with_path.
  cbn [req_method req_path req_headers req_query].
  rewrite Hc, Hf. reflexivity.
Qed.

Lemma includes_cons_other s c p0 p :
  Ascii.eqb c p0 = false ->
  Str.includes (String c s) (String p0 p) = Str.includes s (String p0 p).
Proof.
  intros Hne.
  change (Str.includes (String c s) (String p0 p))
    with (String.prefix (String p0 p) (String c s) || Str.includes s (String p0 p)).
  rewrite prefix_cons. destruct (ascii_dec p0 c) as [->|_]; [|reflexivity].
  rewrite Ascii.eqb_refl in Hne. discriminate Hne.
Qed.

Lemma append_cons c s t : String c s +:+ t = String c (s +:+ t).
Proof. reflexivity. Qed.

Lemma append_nil t : "" +:+ t = t.
Proof. reflexivity. Qed.

(** X15. A leading [api/proxy/] or [proxy/] of the path is transparent: the
    request is answered as the request for the rest of the path is, provided
    that rest does not itself start with one of the two prefixes (the prefix
    is removed once). *)
Theorem proxy_prefix_is_transparent (w : world) (cfg : config) (req : request) (p : string) :
  clean_path p = p ->
  handler w cfg (with_path req ("api/proxy/" +:+ p)) = handler w cfg (with_path req p) /\
  handler w cfg (with_path req ("proxy/" +:+ p)) = handler w cfg (with_path req p).
Proof.
  intros Hp. split; apply handler_path.
  - rewrite Hp. unfold clean_path.
    assert (Str.startsWith ("api/proxy/" +:+ p) "api/proxy/" = true) as ->
        by (apply startsWith_spec; eexists; reflexivity).
    reflexivity.
  - rewrite !append_cons, append_nil.
    repeat rewrite includes_cons_other by reflexivity. reflexivity.
  - rewrite Hp. unfold clean_path.
    assert (Str.startsWith ("proxy/" +:+ p) "api/proxy/" = false) as -> by reflexivity.
    assert (Str.startsWith ("proxy/" +:+ p) "proxy/" = true) as ->
        by (apply startsWith_spec; eexists; reflexivity).
    reflexivity.
  - rewrite !append_cons, append_nil.
    repeat rewrite includes_cons_other by reflexivity. reflexivity.
Qed.

Lemma proxy_prefix_is_transparent_witness :
  handler W default_config (get_request "api/proxy/users/42" ∅ [])
  = handler W default_config (get_request "users/42" ∅ []).
Proof.
  exact (proj1 (proxy_prefix_is_transparent W default_config (get_request "" ∅ [])
                  "users/42" eq_refl)).
Defined.

(** ** The URL of presence/users *)

Lemma query_truthy_has_keys query k v : query_truthy query k = Some v -> has_keys query = true.
Proof. destruct query; [discriminate|reflexivity]. Qed.

(** The URL of a path that starts with [presence/users], when [user_ids] is
    truthy: the path and the query enter through [user_ids] alone. *)
Lemma presence_users_resolved (w : world) (cfg : config) (method p : string)
    (query : list (string * qval)) (v : qval) :
  Str.startsWith p "presence/users" = true ->
  Str.includes p "messages/history" = false ->
  query_truthy query "user_ids" = Some v ->
  resolve_url w method p query (classify cfg p query)
  = presence_users_url
      (baseWithProtocol (baseWithScheme (PRESENCE_SERVICE_BASE_URL cfg)) +:+ "/presence/users")
      [("user_ids", v)].
Proof.
  intros Hp Hh Hq.
  assert (qval_truthy v = true) as Hv.
  { unfold query_truthy in Hq. destruct (lookup_query query "user_ids") as [v'|];
      [|discriminate Hq].
    destruct (qval_truthy v') eqn:Hv'; [|discriminate Hq]. congruence. }
  assert (classify cfg p query
          = {| svc := Presence; baseUrl := baseWithScheme (PRESENCE_SERVICE_BASE_URL cfg);
               isFileRequest := false |}) as ->.
  { unfold classify. rewrite Hp, Hq, (query_truthy_has_keys _ _ _ Hq).
    apply startsWith_spec in Hp as [r ->]. unfold baseWithScheme.
    destruct (has_protocol (PRESENCE_SERVICE_BASE_URL cfg)); reflexivity. }
  unfold resolve_url, repair_history. rewrite Hh.
  assert (build_url w method p query
            {| svc := Presence; baseUrl := baseWithScheme (PRESENCE_SERVICE_BASE_URL cfg);
               isFileRequest := false |}
          = presence_users_url
              (baseWithProtocol (baseWithScheme (PRESENCE_SERVICE_BASE_URL cfg))
               +:+ "/presence/users") query) as ->.
  { unfold build_url. rewrite Hp. apply startsWith_spec in Hp as [r ->]. reflexivity. }
  unfold presence_users_url. rewrite Hq.
  change (query_truthy [("user_ids", v)] "user_ids") with (if qval_truthy v then Some v else None).
  rewrite Hv. unfold add_query.
  destruct v as [s|l]; [destruct (Str.includes s ",")|];
    rewrite includes_app_r by reflexivity; reflexivity.
Qed.

(** X16. For a path that starts with [presence/users] and a truthy
    [user_ids] parameter, the upstream URL is made of the presence base URL
    and of [user_ids] alone: what follows [presence/users] in the path, the
    method and every other query parameter are dropped. *)
Theorem presence_users_url_ignores_the_rest (w : world) (cfg : config)
    (req1 req2 : request) (v : qval) :
  Str.startsWith (pathString req1) "presence/users" = true ->
  Str.startsWith (pathString req2) "presence/users" = true ->
  Str.includes (pathString req1) "messages/history" = false ->
  Str.includes (pathString req2) "messages/history" = false ->
  query_truthy (req_query req1) "user_ids" = Some v ->
  query_truthy (req_query req2) "user_ids" = Some v ->
  request_url w cfg req1 = request_url w cfg req2.
Proof.
  intros Hp1 Hp2 Hh1 Hh2 Hq1 Hq2. unfold request_url, request_route.
  rewrite (presence_users_resolved w cfg _ _ _ v Hp1 Hh1 Hq1).
  rewrite (presence_users_resolved w cfg _ _ _ v Hp2 Hh2 Hq2).
  reflexivity.
Qed.

Lemma presence_users_url_ignores_the_rest_witness :
  request_url W default_config
    {| req_method := "DELETE"; req_path := "presence/users/42/status"; req_headers := ∅;
       req_query := [("limit", QStr "5"); ("user_ids", QStr "7")] |}
  = request_url W default_config (get_request "presence/users" ∅ [("user_ids", QStr "7")]) /\
  request_url W default_config (get_request "presence/users" ∅ [("user_ids", QStr "7")])
  = "http://localhost:8085/api/presence/users?user_ids=7".
Proof.
  split; [|reflexivity].
  exact (presence_users_url_ignores_the_rest W default_config
           {| req_method := "DELETE"; req_path := "presence/users/42/status";
              req_headers := ∅;
              req_query := [("limit", QStr "5"); ("user_ids", QStr "7")] |}
           (get_request "presence/users" ∅ [("user_ids", QStr "7")]) (QStr "7")
           eq_refl eq_refl eq_refl eq_refl eq_refl eq_refl).
Defined.

(** ** The URLs of the message endpoints *)

Lemma classify_message_prefix (cfg : config) (p : string) (query : list (string * qval)) :
  Str.startsWith p "message" = true ->
  classify cfg p query
  = {| svc := Group; baseUrl := GROUP_API_BASE_URL cfg; isFileRequest := false |}.
Proof.
  intros H. destruct (message_prefix_alone p H) as (Hl & Hg1 & Hg2).
  unfold later_service in Hl. unfold classify, is_message_endpoint. rewrite H, Hg1, Hg2.
  destruct (Str.startsWith p "notifications"); [discriminate Hl|].
  destruct (Str.startsWith p "presence"); [discriminate Hl|].
  destruct (Str.startsWith p "files" || Str.startsWith p "media"); [discriminate Hl|].
  reflexivity.
Qed.

Lemma message_path_prefix p : is_message_path p = true -> Str.startsWith p "message" = true.
Proof.
  unfold is_message_path. intros H.
  apply orb_true_iff in H as [H|H]; apply startsWith_spec in H as [r ->];
    apply startsWith_spec; eexists; reflexivity.
Qed.

(** The URL of a write to a message: the second segment of the path names
    the message, and what follows it is dropped. *)
Lemma message_write_url (w : world) (method p : string) (query : list (string * qval))
    (rt : route) (h id : string) (l : list string) :
  is_message_path p = true ->
  Str.split "/" p = h :: id :: l ->
  method = "DELETE" \/ method = "PUT" \/ method = "PATCH" ->
  build_url w method p query rt = baseWithProtocol (baseUrl rt) +:+ "/messages/" +:+ id.
Proof.
  intros Hmp Hs Hm. unfold build_url.
  destruct (String.eqb p "messages/history" || String.eqb p "message/history") eqn:Hh.
  { apply orb_true_iff in Hh as [Hh|Hh]; apply String.eqb_eq in Hh; subst p;
      injection Hs as _ <- _; reflexivity. }
  assert (Str.startsWith p "presence/users" = false) as ->.
  { apply message_path_prefix, startsWith_spec in Hmp as [r ->]. reflexivity. }
  rewrite Hmp, Hs.
  destruct Hm as [-> | [-> | ->]]; rewrite ?andb_false_r; reflexivity.
Qed.

(** The split of a path at its first two segments. *)
Lemma split_message_path (h id : string) :
  Str.has_char "/" h = false ->
  Str.has_char "/" id = false ->
  Str.split "/" (h +:+ "/" +:+ id) = [h; id] /\
  forall rest, Str.split "/" (h +:+ "/" +:+ id +:+ "/" +:+ rest)
               = h :: id :: Str.split "/" rest.
Proof.
  intros Hh Hi. split.
  - change (h +:+ "/" +:+ id) with (h +:+ String "/" id).
    rewrite (split_at_separator _ _ _ Hh), (split_without_separator _ _ Hi). reflexivity.
  - intros rest.
    change (h +:+ "/" +:+ id +:+ "/" +:+ rest)
      with (h +:+ String "/" (id +:+ String "/" rest)).
    rewrite (split_at_separator _ _ _ Hh), (split_at_separator _ _ _ Hi). reflexivity.
Qed.

(** X17. A DELETE, PUT or PATCH of [messages/<id>] or [message/<id>], with
    or without further path segments, is sent to [/messages/<id>] of the
    Group service: the singular becomes the plural and whatever follows the id
    in the path is dropped.  A GET of [message/<id>] is sent to
    [/messages/<id>] as well. *)
Theorem message_urls_name_the_message (w : world) (cfg : config) (method id : string)
    (query : list (string * qval)) :
  Str.has_char "/" id = false ->
  build_url w "GET" ("message/" +:+ id) query (classify cfg ("message/" +:+ id) query)
  = baseWithProtocol (GROUP_API_BASE_URL cfg) +:+ "/messages/" +:+ id /\
  (method = "DELETE" \/ method = "PUT" \/ method = "PATCH" ->
   forall p rest,
     p = "messages/" +:+ id \/ p = "message/" +:+ id \/
     p = "messages/" +:+ id +:+ "/" +:+ rest \/ p = "message/" +:+ id +:+ "/" +:+ rest ->
     build_url w method p query (classify cfg p query)
     = baseWithProtocol (GROUP_API_BASE_URL cfg) +:+ "/messages/" +:+ id).
Proof.
  intros Hid.
  destruct (split_message_path "messages" id eq_refl Hid) as [Hs1 Hs2].
  destruct (split_message_path "message" id eq_refl Hid) as [Hs3 Hs4].
  split.
  - rewrite classify_message_prefix by (apply startsWith_spec; eexists; reflexivity).
    unfold build_url. cbn [baseUrl].
    assert (String.eqb ("message/" +:+ id) "messages/history" = false) as -> by reflexivity.
    assert (Str.startsWith ("message/" +:+ id) "presence/users" = false) as -> by reflexivity.
    assert (Str.startsWith ("message/" +:+ id) "message/" = true) as ->
        by (apply startsWith_spec; eexists; reflexivity).
    change (Str.split "/" ("message/" +:+ id)) with (Str.split "/" ("message" +:+ "/" +:+ id)).
    rewrite Hs3.
    assert (String.eqb ("message/" +:+ id) "message/history" = String.eqb id "history") as ->
        by reflexivity.
    destruct (String.eqb id "history") eqn:Hh; [|reflexivity].
    apply String.eqb_eq in Hh. subst id. reflexivity.
  - intros Hm p rest Hp.
    assert (is_message_path p = true /\ exists h l, Str.split "/" p = h :: id :: l) as [Hmp Hs].
    { unfold is_message_path.
      destruct Hp as [-> | [-> | [-> | ->]]]; split.
      - apply orb_true_iff. left. apply startsWith_spec. eexists. reflexivity.
      - exists "messages", []. exact Hs1.
      - apply orb_true_iff. right. apply startsWith_spec. eexists. reflexivity.
      - exists "message", []. exact Hs3.
      - apply orb_true_iff. left. apply startsWith_spec. eexists. reflexivity.
      - exists "messages", (Str.split "/" rest). exact (Hs2 rest).
      - apply orb_true_iff. right. apply startsWith_spec. eexists. reflexivity.
      - exists "message", (Str.split "/" rest). exact (Hs4 rest). }
    destruct Hs as (h & l & Hs).
    rewrite (message_write_url w method p query _ h id l Hmp Hs Hm).
    rewrite classify_message_prefix by (apply message_path_prefix, Hmp). reflexivity.
Qed.

Lemma message_urls_name_the_message_witness :
  build_url W "DELETE" "message/42/reactions/7" []
    (classify default_config "message/42/reactions/7" [])
  = "http://localhost:8082/api/messages/42".
Proof.
  exact (proj2 (message_urls_name_the_message W default_config "DELETE" "42" [] eq_refl)
           (or_introl eq_refl) "message/42/reactions/7" "reactions/7"
           (or_intror (or_intror (or_intror eq_refl)))).
Defined.

(** ** The URLs of the File service *)

(** X18. [files/<rest>] and [media/<rest>] are sent to [/api/files/<rest>]
    and [/api/media/<rest>] of the File service, and the bare [files] and
    [media] to [/api/files] and [/api/media], whatever the method and the
    query are.  The base URL is used as configured: unlike the other
    branches, this one adds no protocol to it. *)
Theorem file_paths_go_under_api (w : world) (cfg : config) (method rest : string)
    (query : list (string * qval)) :
  build_url w method ("files/" +:+ rest) query (classify cfg ("files/" +:+ rest) query)
  = FILE_SERVICE_BASE_URL cfg +:+ "/api/files/" +:+ rest /\
  build_url w method ("media/" +:+ rest) query (classify cfg ("media/" +:+ rest) query)
  = FILE_SERVICE_BASE_URL cfg +:+ "/api/media/" +:+ rest /\
  build_url w method "files" query (classify cfg "files" query)
  = FILE_SERVICE_BASE_URL cfg +:+ "/api/files" /\
  build_url w method "media" query (classify cfg "media" query)
  = FILE_SERVICE_BASE_URL cfg +:+ "/api/media".
Proof.
  assert (forall p, Str.startsWith p "files/" || Str.startsWith p "media/" = true ->
                    classify cfg p query
                    = {| svc := File; baseUrl := FILE_SERVICE_BASE_URL cfg;
                         isFileRequest := true |}) as Hcl.
  { intros p Hp. unfold classify.
    apply orb_true_iff in Hp as [Hp|Hp]; apply startsWith_spec in Hp as [r ->]; reflexivity. }
  assert (forall r, Str.startsWith ("files/" +:+ r) "files/" = true) as Hf
      by (intros r; apply startsWith_spec; eexists; reflexivity).
  assert (forall r, Str.startsWith ("media/" +:+ r) "media/" = true) as Hm
      by (intros r; apply startsWith_spec; eexists; reflexivity).
  split; [|split; [|split]].
  - rewrite Hcl by (rewrite Hf; reflexivity).
    unfold build_url. cbn [baseUrl isFileRequest].
    assert (is_message_path ("files/" +:+ rest) = false) as -> by reflexivity.
    rewrite Hf. reflexivity.
  - rewrite Hcl by (rewrite Hm; apply orb_true_r).
    unfold build_url. cbn [baseUrl isFileRequest].
    assert (is_message_path ("media/" +:+ rest) = false) as -> by reflexivity.
    rewrite Hm. reflexivity.
  - reflexivity.
  - reflexivity.
Qed.

(** ** The URLs of the general API *)

Lemma startsWith_longer s a b :
  Str.startsWith s a = false -> Str.startsWith s (a +:+ b) = false.
Proof.
  intros H. destruct (Str.startsWith s (a +:+ b)) eqn:Hab; [|reflexivity].
  apply startsWith_spec in Hab as [r ->].
  assert (Str.startsWith ((a +:+ b) +:+ r) a = true) as Ha.
  { apply startsWith_spec. exists (b +:+ r). apply append_assoc. }
  congruence.
Qed.

Lemma eqb_longer s a b : Str.startsWith s a = false -> String.eqb s (a +:+ b) = false.
Proof.
  intros H. destruct (String.eqb s (a +:+ b)) eqn:Hab; [|reflexivity].
  apply String.eqb_eq in Hab. subst s.
  assert (Str.startsWith (a +:+ b) a = true) as Ha
      by (apply startsWith_spec; eexists; reflexivity).
  congruence.
Qed.

(** X19. A path that starts with none of [message], [group],
    [notifications], [presence], [files] and [media], and that does not
    contain [/message], is sent to the general API under the same path
    whatever the method: the URL is the general base URL, with [http://] put
    in front when it has no protocol, a slash and the path. *)
Theorem other_paths_go_to_the_general_api (w : world) (cfg : config) (method p : string)
    (query : list (string * qval)) :
  later_service p = None ->
  Str.startsWith p "message" = false ->
  Str.startsWith p "group" = false ->
  Str.includes p "/message" = false ->
  svc (classify cfg p query) = General /\
  build_url w method p query (classify cfg p query)
  = baseWithScheme (API_BASE_URL cfg) +:+ "/" +:+ p.
Proof.
  intros Hl Hm Hg Hi. unfold later_service in Hl.
  destruct (Str.startsWith p "notifications") eqn:Hn; [discriminate Hl|].
  destruct (Str.startsWith p "presence") eqn:Hp; [discriminate Hl|].
  destruct (Str.startsWith p "files" || Str.startsWith p "media") eqn:Hf; [discriminate Hl|].
  pose proof (startsWith_longer p "group" "s" Hg) as Hg1.
  pose proof (startsWith_longer p "group" "s/messages" Hg) as Hg2.
  pose proof (startsWith_longer p "group" "/" Hg) as Hg3.
  pose proof (startsWith_longer p "message" "/" Hm) as Hm1.
  pose proof (startsWith_longer p "message" "s/" Hm) as Hm2.
  pose proof (startsWith_longer p "presence" "/users" Hp) as Hp1.
  pose proof (startsWith_longer p "presence" "/" Hp) as Hp2.
  pose proof (eqb_longer p "message" "s/history" Hm) as He1.
  pose proof (eqb_longer p "message" "/history" Hm) as He2.
  pose proof (eqb_longer p "message" "s" Hm) as He3.
  pose proof (eqb_longer p "message" "" Hm) as He4.
  change ("group" +:+ "s") with "groups" in Hg1.
  change ("group" +:+ "s/messages") with "groups/messages" in Hg2.
  change ("group" +:+ "/") with "group/" in Hg3.
  change ("message" +:+ "/") with "message/" in Hm1.
  change ("message" +:+ "s/") with "messages/" in Hm2.
  change ("presence" +:+ "/users") with "presence/users" in Hp1.
  change ("presence" +:+ "/") with "presence/" in Hp2.
  change ("message" +:+ "s/history") with "messages/history" in He1.
  change ("message" +:+ "/history") with "message/history" in He2.
  change ("message" +:+ "s") with "messages" in He3.
  change ("message" +:+ "") with "message" in He4.
  assert (classify cfg p query
          = {| svc := General; baseUrl := API_BASE_URL cfg; isFileRequest := false |}) as ->.
  { unfold classify, is_message_endpoint.
    rewrite Hn, Hp, Hf, Hm, Hi, Hg, Hg1, Hg2, Hg3. reflexivity. }
  split; [reflexivity|].
  unfold build_url, is_message_path. cbn [baseUrl isFileRequest].
  rewrite He1, He2, He3, He4, Hp1, Hp2, Hm1, Hm2, Hn, Hp, Hg, Hg1. reflexivity.
Qed.

Lemma other_paths_go_to_the_general_api_witness :
  build_url W "PUT" "users/profile/avatar" [] (classify default_config "users/profile/avatar" [])
  = "http://localhost:8081/api/users/profile/avatar".
Proof.
  exact (proj2 (other_paths_go_to_the_general_api W default_config "PUT"
                  "users/profile/avatar" [] eq_refl eq_refl eq_refl eq_refl)).
Defined.

(** ** Singular and plural message paths *)

Lemma split_singleton c s x : Str.split c s = [x] -> x = s.
Proof.
  revert x. induction s as [|a r IH]; intros x H.
  - injection H as <-. reflexivity.
  - simpl in H. destruct (Ascii.eqb a c).
    + pose proof (split_nonempty c r) as Hne. destruct (Str.split c r); [contradiction|].
      discriminate H.
    + destruct (Str.split c r) as [|h t] eqn:Hs.
      * exfalso. exact (split_nonempty c r Hs).
      * injection H as <- ->. rewrite (IH h eq_refl). reflexivity.
Qed.

(** X20. For a method other than DELETE, PUT and PATCH, a path
    [message/<rest>] or [messages/<rest>] that contains [/read], [/search] or
    [/unread-count] is sent to [/messages/<rest>] of the Group service: the
    singular form is rewritten to the plural one. *)
Theorem singular_message_paths_become_plural (w : world) (cfg : config)
    (method rest : string) (query : list (string * qval)) :
  String.eqb method "DELETE" = false ->
  String.eqb method "PUT" = false ->
  String.eqb method "PATCH" = false ->
  Str.includes ("/" +:+ rest) "/read" || Str.includes ("/" +:+ rest) "/search"
    || Str.includes ("/" +:+ rest) "/unread-count" = true ->
  build_url w method ("message/" +:+ rest) query (classify cfg ("message/" +:+ rest) query)
  = baseWithProtocol (GROUP_API_BASE_URL cfg) +:+ "/messages/" +:+ rest /\
  build_url w method ("messages/" +:+ rest) query (classify cfg ("messages/" +:+ rest) query)
  = baseWithProtocol (GROUP_API_BASE_URL cfg) +:+ "/messages/" +:+ rest.
Proof.
  intros Hd Hu Hp Hi.
  assert (forall h, Str.includes (h +:+ "/" +:+ rest) "/read"
                    || Str.includes (h +:+ "/" +:+ rest) "/search"
                    || Str.includes (h +:+ "/" +:+ rest) "/unread-count" = true) as Hinc.
  { intros h. apply orb_true_iff in Hi as [Hi|Hi]; [apply orb_true_iff in Hi as [Hi|Hi]|].
    - rewrite (includes_app_r h _ _ Hi). reflexivity.
    - rewrite (includes_app_r h _ _ Hi). apply orb_true_iff. left. apply orb_true_r.
    - rewrite (includes_app_r h _ _ Hi). apply orb_true_r. }
  split.
  - rewrite classify_message_prefix by (apply startsWith_spec; eexists; reflexivity).
    unfold build_url, is_message_path. cbn [baseUrl].
    assert (String.eqb ("message/" +:+ rest) "messages/history" = false) as -> by reflexivity.
    assert (String.eqb ("message/" +:+ rest) "message/history" = String.eqb rest "history")
      as -> by reflexivity.
    destruct (String.eqb rest "history") eqn:Hh.
    { apply String.eqb_eq in Hh. subst rest. reflexivity. }
    assert (Str.startsWith ("message/" +:+ rest) "presence/users" = false) as -> by reflexivity.
    assert (Str.startsWith ("message/" +:+ rest) "messages/" = false) as -> by reflexivity.
    assert (Str.startsWith ("message/" +:+ rest) "message/" = true) as Hm
        by (apply startsWith_spec; eexists; reflexivity).
    rewrite Hm, Hd, Hu, Hp.
    assert (Str.split "/" ("message/" +:+ rest) = "message" :: Str.split "/" rest) as ->
        by (apply (split_at_separator "/" "message" rest); reflexivity).
    assert (String.eqb ("message/" +:+ rest) "messages" = false) as -> by reflexivity.
    assert (String.eqb ("message/" +:+ rest) "message" = false) as -> by reflexivity.
    pose proof (Hinc "message") as Hi'.
    change ("message" +:+ "/" +:+ rest) with ("message/" +:+ rest) in Hi'. rewrite Hi'.
    assert (Str.replace_first "message/" "messages/" ("message/" +:+ rest)
            = "messages/" +:+ rest) as ->.
    { unfold Str.startsWith in Hm.
      change (Str.replace_first "message/" "messages/" ("message/" +:+ rest))
        with (if String.prefix "message/" ("message/" +:+ rest)
              then "messages/" +:+ Str.substring_from 8 ("message/" +:+ rest)
              else String "m" (Str.replace_first "message/" "messages/"
                                 ("essage/" +:+ rest))).
      rewrite Hm. reflexivity. }
    destruct (String.eqb method "GET"); [|rewrite !andb_false_r; reflexivity].
    destruct (Str.split "/" rest) as [|x [|y l]] eqn:Hs; [reflexivity| |reflexivity].
    apply split_singleton in Hs. subst x. reflexivity.
  - rewrite classify_message_prefix by (apply startsWith_spec; eexists; reflexivity).
    unfold build_url, is_message_path. cbn [baseUrl].
    assert (String.eqb ("messages/" +:+ rest) "message/history" = false) as -> by reflexivity.
    assert (String.eqb ("messages/" +:+ rest) "messages/history" = String.eqb rest "history")
      as -> by reflexivity.
    destruct (String.eqb rest "history") eqn:Hh.
    { apply String.eqb_eq in Hh. subst rest. reflexivity. }
    assert (Str.startsWith ("messages/" +:+ rest) "presence/users" = false) as -> by reflexivity.
    assert (Str.startsWith ("messages/" +:+ rest) "message/" = false) as -> by reflexivity.
    assert (Str.startsWith ("messages/" +:+ rest) "messages/" = true) as ->
        by (apply startsWith_spec; eexists; reflexivity).
    rewrite Hd, Hu, Hp.
    assert (String.eqb ("messages/" +:+ rest) "messages" = false) as -> by reflexivity.
    assert (String.eqb ("messages/" +:+ rest) "message" = false) as -> by reflexivity.
    pose proof (Hinc "messages") as Hi'.
    change ("messages" +:+ "/" +:+ rest) with ("messages/" +:+ rest) in Hi'. rewrite Hi'.
    rewrite !andb_false_r. reflexivity.
Qed.

Lemma singular_message_paths_become_plural_witness :
  build_url W "POST" "message/42/read" [] (classify default_config "message/42/read" [])
  = "http://localhost:8082/api/messages/42/read".
Proof.
  exact (proj1 (singular_message_paths_become_plural W default_config "POST" "42/read" []
                  eq_refl eq_refl eq_refl eq_refl)).
Defined.

(** ** The repair of messages/history URLs *)

(** X21. For a path that contains [messages/history], the URL the request is
    forwarded to is one the parser accepts, or else a repaired text that
    starts with [http://] or [https://] and in which two slashes in a row
    come only right after a colon. *)
Theorem history_url_is_accepted_or_repaired (w : world) (cfg : config) (req : request) :
  Str.includes (pathString req) "messages/history" = true ->
  (exists href, new_URL w (request_url w cfg req) = inr href) \/
  (has_protocol (request_url w cfg req) = true /\ slash_run (request_url w cfg req) = false).
Proof.
  intros Hh. unfold request_url, resolve_url, repair_history. rewrite Hh.
  destruct (new_URL w (add_query _ _)) as [e|href] eqn:Hu.
  - right. unfold ensureValidUrl. split; [|apply collapse_no_slash_run].
    apply collapse_keeps_protocol, protocol_added.
  - left. eauto.
Qed.

Lemma history_url_is_accepted_or_repaired_witness :
  (exists href,
     new_URL W (request_url W default_config
                  (get_request "messages/history" ∅ [("group_id", QStr "7")])) = inr href) \/
  (has_protocol (request_url W default_config
                   (get_request "messages/history" ∅ [("group_id", QStr "7")])) = true /\
   slash_run (request_url W default_config
                (get_request "messages/history" ∅ [("group_id", QStr "7")])) = false).
Proof.
  exact (history_url_is_accepted_or_repaired W default_config
           (get_request "messages/history" ∅ [("group_id", QStr "7")]) eq_refl).
Defined.

(** ** What reaches the client *)

(** X22. For a request that the handler answers itself (no preflight, and
    not handed to [sendProxy] or [proxyRequest], whose answer h3 writes) and
    whose path has no [/files/] segment, the headers the handler sets on the
    response are the four CORS headers and nothing else: no header of the
    upstream answer ([Set-Cookie], [Content-Type], ...) is passed on. *)
Theorem upstream_headers_are_dropped (w : world) (cfg : config) (req : request) :
  req_method req <> "OPTIONS" ->
  (handler w cfg req).2 <> RetDelegated ->
  Str.includes (pathString req) "/files/" = false ->
  eff_headers (handler w cfg req).1 = cors_headers.
Proof.
  intros Hm Hd Hp. revert Hd. unfold handler.
  destruct (handler_body_completes w cfg req)
    as [ | | | | | | | | | | |body r buffer Hf Hr Hok Hdl|body r e Hf Hr Hok Hdl| ].
  all: cbn [outer_catch fst snd]; intros Hd.
  12, 13: (unfold isFileDownload in Hdl; rewrite Hp, andb_false_r in Hdl; discriminate Hdl).
  2, 6: (exfalso; apply Hd; reflexivity).
  1: contradiction.
  all: reflexivity.
Qed.

Lemma upstream_headers_are_dropped_witness :
  headers_get (r_headers not_found_response) "content-type" = Some "application/json" /\
  eff_headers (handler (sample_world None not_found_response) default_config
                 (get_request "users/42" ∅ [])).1 !! "content-type" = None.
Proof.
  split; [reflexivity|].
  assert ((handler (sample_world None not_found_response) default_config
             (get_request "users/42" ∅ [])).2 <> RetDelegated) as Hd
    by (intros H; vm_compute in H; discriminate H).
  rewrite (upstream_headers_are_dropped (sample_world None not_found_response) default_config
             (get_request "users/42" ∅ []) ltac:(discriminate) Hd eq_refl).
  reflexivity.
Defined.

(** X23. An upstream answer with a 2xx status that is no file download is
    passed on by value: what [response.json()] parsed when the content type
    includes [application/json], the text of the body as a string otherwise.
    No status code is assigned. *)
Theorem successful_answer_is_passed_on (w : world) (cfg : config) (req : request)
    (c : fetch_call) (r : response) :
  eff_call (handler w cfg req).1 = Some (Fetched c) ->
  fetch w c = inr r ->
  r_ok r = true ->
  isFileDownload (request_route cfg req) (req_method req) (pathString req) r = false ->
  eff_status (handler w cfg req).1 = None /\
  (forall v, is_json (headers_get (r_headers r) "content-type") = true ->
             r_json r = Some v -> (handler w cfg req).2 = RetValue v) /\
  (forall t, is_json (headers_get (r_headers r) "content-type") = false ->
             r_text r = Some t -> (handler w cfg req).2 = RetValue (JStr t)).
Proof.
  intros Hc Hr Hok Hd. destruct (fetched_call w cfg req c Hc) as (body & Hf & ->).
  rewrite (handler_ok_answer w cfg req body r Hf Hr Hok), Hd. simpl.
  unfold success_value, read_response. split; [reflexivity|]. split.
  - intros v -> ->. reflexivity.
  - intros t -> ->. reflexivity.
Qed.

Lemma successful_answer_is_passed_on_witness :
  (handler W default_config (get_request "users" ∅ [])).2 = RetValue (JObj ∅).
Proof.
  assert (eff_call (handler W default_config (get_request "users" ∅ [])).1
          = Some (Fetched (request_options W default_config (get_request "users" ∅ []) None)))
    as Hc by (vm_compute; reflexivity).
  exact (proj1 (proj2 (successful_answer_is_passed_on W default_config
                         (get_request "users" ∅ []) _ ok_response
                         Hc eq_refl eq_refl eq_refl))
           (JObj ∅) eq_refl eq_refl).
Defined.

(** ** Reading the body *)

(** X24. When the body of a POST, PUT, PATCH or DELETE that is no upload
    cannot be read, the request is not forwarded: the answer is the proxy
    error "Failed to process request body", which replaces the message of the
    error [readBody] raised, and no outbound call is made. *)
Theorem unreadable_body_is_not_forwarded (w : world) (cfg : config) (req : request)
    (e : exn) :
  forwarded cfg req ->
  has_body (req_method req) = true ->
  is_upload req = false ->
  readBody w = inl e ->
  handler w cfg req
  = (cors_effects, RetValue (proxy_error w (Error w "Failed to process request body"))).
Proof.
  intros [[Hm Hws] Hi] Hb Hu Hr.
  assert (request_body w req = inl (Error w "Failed to process request body")) as Hbody.
  { unfold request_body. rewrite Hb, Hr. reflexivity. }
  unfold handler.
  destruct (handler_body_completes w cfg req) as [ | | | | | | |e'| | | | | | ];
    try contradiction; try congruence;
    try (rewrite Hb, Hu in *; discriminate);
    try (destruct Hws; congruence);
    try (match goal with H : fetched _ _ _ _ |- _ => destruct H as (_ & _ & H & _) end;
         congruence).
  assert (e' = Error w "Failed to process request body") as -> by congruence.
  reflexivity.
Qed.

Lemma unreadable_body_is_not_forwarded_witness :
  handler (with_readBody W (inl {| e_message := "Unexpected token"; e_stack := "" |}))
    default_config
    {| req_method := "POST"; req_path := "users"; req_headers := ∅; req_query := [] |}
  = (cors_effects,
     RetValue (JObj (<["message" := JStr "Failed to process request body"]>
                       (<["error" := JStr "Proxy Error"]> ∅)))).
Proof.
  refine (unreadable_body_is_not_forwarded
            (with_readBody W (inl {| e_message := "Unexpected token"; e_stack := "" |}))
            default_config
            {| req_method := "POST"; req_path := "users"; req_headers := ∅; req_query := [] |}
            {| e_message := "Unexpected token"; e_stack := "" |} _ eq_refl eq_refl eq_refl).
  split; [split; [discriminate|left; reflexivity]|reflexivity].
Defined.

(** X25. A request whose method is not POST, PUT, PATCH or DELETE is
    answered without its body being read: the answer is the same whatever
    [readBody] would yield, an error included. *)
Theorem bodyless_methods_do_not_read_the_body (w : world) (cfg : config) (req : request)
    (b : exn + option json) :
  has_body (req_method req) = false ->
  handler (with_readBody w b) cfg req = handler w cfg req.
Proof.
  intros Hb. unfold handler, handler_body, dispatch, forward. cbv zeta.
  rewrite Hb. reflexivity.
Qed.

Lemma bodyless_methods_do_not_read_the_body_witness :
  handler (with_readBody W (inl {| e_message := "aborted"; e_stack := "" |})) default_config
    (get_request "users" ∅ [])
  = handler W default_config (get_request "users" ∅ []).
Proof.
  exact (bodyless_methods_do_not_read_the_body W default_config (get_request "users" ∅ [])
           (inl {| e_message := "aborted"; e_stack := "" |}) eq_refl).
Defined.

(** ** The Authorization sent upstream *)

Lemma bearer_prefix a : Str.startsWith (bearer a) "Bearer " = true.
Proof.
  unfold bearer. destruct (Str.startsWith a "Bearer ") eqn:H; [exact H|].
  apply startsWith_spec. eexists. reflexivity.
Qed.

Lemma authorization_header_bearer (req : request) (isAuth : bool) (a : string) :
  authorization_header req isAuth = Some a -> Str.startsWith a "Bearer " = true.
Proof.
  unfold authorization_header. destruct (header req "authorization") as [x|].
  - intros [= <-]. apply bearer_prefix.
  - destruct (header req "cookie") as [c|]; [|discriminate].
    destruct (negb isAuth); [|discriminate].
    destruct (cookie_auth_token c) as [t|]; [|discriminate].
    intros [= <-]. apply startsWith_spec. eexists. reflexivity.
Qed.

Lemma upload_authorization_bearer (req : request) (isAuth : bool) (a : string) :
  upload_authorization req (authorization_header req isAuth) = Some a ->
  Str.startsWith a "Bearer " = true.
Proof.
  unfold upload_authorization, truthy.
  destruct (authorization_header req isAuth) as [x|] eqn:Hx.
  - destruct (Str.nonempty x).
    + intros [= <-]. exact (authorization_header_bearer req isAuth x Hx).
    + destruct (header req "authorization") as [y|].
      * intros [= <-]. apply bearer_prefix.
      * destruct (header req "cookie") as [c|]; [|discriminate].
        destruct (cookie_auth_token c) as [t|]; [|discriminate].
        intros [= <-]. apply startsWith_spec. eexists. reflexivity.
  - destruct (header req "authorization") as [y|].
    + intros [= <-]. apply bearer_prefix.
    + destruct (header req "cookie") as [c|]; [|discriminate].
      destruct (cookie_auth_token c) as [t|]; [|discriminate].
      intros [= <-]. apply startsWith_spec. eexists. reflexivity.
Qed.

(** X26. Whatever the transport is ([fetch], [sendProxy] for an upload,
    [proxyRequest] for a WebSocket upgrade), an [Authorization] header that
    the handler sends upstream starts with [Bearer ]: the inbound header, the
    cookie token and the query token are never sent bare. *)
Theorem outbound_authorization_is_bearer (w : world) (cfg : config) (req : request)
    (o : outbound) (a : string) :
  eff_call (handler w cfg req).1 = Some o ->
  outbound_headers o !! "Authorization" = Some a ->
  Str.startsWith a "Bearer " = true.
Proof.
  unfold handler.
  destruct (handler_body_completes w cfg req); simpl; intros Hc;
    try discriminate Hc; injection Hc as <-; simpl; intros Ha.
  - rewrite websocket_headers_authorization in Ha.
    destruct (websocket_token req) as [t|]; [|discriminate Ha].
    injection Ha as <-. apply startsWith_spec. eexists. reflexivity.
  - rewrite proxyHeaders_authorization in Ha.
    exact (upload_authorization_bearer _ _ _ Ha).
  - rewrite fetch_headers_authorization in Ha. exact (authorization_header_bearer _ _ _ Ha).
  - rewrite fetch_headers_authorization in Ha. exact (authorization_header_bearer _ _ _ Ha).
  - rewrite fetch_headers_authorization in Ha. exact (authorization_header_bearer _ _ _ Ha).
  - rewrite fetch_headers_authorization in Ha. exact (authorization_header_bearer _ _ _ Ha).
  - rewrite fetch_headers_authorization in Ha. exact (authorization_header_bearer _ _ _ Ha).
Qed.

Lemma outbound_authorization_is_bearer_witness :
  req_headers (get_request "users" (<["authorization" := "abc.def.ghi"]> ∅) [])
    !! "authorization" = Some "abc.def.ghi" /\
  Str.startsWith "Bearer abc.def.ghi" "Bearer " = true.
Proof.
  split; [reflexivity|].
  assert (eff_call (handler W default_config
                      (get_request "users" (<["authorization" := "abc.def.ghi"]> ∅) [])).1
          = Some (Fetched (request_options W default_config
                             (get_request "users" (<["authorization" := "abc.def.ghi"]> ∅) [])
                             None))) as Hc
    by (vm_compute; reflexivity).
  exact (outbound_authorization_is_bearer W default_config _ _ "Bearer abc.def.ghi" Hc eq_refl).
Defined.

(** ** The token of the cookie *)

(** X27. The [auth_token] of a cookie header with a single cookie and no
    white space around it ([trim] on the Latin-1 text of the header leaves
    it as it is) is what stands between the first and the second [=]: a
    value that contains [=] (the padding of a base64 text, say) is cut there.
    For a request that is no auth endpoint and has no [Authorization]
    header, the value that is left is what is sent as the [Bearer] token. *)
Theorem cookie_token_is_cut_at_equals (req : request) (c v rest : string) :
  Str.has_char ";" c = false ->
  Str.trim_latin1 c = c ->
  Str.has_char "=" v = false ->
  c = "auth_token=" +:+ v \/ c = "auth_token=" +:+ v +:+ "=" +:+ rest ->
  cookie_auth_token c = truthy (Some v) /\
  (header req "authorization" = None ->
   header req "cookie" = Some c ->
   v <> "" ->
   authorization_header req false = Some ("Bearer " +:+ v)).
Proof.
  intros Hsemi Htrim Hv Hc.
  assert (exists l, Str.split "=" c = "auth_token" :: v :: l) as [l Hs].
  { destruct Hc as [-> | ->].
    - exists []. change ("auth_token=" +:+ v) with ("auth_token" +:+ String "=" v).
      rewrite (split_at_separator "=" "auth_token" v eq_refl).
      rewrite (split_without_separator _ _ Hv). reflexivity.
    - exists (Str.split "=" rest).
      change ("auth_token=" +:+ v +:+ "=" +:+ rest)
        with ("auth_token" +:+ String "=" (v +:+ String "=" rest)).
      rewrite (split_at_separator "=" "auth_token" _ eq_refl).
      rewrite (split_at_separator "=" v rest Hv). reflexivity. }
  assert (cookie_auth_token c = truthy (Some v)) as Ht.
  { unfold cookie_auth_token, parse_cookies.
    rewrite (split_without_separator _ _ Hsemi). simpl foldl.
    rewrite Htrim, Hs. simpl nth. simpl nth_error. rewrite lookup_insert_eq. reflexivity. }
  split; [exact Ht|].
  intros Ha Hk Hne. unfold authorization_header. rewrite Ha, Hk, Ht.
  unfold truthy, Str.nonempty. apply String.eqb_neq in Hne. rewrite Hne. reflexivity.
Qed.

Lemma cookie_token_is_cut_at_equals_witness :
  cookie_auth_token "auth_token=YWJj=" = Some "YWJj" /\
  cookie_auth_token ("auth_token=abc" +:+ Str.bytes [160]) = Some "abc".
Proof.
  split; [|reflexivity].
  exact (proj1 (cookie_token_is_cut_at_equals (get_request "users" ∅ []) "auth_token=YWJj="
                  "YWJj" "" eq_refl eq_refl eq_refl (or_intror eq_refl))).
Defined.

(** ** Uploads as they are handed over *)

(** The headers object of the upload branch, name by name. *)
Lemma proxyHeaders_content (req : request) (auth : option string) (k : string) :
  proxyHeaders req auth !! k
  = if String.eqb k "Authorization" then upload_authorization req auth
    else if copied_header k then req_headers req !! k else None.
Proof.
  destruct (String.eqb k "Authorization") eqn:Hk.
  - apply String.eqb_eq in Hk. subst k. apply proxyHeaders_authorization.
  - apply String.eqb_neq in Hk. unfold proxyHeaders. rewrite lookup_union_l.
    + destruct (copied_header k) eqn:Hc.
      * destruct (req_headers req !! k) as [v|] eqn:Hv.
        -- apply map_lookup_filter_Some. split; [exact Hv|exact Hc].
        -- apply map_lookup_filter_None. left. exact Hv.
      * apply map_lookup_filter_None. right. intros v _. simpl. rewrite Hc. discriminate.
    + unfold with_authorization. destruct (upload_authorization req auth).
      * rewrite lookup_insert_ne by congruence. apply lookup_empty.
      * apply lookup_empty.
Qed.

(** X28. A POST, PUT, PATCH or DELETE whose [Content-Type] contains
    [multipart/form-data], once past the WebSocket branches, is handed to
    [sendProxy] with the parsed resolved URL, or answered with the proxy
    error "Failed to proxy file upload" when that URL does not parse.  The
    handler does not read the body (the outcome is the same whatever
    [readBody] would yield).  The headers object it passes holds the
    resolved [Authorization] under that name, and under every other name the
    inbound header of that name unless the name is, in lower case,
    [content-type], [content-length] or [authorization]: no [Content-Type]
    is among them. *)
Theorem upload_is_delegated (w : world) (cfg : config) (req : request) :
  has_body (req_method req) = true ->
  is_upload req = true ->
  forwarded cfg req ->
  handler w cfg req =
    match new_URL w (request_url w cfg req) with
    | inr target =>
        (called (SentProxy target (proxyHeaders req (request_authorization req))),
         RetDelegated)
    | inl _ => (cors_effects, RetValue (proxy_error w (Error w "Failed to proxy file upload")))
    end /\
  (forall b, handler (with_readBody w b) cfg req = handler w cfg req) /\
  (forall k, proxyHeaders req (request_authorization req) !! k
             = if String.eqb k "Authorization"
               then upload_authorization req (request_authorization req)
               else if copied_header k then req_headers req !! k else None) /\
  (forall k, Str.toLowerCase k = "content-type" ->
             proxyHeaders req (request_authorization req) !! k = None).
Proof.
  intros Hb Hu Hf.
  assert (forall w', handler w' cfg req =
    match new_URL w' (request_url w' cfg req) with
    | inr target =>
        (called (SentProxy target (proxyHeaders req (request_authorization req))),
         RetDelegated)
    | inl _ => (cors_effects, RetValue (proxy_error w' (Error w' "Failed to proxy file upload")))
    end) as Heq.
  { intros w'. unfold handler.
    pose proof (handler_body_completes w' cfg req) as Hc.
    destruct Hf as [[Hm Hws] Hp].
    inversion Hc as [ Ho | t h _ Hw Ht | t e _ Hw Ht | tok _ Hi | _ Hi
                    | target _ _ Hurl | e _ _ Hurl | e _ Hn | body e _ Hn
                    | body e Hfe | body r Hfe | body r buffer Hfe | body r e Hfe
                    | body r Hfe ];
      try (destruct Hfe as (_ & Hn & _));
      try congruence;
      try (destruct Hws; congruence);
      try (rewrite Hb, Hu in Hn; discriminate Hn).
    - rewrite Hurl. reflexivity.
    - rewrite Hurl. reflexivity. }
  split; [apply Heq|]. split; [|split].
  - intros b. rewrite !Heq. reflexivity.
  - intros k. apply proxyHeaders_content.
  - intros k Hk. apply proxyHeaders_lookup.
    + unfold copied_header. rewrite Hk. reflexivity.
    + intros ->. discriminate Hk.
Qed.

Lemma upload_is_delegated_witness :
  eff_call (handler W default_config traced_upload).1
  = Some (SentProxy "http://localhost:8081/api/users/profile/avatar"
            (proxyHeaders traced_upload (request_authorization traced_upload))) /\
  proxyHeaders traced_upload (request_authorization traced_upload) !! "x-request-id"
  = Some "7" /\
  proxyHeaders traced_upload (request_authorization traced_upload) !! "Authorization"
  = Some "Bearer abc.def.ghi" /\
  proxyHeaders traced_upload (request_authorization traced_upload) !! "authorization" = None /\
  proxyHeaders traced_upload (request_authorization traced_upload) !! "content-type" = None.
Proof.
  assert (forwarded default_config traced_upload) as Hf
    by (split; [split|]; [discriminate|left; reflexivity|reflexivity]).
  destruct (upload_is_delegated W default_config traced_upload eq_refl eq_refl Hf)
    as (Hh & _ & Hk & Hct).
  split; [rewrite Hh; reflexivity|].
  split; [rewrite Hk; reflexivity|].
  split; [rewrite Hk; reflexivity|].
  split; [rewrite Hk; reflexivity|].
  exact (Hct "content-type" eq_refl).
Defined.

(** ** Downloads that are taken for downloads *)

(** X29. A GET that is routed to the File service, whose path contains
    [/files/], and whose upstream answer is 2xx with a non-empty
    [Content-Type] that does not include [application/json], is answered
    with the bytes of the upstream body as they are, and every upstream
    header is set on the response (a name that comes twice keeps its last
    value). *)
Theorem file_download_is_raw (w : world) (cfg : config) (req : request)
    (href : string) (r : response) (ct buffer : string) :
  req_method req = "GET" ->
  forwarded cfg req ->
  isFileRequest (request_route cfg req) = true ->
  Str.includes (pathString req) "/files/" = true ->
  new_URL w (request_url w cfg req) = inr href ->
  fetch w (request_options w cfg req None) = inr r ->
  r_ok r = true ->
  headers_get (r_headers r) "content-type" = Some ct ->
  ct <> "" ->
  Str.includes ct "application/json" = false ->
  r_arrayBuffer r = inr buffer ->
  (handler w cfg req).2 = RetBytes buffer /\
  eff_headers (handler w cfg req).1 = copied_headers (r_headers r) cors_headers /\
  (forall k v,
     NoDup (map (fun kv : string * string => Str.toLowerCase kv.1) (r_headers r)) ->
     (k, v) ∈ r_headers r ->
     eff_headers (handler w cfg req).1 !! Str.toLowerCase k = Some v).
Proof.
  intros Hm Hf Hfile Hpath Hurl Hr Hok Hct Hne Hjson Hbuf.
  pose proof (get_is_fetched w cfg req href Hm Hf Hurl) as Hfe.
  rewrite (handler_ok_answer w cfg req None r Hfe Hr Hok).
  assert (isFileDownload (request_route cfg req) (req_method req) (pathString req) r = true)
    as ->.
  { unfold isFileDownload, truthy, Str.nonempty. rewrite Hfile, Hpath, Hm, Hct.
    apply String.eqb_neq in Hne. rewrite Hne. simpl. rewrite Hjson. reflexivity. }
  rewrite Hbuf. split; [reflexivity|]. split; [reflexivity|].
  intros k v Hnd Hin. simpl. apply copied_headers_lookup; assumption.
Qed.

Lemma file_download_is_raw_witness :
  (handler (sample_world None image_response) default_config
     (get_request "media/files/logo.png" ∅ [])).2 = RetBytes png_bytes /\
  eff_headers (handler (sample_world None image_response) default_config
                 (get_request "media/files/logo.png" ∅ [])).1 !! "content-type"
    = Some "image/png".
Proof.
  destruct (file_download_is_raw (sample_world None image_response) default_config
              (get_request "media/files/logo.png" ∅ [])
              "http://localhost:8084/api/media/files/logo.png" image_response
              "image/png" png_bytes)
    as (Hb & _ & Hh); try reflexivity.
  - split; [split|]; [discriminate|left; reflexivity|reflexivity].
  - discriminate.
  - split; [exact Hb|].
    apply (Hh "content-type" "image/png").
    + apply (bool_decide_unpack _). reflexivity.
    + apply (bool_decide_unpack _). reflexivity.
Defined.
